(** * gis_workflow.py: the staged batch pipeline and the BQART engine

    A shallow embedding of the class [GISbatch] of [src/gis_workflow.py]
    (Python 2): the stage manifests, the climate cache, the joined zone
    tables and the per-zone sediment-yield computation of [do_bqart].

    Conventions of the embedding.
    - A Python number is an [Int] (a [Z]) or a [Float].  Floats are
      idealised as real numbers: rounding, overflow, infinities and NaN are
      not modelled.  The operators keep Python 2's typing: [/] on two ints
      is floor division, any other mix is real division.
    - An exception is a value of [exn]; code that can raise returns
      [result A = exn + A] and is sequenced with [x ← e; k].
    - A dict is a [gmap]; a file-system path is the list of its components,
      [os.path.join] appends components, and the empty path stands for the
      empty string.  Python 2 enumerates a dict in hash order; the model
      enumerates in [map_to_list] order, and no statement below depends on
      which order that is.
    - The file system, the directories and the sequence of geoprocessing
      calls made so far form the [world], threaded through every method. *)

From Stdlib Require Import Reals Lra ZArith String Ascii DecimalString DecimalPos.
From stdpp Require Import base gmap strings list.

Local Open Scope Z_scope.
Local Open Scope string_scope.

(** ** Python numbers *)

Inductive num :=
| Int (z : Z)
| Float (r : R).

Definition to_R (x : num) : R :=
  match x with
  | Int z => IZR z
  | Float r => r
  end.

(** [float(x)] *)
Definition py_float (x : num) : num := Float (to_R x).

(** ** Exceptions and the result monad *)

Inductive key :=
| KInt (z : Z)
| KStr (s : string).

Inductive exn :=
| ZeroDivisionError (msg : string)
| KeyError (k : key)
| NameError (msg : string)
| UnboundLocalError (msg : string)
| ValueError (msg : string)
| IndexError (msg : string)
| TypeError (msg : string)
| AttributeError (msg : string)
| OSError (msg : string)
| IOError (msg : string)
| RuntimeError (msg : string)
| ExecuteError (msg : string).

Definition result (A : Type) : Type := (exn + A)%type.

Definition ok {A} (a : A) : result A := inr a.
Definition raise {A} (e : exn) : result A := inl e.

#[global] Instance result_ret : MRet result := fun A a => inr a.
#[global] Instance result_bind : MBind result :=
  fun A B f m => match m with inl e => inl e | inr a => f a end.

(** ** Arithmetic of Python 2 *)

Definition py_sub (x y : num) : num :=
  match x, y with
  | Int a, Int b => Int (a - b)
  | _, _ => Float (to_R x - to_R y)
  end.

Definition py_mul (x y : num) : num :=
  match x, y with
  | Int a, Int b => Int (a * b)
  | _, _ => Float (to_R x * to_R y)
  end.

(** [x / y], without [from __future__ import division]: two ints divide
    with floor ([Z.div] rounds towards minus infinity, as Python does);
    a zero divisor raises. *)
Definition py_div (x y : num) : result num :=
  match x, y with
  | Int a, Int b =>
      if decide (b = 0) then
        raise (ZeroDivisionError "integer division or modulo by zero")
      else ok (Int (a / b))
  | _, _ =>
      if Req_dec_T (to_R y) 0 then
        raise (ZeroDivisionError "float division by zero")
      else ok (Float (to_R x / to_R y))
  end.

(** [math.pow(x, y)]: both arguments are converted to float.  A negative
    base with a fractional exponent, and zero to a negative power, are
    domain errors. *)
Definition math_pow (x y : num) : result num :=
  let a := to_R x in
  let b := to_R y in
  if Rlt_dec 0 a then ok (Float (Rpower a b))
  else if Req_dec_T a 0 then
    if Rlt_dec 0 b then ok (Float 0)
    else if Req_dec_T b 0 then ok (Float 1)
    else raise (ValueError "math domain error")
  else if Req_dec_T b (IZR (Int_part b)) then
    ok (Float (powerRZ a (Int_part b)))
  else raise (ValueError "math domain error").

(** [str(k)] of an int and [int(s)] of a string.  [int] accepts an
    optional sign followed by decimal digits; surrounding blanks, which
    Python also accepts, are not modelled. *)
Definition py_str (k : Z) : string := NilZero.string_of_int (Z.to_int k).

Definition py_int (s : string) : result Z :=
  let '(negative, digits) :=
    match s with
    | String "-" rest => (true, rest)
    | String "+" rest => (false, rest)
    | _ => (false, s)
    end in
  match digits, NilEmpty.uint_of_string digits with
  | String _ _, Some d =>
      ok (if negative : bool then - Z.of_uint d else Z.of_uint d)
  | _, _ => raise (ValueError "invalid literal for int() with base 10")
  end.


(** ** Data model *)

(** A path is the list of its components. *)
Definition path : Type := list string.

(** [os.path.join(a, n1, ..., nk)] for relative names. *)
Definition os_path_join (a : path) (names : list string) : path := (a ++ names)%list.

(** A raster gives a value to every cell. *)
Definition raster : Type := Z * Z -> R.

(** One row of a zonal statistics table, with the fields [do_bqart]
    reads. *)
Record zrow := ZRow {
  VALUE : Z;
  MEAN : num;
  MAX : num;
  MIN : num;
  AREA : num
}.

(** One feature of the fault dataset, and what [get_fault_data] keeps of
    it. *)
Record fault_meta := FaultMeta {
  name : string;
  slip_min : num;
  slip_max : num;
  age_min : num;
  age_max : num;
  sense : string
}.

Record feature := Feature {
  FID : Z;
  attrs : fault_meta
}.

(** One row of the route event table: [OID], the route id (fifth field)
    and [MEAS], as the csv writer prints them. *)
Record event := Event {
  OID : string;
  RID : string;
  MEAS : string
}.

(** A value stored in a stage manifest. *)
Inductive mval :=
| MPath (p : path)
| MNum (n : num)
| MMeta (m : gmap Z fault_meta).

(** Python's truth value of a manifest value: the empty string, zero and
    the empty dict are false. *)
Definition truthy (v : mval) : bool :=
  match v with
  | MPath [] => false
  | MPath (_ :: _) => true
  | MNum (Int z) => bool_decide (z ≠ 0)
  | MNum (Float r) => if Req_dec_T r 0 then false else true
  | MMeta m => bool_decide (m ≠ ∅)
  end.

(** A cell of an output record. *)
Inductive cell :=
| CNum (n : num)
| CStr (s : string).

(** A geoprocessing call: the tool, its input datasets, its other
    arguments and the dataset it writes. *)
Record gpcall := GP {
  tool : string;
  inputs : list path;
  params : list string;
  output : path
}.

(** What a file holds.  A csv file read back by [csv.reader] is a list of
    rows of strings ([FCsv]); the sediment-yield table keeps the cells as
    they were handed to the writer ([FRecords]), since the decimal
    printing of a float is not modelled.  A YAML file holds the document
    that [yaml.dump] printed and [yaml.load] parses back; [FData] is any
    other derived dataset, tagged with the call that made it. *)
Inductive file :=
| FRaster (r : raster)
| FTable (rows : list zrow)
| FFeatures (rows : list feature)
| FEvents (rows : list event)
| FCsv (rows : list (list string))
| FRecords (header : list string) (rows : list (list cell))
| FYaml (doc : gmap string mval)
| FData (c : gpcall).

Record world := World {
  fs : gmap path file;
  dirs : gset path;
  calls : list gpcall
}.

Definition isfile (w : world) (p : path) : bool := bool_decide (p ∈ dom (fs w)).
Definition isdir (w : world) (p : path) : bool := bool_decide (p ∈ dirs w).
Definition exists_ (w : world) (p : path) : bool := isfile w p || isdir w p.

Definition dirname (p : path) : path := removelast p.

(** [os.makedirs(p)]: fails when [p] exists, else creates [p] and the
    directories above it. *)
Definition ancestors (p : path) : list path :=
  map (fun n => take n p) (seq 1 (length p)).

Definition makedirs (p : path) (w : world) : result world :=
  if exists_ w p then raise (OSError "file exists")
  else ok {| fs := fs w; dirs := list_to_set (ancestors p) ∪ dirs w; calls := calls w |}.

(** [os.chdir(p)] *)
Definition chdir (p : path) (w : world) : result unit :=
  if isdir w p then ok tt else raise (OSError "no such directory").

(** [open(p, 'w')] followed by a write of the whole content. *)
Definition write_file (p : path) (f : file) (w : world) : result world :=
  if isdir w (dirname p) then
    ok {| fs := <[p := f]> (fs w); dirs := dirs w; calls := calls w |}
  else raise (IOError "no such file or directory").

(** ** The BQART engine: [GISbatch.do_bqart] *)

(** [arcpy.SearchCursor(table)] over a zonal statistics table. *)
Definition SearchCursor (w : world) (p : path) : result (list zrow) :=
  match fs w !! p with
  | Some (FTable rows) => ok rows
  | _ => raise (RuntimeError "ERROR 999999: Error executing function")
  end.

(** [d = {}; for row in cursor: d.update({row.VALUE: f(row)})] *)
Definition dict_of (f : zrow -> num) (rows : list zrow) : gmap Z num :=
  foldl (fun d row => <[VALUE row := f row]> d) ∅ rows.

(** [d[k]] on a dict keyed by zone id. *)
Definition getitem (d : gmap Z num) (k : Z) : result num :=
  match d !! k with
  | Some v => ok v
  | None => raise (KeyError (KInt k))
  end.

(** [csv.reader] over an open file.  Only csv files are modelled; the
    reader rejects the bytes of the other kinds. *)
Definition csv_reader (f : file) : result (list (list string)) :=
  match f with
  | FCsv rows => ok rows
  | _ => raise (ValueError "line contains NULL byte")
  end.

(** [for row in fault_data: fault_data_output.update({row[0]: [row[1], row[2]]})];
    the two-element list is kept as a pair. *)
Fixpoint fault_rows (rows : list (list string))
    (d : gmap string (string * string)) : result (gmap string (string * string)) :=
  match rows with
  | [] => ok d
  | (r0 :: r1 :: r2 :: _) :: rest => fault_rows rest (<[r0 := (r1, r2)]> d)
  | _ :: _ => raise (IndexError "list index out of range")
  end.

(** Lines 637-647: the fault table is read when [fault_data_path] is true
    and names something that exists.  The second component tells whether
    the loop over the csv rows ran at least once. *)
Definition load_fault_data (w : world) (fault_data_path : mval)
    : result (gmap string (string * string) * bool) :=
  if truthy fault_data_path then
    match fault_data_path with
    | MPath p =>
        if exists_ w p then
          match fs w !! p with
          | Some f =>
              rows ← csv_reader f;
              d ← fault_rows rows ∅;
              ok (d, match rows with [] => false | _ :: _ => true end)
          | None => raise (IOError "is a directory")
          end
        else ok (∅, false)
    | _ => raise (TypeError "coercing to Unicode: need string or buffer")
    end
  else ok (∅, false).

(** The length of the string a path stands for: its components and one
    separator between two of them. *)
Definition path_text_length (p : path) : Z :=
  Z.of_nat (sum_list (map String.length p) + (length p - 1)).

(** [fault_meta_data[i]] followed by a field access. *)
Definition meta_getitem (v : mval) (i : Z) : result fault_meta :=
  match v with
  | MMeta m =>
      match m !! i with
      | Some x => ok x
      | None => raise (KeyError (KInt i))
      end
  | MPath p =>
      if decide (- path_text_length p <= i < path_text_length p) then
        raise (TypeError "string indices must be integers, not str")
      else raise (IndexError "string index out of range")
  | MNum _ => raise (TypeError "object has no attribute '__getitem__'")
  end.

(** [uplift_rate / float(1000)] on a manifest value. *)
Definition mval_div (v : mval) (y : num) : result num :=
  match v with
  | MNum n => py_div n y
  | _ => raise (TypeError "unsupported operand type(s) for /")
  end.

Definition density : num := Int 2700.
Definition omega : num := Float (6 / 10000).
Definition B : num := Int 1.

(** The local variables of one turn of the loop, lines 677-722. *)
Module zone.
Record vars := Vars {
  precip : num;
  area_m_squared : num;
  relief : num;
  temp : num;
  precip_m : num;
  relief_km : num;
  area_km_squared : num;
  precip_m3_yr : num;
  Qw_s : num;
  Qw_km_yr : num;
  A : num;
  Qs_MT_yr : num;
  Qs_m3_yr : num;
  Qs_m_yr : num;
  Qs_mm_yr : num
}.
End zone.

Definition bqart_vars (temps precips max_reliefs min_reliefs areas : gmap Z num)
    (k : Z) : result zone.vars :=
  precip ← getitem precips k;
  area_m_squared ← getitem areas k;
  hi ← getitem max_reliefs k;
  lo ← getitem min_reliefs k;
  let relief := py_sub hi lo in
  t ← getitem temps k;
  temp ← py_div t (Int 10);
  precip_m ← py_div precip (py_float (Int 1000));
  relief_km ← py_div relief (py_float (Int 1000));
  area_km_squared ← py_div area_m_squared (py_float (Int 1000000));
  let precip_m3_yr := py_mul precip_m (py_float area_m_squared) in
  Qw_s ← py_div precip_m3_yr (py_float (Int (60 * 60 * 24 * 365)));
  q ← py_div (py_mul Qw_s (Int 31536000)) (Int 1000000000);
  Qw_km_yr ← math_pow q (Float (31 / 100));
  A ← math_pow area_km_squared (Float (5 / 10));
  let Qs_MT_yr :=
    py_mul (py_mul (py_mul (py_mul (py_mul omega B) Qw_km_yr) A) relief_km) temp in
  per_MT ← py_div (Int 1000000000) density;
  let Qs_m3_yr := py_mul Qs_MT_yr (py_mul per_MT (Float (13 / 10))) in
  Qs_m_yr ← py_div Qs_m3_yr (py_float area_m_squared);
  let Qs_mm_yr := py_mul Qs_m_yr (py_float (Int 1000)) in
  ok (zone.Vars precip area_m_squared relief temp precip_m relief_km area_km_squared
        precip_m3_yr Qw_s Qw_km_yr A Qs_MT_yr Qs_m3_yr Qs_m_yr Qs_mm_yr).

(** Line 724: the fourteen base fields of the record of zone [k]. *)
Definition qs_base (k : Z) (v : zone.vars) : list cell :=
  [CNum (Int k); CNum (zone.precip v); CNum omega; CNum B; CNum (zone.Qw_s v);
   CNum (zone.Qw_km_yr v); CNum (zone.A v); CNum (zone.relief_km v);
   CNum (zone.temp v); CNum (zone.Qs_MT_yr v); CNum density;
   CNum (zone.Qs_m3_yr v); CNum (zone.Qs_m_yr v); CNum (zone.Qs_mm_yr v)].

(** Lines 728-754: the tectonic fields appended to the base record.  The
    [else] belongs to the outer test, the emptiness of the whole fault
    table.  In the fault branch the inner test is on a two-element list,
    which is always true.  In the uniform branch line 752 reads the name
    [Area_square_m], which no statement of the module binds. *)
Definition bqart_tectonic (fault_data_output : gmap string (string * string))
    (fault_meta_data uplift_rate : mval) (k : Z) (area_m_squared : num)
    : result (list cell) :=
  if bool_decide (fault_data_output ≠ ∅) then
    match fault_data_output !! py_str k with
    | None => raise (KeyError (KStr (py_str k)))
    | Some (fault_id, distance) =>
        i ← py_int fault_id;
        m ← meta_getitem fault_meta_data i;
        let fault_slip_mm_yr := slip_max m in
        slip_m ← py_div fault_slip_mm_yr (py_float (Int 1000));
        Q_tectonic ← py_div (py_mul area_m_squared slip_m) (py_float density);
        i' ← py_int fault_id;
        m' ← meta_getitem fault_meta_data i';
        ok [CNum fault_slip_mm_yr; CNum Q_tectonic; CStr fault_id;
            CStr (name m'); CStr distance]
    end
  else
    let Uplift_mm_yr := uplift_rate in
    Uplift_metres_yr ← mval_div Uplift_mm_yr (py_float (Int 1000));
    raise (NameError "global name 'Area_square_m' is not defined").

(** The body of the loop for one key. *)
Definition bqart_zone (temps precips max_reliefs min_reliefs areas : gmap Z num)
    (fault_data_output : gmap string (string * string))
    (fault_meta_data uplift_rate : mval) (k : Z) : result (list cell) :=
  v ← bqart_vars temps precips max_reliefs min_reliefs areas k;
  extra ← bqart_tectonic fault_data_output fault_meta_data uplift_rate k
            (zone.area_m_squared v);
  ok (qs_base k v ++ extra)%list.

(** [d.keys()] *)
Definition keys (d : gmap Z num) : list Z := (map_to_list d).*1.

Definition nonempty {A} (l : list A) : bool :=
  match l with [] => false | _ :: _ => true end.

Definition do_bqart (w : world) (pz_data tz_data ez_data : path)
    (fault_data_path fault_meta_data uplift_rate : mval)
    : result (list (list cell)) :=
  t_rows ← SearchCursor w tz_data;
  p_rows ← SearchCursor w pz_data;
  e_rows ← SearchCursor w ez_data;
  let temps := dict_of MEAN t_rows in
  let precips := dict_of MEAN p_rows in
  let max_reliefs := dict_of MAX e_rows in
  let min_reliefs := dict_of MIN e_rows in
  let areas := dict_of AREA e_rows in
  '(fault_data_output, csv_row) ← load_fault_data w fault_data_path;
  (* [del row]: the loop variable is bound only if some loop ran *)
  if nonempty t_rows || nonempty p_rows || nonempty e_rows || csv_row then
    mapM (bqart_zone temps precips max_reliefs min_reliefs areas
            fault_data_output fault_meta_data uplift_rate) (keys precips)
  else raise (UnboundLocalError "local variable 'row' referenced before assignment").

(** ** The output table: [GISbatch.save_data_to_csv] *)

Definition base_headers : list string :=
  ["id"; "precipitation (mm/yr)"; "w"; "B"; "Qw (m^3/s)"; "Qw (km^3/yr)";
   "A (km^2)"; "R (km)"; "T(C)"; "Qs (MT/y)"; "density (kg/m^3)";
   "Qs (m^3/yr)"; "erosion (m/yr)"; "erosion (mm/yr)"; "Slip (mm/yr)";
   "Qs Tectonic (m^3/yr)"].

Definition fault_headers : list string := ["fault id"; "fault name"; "distance"].

(** The header row: the test is on [qs_data[0]] alone. *)
Definition row_headers (qs_data : list (list cell)) : result (list string) :=
  match qs_data with
  | [] => raise (IndexError "list index out of range")
  | first :: _ =>
      if (16 <? length first)%nat then ok (base_headers ++ fault_headers)%list
      else ok base_headers
  end.

Definition save_data_to_csv (qs_data : list (list cell)) (p : path) (w : world)
    : result world :=
  headers ← row_headers qs_data;
  let data_path := os_path_join p ["qs_data.csv"] in
  write_file data_path (FRecords headers qs_data) w.

(** ** The object and its configuration *)

Record GISbatch := {
  project_name : string;
  original_dem : path;
  batch_path : path;
  uplift_mm_yr : num;
  flow_dir_force_flow : string;
  flow_acc_flow_weight_raster : string;
  flow_acc_flow_data_type : string;
  str_net_conditional : string;
  str_net_false_constant : string;
  set_null_false_raster : string;
  set_null_conditional : string;
  str_ord_method : string;
  faults_cluster_tolerance : string;
  faults_search_radius : string;
  pour_points_minimum_height : Z;
  (* attributes assigned after construction *)
  fault_data : path;
  fault_meta_data : gmap Z fault_meta;
  highlands : path
}.

Definition set_fault_meta_data (self : GISbatch) (m : gmap Z fault_meta) : GISbatch :=
  {| project_name := project_name self; original_dem := original_dem self;
     batch_path := batch_path self; uplift_mm_yr := uplift_mm_yr self;
     flow_dir_force_flow := flow_dir_force_flow self;
     flow_acc_flow_weight_raster := flow_acc_flow_weight_raster self;
     flow_acc_flow_data_type := flow_acc_flow_data_type self;
     str_net_conditional := str_net_conditional self;
     str_net_false_constant := str_net_false_constant self;
     set_null_false_raster := set_null_false_raster self;
     set_null_conditional := set_null_conditional self;
     str_ord_method := str_ord_method self;
     faults_cluster_tolerance := faults_cluster_tolerance self;
     faults_search_radius := faults_search_radius self;
     pour_points_minimum_height := pour_points_minimum_height self;
     fault_data := fault_data self;
     fault_meta_data := m;
     highlands := highlands self |}.

Definition set_highlands (self : GISbatch) (p : path) : GISbatch :=
  {| project_name := project_name self; original_dem := original_dem self;
     batch_path := batch_path self; uplift_mm_yr := uplift_mm_yr self;
     flow_dir_force_flow := flow_dir_force_flow self;
     flow_acc_flow_weight_raster := flow_acc_flow_weight_raster self;
     flow_acc_flow_data_type := flow_acc_flow_data_type self;
     str_net_conditional := str_net_conditional self;
     str_net_false_constant := str_net_false_constant self;
     set_null_false_raster := set_null_false_raster self;
     set_null_conditional := set_null_conditional self;
     str_ord_method := str_ord_method self;
     faults_cluster_tolerance := faults_cluster_tolerance self;
     faults_search_radius := faults_search_radius self;
     pour_points_minimum_height := pour_points_minimum_height self;
     fault_data := fault_data self;
     fault_meta_data := fault_meta_data self;
     highlands := p |}.

Definition set_fault_data (self : GISbatch) (p : path) : GISbatch :=
  {| project_name := project_name self; original_dem := original_dem self;
     batch_path := batch_path self; uplift_mm_yr := uplift_mm_yr self;
     flow_dir_force_flow := flow_dir_force_flow self;
     flow_acc_flow_weight_raster := flow_acc_flow_weight_raster self;
     flow_acc_flow_data_type := flow_acc_flow_data_type self;
     str_net_conditional := str_net_conditional self;
     str_net_false_constant := str_net_false_constant self;
     set_null_false_raster := set_null_false_raster self;
     set_null_conditional := set_null_conditional self;
     str_ord_method := str_ord_method self;
     faults_cluster_tolerance := faults_cluster_tolerance self;
     faults_search_radius := faults_search_radius self;
     pour_points_minimum_height := pour_points_minimum_height self;
     fault_data := p;
     fault_meta_data := fault_meta_data self;
     highlands := highlands self |}.

(** The one-character string holding a double quote. *)
Definition quote : string := String (ascii_of_nat 34) EmptyString.

(** A dataset named [<project_name><suffix>] in a directory. *)
Definition in_dir (d : path) (self : GISbatch) (suffix : string) : path :=
  os_path_join d [project_name self ++ suffix].

(** [hydro_paths[key]] *)
Definition manifest_getitem (m : gmap string mval) (k : string) : result mval :=
  match m !! k with
  | Some v => ok v
  | None => raise (KeyError (KStr k))
  end.

(** A manifest value handed to a tool as a dataset. *)
Definition as_dataset (v : mval) : result path :=
  match v with
  | MPath p => ok p
  | _ => raise (ExecuteError "ERROR 000732: dataset does not exist or is not supported")
  end.

(** [yaml.dump] to a file of the batch, and [yaml.load] of a file. *)
Definition yaml_dump (p : path) (doc : gmap string mval) (w : world) : result world :=
  write_file p (FYaml doc) w.

Definition yaml_load (p : path) (w : world) : result (gmap string mval) :=
  match fs w !! p with
  | Some (FYaml doc) => ok doc
  | Some _ => raise (ValueError "could not determine a constructor")
  | None => raise (IOError "no such file or directory")
  end.

(** ** The terrain analysis service *)

Section Service.

(** What a tool derives from the contents of its inputs: the one thing
    the pipeline needs of the external service. *)
Variable derive : gpcall -> list file -> file.

Definition read_dataset (w : world) (p : path) : result file :=
  match fs w !! p with
  | Some f => ok f
  | None => raise (ExecuteError "ERROR 000732: dataset does not exist or is not supported")
  end.

(** A tool reads its inputs, writes its output and joins the record of
    calls. *)
Definition run_tool (c : gpcall) (w : world) : result world :=
  ins ← mapM (read_dataset w) (inputs c);
  if isdir w (dirname (output c)) then
    ok {| fs := <[output c := derive c ins]> (fs w);
          dirs := dirs w;
          calls := (calls w ++ [c])%list |}
  else raise (ExecuteError "ERROR 000210: cannot create output").

(** *** Hydrology stage *)

Definition fill (self : GISbatch) (w : world) : result (path * world) :=
  let out_fill_path := in_dir (batch_path self) self "_fill.tif" in
  w' ← run_tool (GP "Fill" [original_dem self] [EmptyString] out_fill_path) w;
  ok (out_fill_path, w').

Definition flow_direction (self : GISbatch) (fill_path : path) (w : world)
    : result (path * world) :=
  let out_flow_dir_path := in_dir (batch_path self) self "_f_dir.tif" in
  w' ← run_tool (GP "FlowDirection" [fill_path] [flow_dir_force_flow self]
                    out_flow_dir_path) w;
  ok (out_flow_dir_path, w').

Definition flow_accumulation (self : GISbatch) (flow_path : path) (w : world)
    : result (path * world) :=
  let out_flow_acc_path := in_dir (batch_path self) self "_f_acc.tif" in
  w' ← run_tool (GP "FlowAccumulation" [flow_path]
                    [flow_acc_flow_weight_raster self; flow_acc_flow_data_type self]
                    out_flow_acc_path) w;
  ok (out_flow_acc_path, w').

Definition stream_network (self : GISbatch) (flow_acc_path : path) (w : world)
    : result (path * world) :=
  let stream_net_path := in_dir (batch_path self) self "_net.tif" in
  w' ← run_tool (GP "Con" [flow_acc_path; flow_acc_path]
                    [str_net_false_constant self; str_net_conditional self]
                    stream_net_path) w;
  ok (stream_net_path, w').

Definition nullify (self : GISbatch) (stream_net_path : path) (w : world)
    : result (path * world) :=
  let out_null_path := in_dir (batch_path self) self "_net_null.tif" in
  w' ← run_tool (GP "SetNull" [stream_net_path]
                    [set_null_false_raster self; set_null_conditional self]
                    out_null_path) w;
  ok (out_null_path, w').

Definition stream_order (self : GISbatch) (null_path flow_path : path) (w : world)
    : result (path * world) :=
  let out_s_ord_path := in_dir (batch_path self) self "_s_order.tif" in
  w' ← run_tool (GP "StreamOrder" [null_path; flow_path] [str_ord_method self]
                    out_s_ord_path) w;
  ok (out_s_ord_path, w').

Definition vectorise_streams (self : GISbatch) (s_ord_path flow_path : path) (w : world)
    : result (path * world) :=
  let out_sf_path := in_dir (batch_path self) self "_streams.shp" in
  w' ← run_tool (GP "StreamToFeature" [s_ord_path; flow_path] [] out_sf_path) w;
  ok (out_sf_path, w').

(** The mapping of lines 172-183. *)
Definition hydro_manifest (self : GISbatch)
    (fill_path flow_path flow_acc_path stream_net_path null_path s_ord_path
       vector_streams : path) : gmap string mval :=
  <["fill_path" := MPath fill_path]>
  (<["flow_path" := MPath flow_path]>
  (<["flow_acc_path" := MPath flow_acc_path]>
  (<["stream_net_path" := MPath stream_net_path]>
  (<["null_path" := MPath null_path]>
  (<["s_ord_path" := MPath s_ord_path]>
  (<["vector_streams" := MPath vector_streams]>
  (<["fault_data" := MPath []]>
  (<["fault_data_meta" := MPath []]>
  (<["uplift_rate" := MNum (uplift_mm_yr self)]> ∅))))))))).

Definition hydro_workflow (self : GISbatch) (w : world)
    : result (gmap string mval * world) :=
  '(fill_path, w) ← fill self w;
  '(flow_path, w) ← flow_direction self fill_path w;
  '(flow_acc_path, w) ← flow_accumulation self flow_path w;
  '(stream_net_path, w) ← stream_network self flow_acc_path w;
  '(null_path, w) ← nullify self stream_net_path w;
  '(s_ord_path, w) ← stream_order self null_path flow_path w;
  '(vector_streams, w) ← vectorise_streams self s_ord_path flow_path w;
  let hydro_paths :=
    hydro_manifest self fill_path flow_path flow_acc_path stream_net_path
      null_path s_ord_path vector_streams in
  w ← yaml_dump (os_path_join (batch_path self) ["hydro_paths.yml"]) hydro_paths w;
  ok (hydro_paths, w).

(** *** Fault stage *)

(** [get_fault_data]: one entry per feature, keyed by [FID], added to the
    dict the object already holds. *)
Definition get_fault_data (self : GISbatch) (faultlines : path) (w : world)
    : result GISbatch :=
  match fs w !! faultlines with
  | Some (FFeatures rows) =>
      ok (set_fault_meta_data self
            (foldl (fun d row => <[FID row := attrs row]> d) (fault_meta_data self) rows))
  | _ => raise (RuntimeError "ERROR 999999: Error executing function")
  end.

Definition fault_intersects (self : GISbatch) (faultlines streams : path)
    (cluster_tolerance : string) (w : world) : result (path * world) :=
  let intersects_multipart := in_dir (batch_path self) self "_intersects_multipart.shp" in
  w' ← run_tool (GP "Intersect_analysis" [faultlines; streams]
                    [EmptyString; cluster_tolerance; "point"] intersects_multipart) w;
  ok (intersects_multipart, w').

Definition intersects_to_singlepart (self : GISbatch) (intersects_multipart : path)
    (w : world) : result (path * world) :=
  let intersects_singlepart := in_dir (batch_path self) self "_intersects_singlepart.shp" in
  w' ← run_tool (GP "MultipartToSinglepart_management" [intersects_multipart] []
                    intersects_singlepart) w;
  ok (intersects_singlepart, w').

Definition remove_lowlands (self : GISbatch) (minimum_height : Z) (w : world)
    : result (path * world) :=
  let dem_no_lowlands := in_dir (batch_path self) self "_dem_no_lowlands.tif" in
  w' ← run_tool (GP "ExtractByAttributes" [original_dem self]
                    ["VALUE > " ++ py_str minimum_height] dem_no_lowlands) w;
  ok (dem_no_lowlands, w').

Definition ignore_lowest_pp (self : GISbatch) (intersects_singlepart dem_no_lowlands : path)
    (w : world) : result (path * world) :=
  let intersect_heights := in_dir (batch_path self) self "_intersects_all.shp" in
  w ← run_tool (GP "ExtractValuesToPoints" [intersects_singlepart; dem_no_lowlands]
                   ["INTERPOLATE"; "ALL"] intersect_heights) w;
  let intersect_heights_above := in_dir (batch_path self) self "_intersects_above.shp" in
  w ← run_tool (GP "Select_analysis" [intersect_heights]
                   [quote ++ "RASTERVALU" ++ quote ++ " > 0"]
                   intersect_heights_above) w;
  ok (intersect_heights_above, w).

Definition fault_routes (self : GISbatch) (faultlines : path) (w : world)
    : result (path * world) :=
  let routes := in_dir (batch_path self) self "_fault_routes.shp" in
  w' ← run_tool (GP "CreateRoutes_lr" [faultlines] ["Id"; "LENGTH"] routes) w;
  ok (routes, w').

Definition intersect_events (self : GISbatch) (pour_points routes : path)
    (search_radius : string) (w : world) : result (path * world) :=
  let events := in_dir (batch_path self) self "_intersect_events.dbf" in
  w' ← run_tool (GP "LocateFeaturesAlongRoutes_lr" [pour_points; routes]
                    ["Id"; search_radius; "RID POINT MEAS"] events) w;
  ok (events, w').

(** [extract_intersect_positions]: the events are copied to a csv file
    under a header row.  [del row] after the loop needs the loop to have
    run. *)
Definition extract_intersect_positions (self : GISbatch) (events : path) (w : world)
    : result (path * world) :=
  match fs w !! events with
  | Some (FEvents rows) =>
      let ic_data := map (fun r => [OID r; RID r; MEAS r]) rows in
      let intersect_data := in_dir (batch_path self) self "_intersect_data.csv" in
      w' ← write_file intersect_data (FCsv (["id"; "fault"; "distance"] :: ic_data)) w;
      if nonempty rows then ok (intersect_data, w')
      else raise (UnboundLocalError "local variable 'row' referenced before assignment")
  | _ => raise (RuntimeError "ERROR 999999: Error executing function")
  end.

(** [fault_workflow] changes the object and the dict it is handed, so
    both come back with the pour points. *)
Definition fault_workflow (self : GISbatch) (faultlines : path)
    (hydro_paths : gmap string mval) (w : world)
    : result (path * GISbatch * gmap string mval * world) :=
  self ← get_fault_data self faultlines w;
  streams ← manifest_getitem hydro_paths "vector_streams";
  streams ← as_dataset streams;
  '(intersects_multipart, w) ←
    fault_intersects self faultlines streams (faults_cluster_tolerance self) w;
  '(intersects_singlepart, w) ← intersects_to_singlepart self intersects_multipart w;
  '(lowlands, w) ← remove_lowlands self (pour_points_minimum_height self) w;
  let self := set_highlands self lowlands in
  '(pour_points, w) ← ignore_lowest_pp self intersects_singlepart (highlands self) w;
  '(routes, w) ← fault_routes self faultlines w;
  '(events, w) ← intersect_events self pour_points routes (faults_search_radius self) w;
  '(data, w) ← extract_intersect_positions self events w;
  let self := set_fault_data self data in
  let hydro_paths := <["fault_data" := MPath (fault_data self)]> hydro_paths in
  let hydro_paths := <["fault_meta_data" := MMeta (fault_meta_data self)]> hydro_paths in
  w ← yaml_dump (os_path_join (batch_path self) ["hydro_paths.yml"]) hydro_paths w;
  ok (pour_points, self, hydro_paths, w).

(** *** BQART stage: the climate cache *)

(** [climate_batch_directory]; [timestamp] is the reading of the clock
    that [get_time_string] prints. *)
Definition climate_batch_directory (watershed_directory : path) (timestamp : string)
    (w : world) : result (path * world) :=
  let climate_batch_path :=
    os_path_join watershed_directory ["climate_calcs"; timestamp] in
  w ← makedirs climate_batch_path w;
  let climate_cache_batch_path := os_path_join watershed_directory ["climate_cache"] in
  w ← (if isdir w climate_cache_batch_path then ok w
       else makedirs climate_cache_batch_path w);
  ok (climate_batch_path, w).

(** [check_climate_cache] returns the path or [False]; [None] is [False]. *)
Definition check_climate_cache (w : world) (watershed_directory : path)
    (climate_scenario datatype : string) : option path :=
  let raster_name := datatype ++ "_" ++ climate_scenario ++ "_clip.tif" in
  let raster_cache_path :=
    os_path_join watershed_directory ["climate_cache"; raster_name] in
  if isfile w raster_cache_path then Some raster_cache_path else None.

(** [glob.glob("*.tif")] in a directory: the names that end in [.tif] and
    do not start with a dot.  Only files are listed. *)
Definition ends_with (suffix s : string) : bool :=
  (String.length suffix <=? String.length s)%nat
  && String.eqb
       (substring (String.length s - String.length suffix) (String.length suffix) s)
       suffix.

Definition glob_match_tif (n : string) : bool :=
  ends_with ".tif" n && negb (String.prefix "." n).

Definition in_directory (d : path) (p : path) : bool :=
  match last p with
  | Some n => bool_decide (dirname p = d) && glob_match_tif n
  | None => false
  end.

Definition glob_tif (w : world) (d : path) : list path :=
  filter (fun p => in_directory d p = true) (map_to_list (fs w)).*1.

(** [Raster(path)] *)
Definition Raster (w : world) (p : path) : result raster :=
  match fs w !! p with
  | Some (FRaster r) => ok r
  | _ => raise (RuntimeError "ERROR 000732: Input Raster does not exist")
  end.

(** Map algebra: what [sum(rasters)] runs through, from the int [0]. *)
Inductive rval :=
| RNum (n : num)
| RRaster (r : raster).

Definition rval_add (x : rval) (r : raster) : rval :=
  match x with
  | RNum n => RRaster (fun c => (to_R n + r c)%R)
  | RRaster a => RRaster (fun c => (a c + r c)%R)
  end.

Definition py_sum (rasters : list raster) : rval :=
  foldl rval_add (RNum (Int 0)) rasters.

Definition rval_div (x : rval) (n : Z) : result rval :=
  match x with
  | RNum a => v ← py_div a (Int n); ok (RNum v)
  | RRaster a =>
      if decide (n = 0) then raise (ZeroDivisionError "float division by zero")
      else ok (RRaster (fun c => (a c / IZR n)%R))
  end.

(** [average_rasters(search_directory, save_directory, name, monthly)] *)
Definition average_rasters (search_directory save_directory : path) (name : string)
    (monthly : bool) (w : world) : result (path * world) :=
  _ ← chdir search_directory w;
  let files := glob_tif w search_directory in
  rasters ← mapM (Raster w) files;
  let raster_sum := py_sum rasters in
  combined_raster ←
    (if monthly then rval_div raster_sum (Z.of_nat (length rasters))
     else ok raster_sum);
  let combined_raster_path := os_path_join save_directory [name] in
  match combined_raster with
  | RNum _ => raise (AttributeError "'int' object has no attribute 'save'")
  | RRaster r =>
      if isdir w (dirname combined_raster_path) then
        ok (combined_raster_path,
            {| fs := <[combined_raster_path := FRaster r]> (fs w);
               dirs := dirs w;
               calls := (calls w ++ [GP "Raster.save" files [] combined_raster_path])%list |})
      else raise (RuntimeError "ERROR 010240: Could not save raster dataset")
  end.

Definition clip_raster (input_raster save_directory : path) (name : string)
    (extent : path) (w : world) : result (path * world) :=
  let clip_raster_path := os_path_join save_directory [name] in
  w' ← run_tool (GP "Clip_management" [input_raster; extent] ["#"] clip_raster_path) w;
  ok (clip_raster_path, w').

(** [zone_statistics]; the value raster may be [False] (see
    [bqart_workflow]), which the tool rejects. *)
Definition zone_statistics (table_directory watersheds : path)
    (value_raster : option path) (data_name : string) (w : world)
    : result (path * world) :=
  let table_path := os_path_join table_directory [data_name] in
  match value_raster with
  | Some v =>
      w' ← run_tool (GP "ZonalStatisticsAsTable" [watersheds; v] ["VALUE"; "DATA"]
                        table_path) w;
      ok (table_path, w')
  | None => raise (RuntimeError "Object: Error in executing tool")
  end.

(** Lines 276-305 of [bqart_workflow]: the two clipped climate rasters,
    from the cache or built.  The names are the source's: the check bound
    to [precip_cache_check] asks for datatype ['t'], the one bound to
    [temp_cache_check] for ['p']. *)
Definition climate_rasters (watershed_raster watershed_path temp_directory
    precip_directory : path) (climate_scenario : string) (w : world)
    : result (option path * option path * world) :=
  let climate_cache_path := os_path_join watershed_path ["climate_cache"] in
  let precip_cache_check := check_climate_cache w watershed_path climate_scenario "t" in
  let temp_cache_check := check_climate_cache w watershed_path climate_scenario "p" in
  '(precip_clip, w) ←
    match precip_cache_check with
    | Some _ => ok (temp_cache_check, w)
    | None =>
        let datatype := "p" in
        let combined_name := datatype ++ "_" ++ climate_scenario ++ "_all.tif" in
        let clip_name := datatype ++ "_" ++ climate_scenario ++ "_clip.tif" in
        '(precip_raster_path, w) ←
          average_rasters precip_directory climate_cache_path combined_name false w;
        '(clip, w) ←
          clip_raster precip_raster_path climate_cache_path clip_name watershed_raster w;
        ok (Some clip, w)
    end;
  '(temp_clip, w) ←
    match temp_cache_check with
    | Some _ => ok (temp_cache_check, w)
    | None =>
        let datatype := "t" in
        let combined_name := datatype ++ "_" ++ climate_scenario ++ "_all.tif" in
        let clip_name := datatype ++ "_" ++ climate_scenario ++ "_clip.tif" in
        '(temp_raster_path, w) ←
          average_rasters temp_directory climate_cache_path combined_name true w;
        '(clip, w) ←
          clip_raster temp_raster_path climate_cache_path clip_name watershed_raster w;
        ok (Some clip, w)
    end;
  ok (precip_clip, temp_clip, w).

(** Lines 309-312: the three zonal statistics tables. *)
Definition climate_statistics (self : GISbatch) (climate_batch_path watershed_raster : path)
    (temp_clip precip_clip : option path) (w : world)
    : result (path * path * path * world) :=
  '(tz_dat_path, w) ←
    zone_statistics climate_batch_path watershed_raster temp_clip "temp_data" w;
  '(pz_dat_path, w) ←
    zone_statistics climate_batch_path watershed_raster precip_clip "precip_data" w;
  '(ez_dat_path, w) ←
    zone_statistics climate_batch_path watershed_raster (Some (original_dem self))
      "elev_data" w;
  ok (tz_dat_path, pz_dat_path, ez_dat_path, w).

Definition bqart_workflow (self : GISbatch) (watershed_raster : path)
    (hydro_paths : gmap string mval) (watershed_path temp_directory
    precip_directory : path) (climate_scenario timestamp : string) (w : world)
    : result world :=
  '(climate_batch_path, w) ← climate_batch_directory watershed_path timestamp w;
  '(precip_clip, temp_clip, w) ←
    climate_rasters watershed_raster watershed_path temp_directory precip_directory
      climate_scenario w;
  '(tz_dat_path, pz_dat_path, ez_dat_path, w) ←
    climate_statistics self climate_batch_path watershed_raster temp_clip precip_clip w;
  fault_data_path ← manifest_getitem hydro_paths "fault_data";
  fault_meta ← manifest_getitem hydro_paths "fault_meta_data";
  uplift_rate ← manifest_getitem hydro_paths "uplift_rate";
  qs_data ← do_bqart w pz_dat_path tz_dat_path ez_dat_path
              fault_data_path fault_meta uplift_rate;
  save_data_to_csv qs_data climate_batch_path w.

End Service.

(** The handlers of the driver: [except (OSError, IOError)]. *)
Definition driver_catches (e : exn) : bool :=
  match e with
  | OSError _ | IOError _ => true
  | _ => false
  end.

(** ** Vocabulary of the statements *)

(** [x] to the power [y] for a base that is not negative and a positive
    exponent. *)
Definition rpow (x y : R) : R :=
  if Req_dec_T x 0 then 0%R else Rpower x y.

(** The sum of a list of rasters at one cell. *)
Definition cell_sum (rasters : list raster) (c : Z * Z) : R :=
  foldr (fun r acc => (r c + acc)%R) 0%R rasters.

(** The text an exception shows, and whether it names a zone. *)
Definition exn_text (e : exn) : string :=
  match e with
  | KeyError (KInt z) => py_str z
  | KeyError (KStr s) => s
  | ZeroDivisionError m | NameError m | UnboundLocalError m | ValueError m
  | IndexError m | TypeError m | AttributeError m | OSError m | IOError m
  | RuntimeError m | ExecuteError m => m
  end.

Definition reports_zone (e : exn) (k : Z) : bool :=
  match index 0 (py_str k) (exn_text e) with
  | Some _ => true
  | None => false
  end.


(** The formula chain of lines 694-722 over the reals, for a zone whose
    precipitation, area and temperature are floats. *)
Definition zone_chain (p a : R) (hi lo : num) (t : R) : zone.vars :=
  let precip_m := (p / 1000)%R in
  let relief_km := ((to_R hi - to_R lo) / 1000)%R in
  let area_km_squared := (a / 1000000)%R in
  let precip_m3_yr := (precip_m * a)%R in
  let Qw_s := (precip_m3_yr / 31536000)%R in
  let Qw_km_yr := rpow (Qw_s * 31536000 / 1000000000) (31 / 100) in
  let A := rpow area_km_squared (5 / 10) in
  let temp := (t / 10)%R in
  let Qs_MT_yr := (6 / 10000 * 1 * Qw_km_yr * A * relief_km * temp)%R in
  let Qs_m3_yr := (Qs_MT_yr * (370370 * (13 / 10)))%R in
  let Qs_m_yr := (Qs_m3_yr / a)%R in
  zone.Vars (Float p) (Float a) (py_sub hi lo) (Float temp) (Float precip_m)
    (Float relief_km) (Float area_km_squared) (Float precip_m3_yr) (Float Qw_s)
    (Float Qw_km_yr) (Float A) (Float Qs_MT_yr) (Float Qs_m3_yr) (Float Qs_m_yr)
    (Float (Qs_m_yr * 1000)).

(** ** Test inputs *)

(** A world that holds three zonal statistics tables and, when [csv] is
    given, the fault table. *)
Definition tz_path : path := ["run"; "temp_data"].
Definition pz_path : path := ["run"; "precip_data"].
Definition ez_path : path := ["run"; "elev_data"].
Definition csv_path : path := ["batch"; "demo_intersect_data.csv"].

Definition tables_world (t p e : list zrow) (csv : option (list (list string))) : world :=
  {| fs := <[tz_path := FTable t]> (<[pz_path := FTable p]> (<[ez_path := FTable e]>
             (match csv with
              | Some rows => {[csv_path := FCsv rows]}
              | None => ∅
              end)));
     dirs := {[ ["run"]; ["batch"] ]};
     calls := [] |}.

(** The zone of the fixture: 1000 mm/yr over 1e8 m2, relief from 0 to
    2000 m, 20.0 degrees stored as 200. *)
Definition fixture_t : zrow := ZRow 1 (Float 200) (Float 210) (Float 190) (Float 100000000).
Definition fixture_p : zrow := ZRow 1 (Float 1000) (Float 1100) (Float 900) (Float 100000000).
Definition fixture_e : zrow := ZRow 1 (Float 1000) (Int 2000) (Int 0) (Float 100000000).

Definition fixture_temps : gmap Z num := dict_of MEAN [fixture_t].
Definition fixture_precips : gmap Z num := dict_of MEAN [fixture_p].
Definition fixture_max_reliefs : gmap Z num := dict_of MAX [fixture_e].
Definition fixture_min_reliefs : gmap Z num := dict_of MIN [fixture_e].
Definition fixture_areas : gmap Z num := dict_of AREA [fixture_e].

Definition fixture_vars : result zone.vars :=
  bqart_vars fixture_temps fixture_precips fixture_max_reliefs fixture_min_reliefs
    fixture_areas 1.

(** The fixture without fault data, as the hydrology stage leaves the
    manifest entry ([fault_data] is the empty string), with a uniform
    uplift of 1 mm/yr. *)
Definition uniform_world : world := tables_world [fixture_t] [fixture_p] [fixture_e] None.

Definition uniform_run : result (list (list cell)) :=
  do_bqart uniform_world pz_path tz_path ez_path (MPath []) (MMeta ∅) (MNum (Float 1)).

(** Two zones, of which only zone 1 lies on a fault: the fault table holds
    its header row and one correlation, as [extract_intersect_positions]
    writes it. *)
Definition second_t : zrow := ZRow 2 (Float 150) (Float 160) (Float 140) (Float 50000000).
Definition second_p : zrow := ZRow 2 (Float 800) (Float 900) (Float 700) (Float 50000000).
Definition second_e : zrow := ZRow 2 (Float 600) (Int 1500) (Int 100) (Float 50000000).

Definition one_fault_csv : list (list string) :=
  [["id"; "fault"; "distance"]; ["1"; "0"; "12.5"]].

Definition one_fault_meta : gmap Z fault_meta :=
  {[ 0 := FaultMeta "Alpine" (Float 1) (Float 2) (Int 0) (Int 10000) "normal" ]}.

Definition two_zone_world : world :=
  tables_world [fixture_t; second_t] [fixture_p; second_p] [fixture_e; second_e]
    (Some one_fault_csv).

Definition two_zone_run : result (list (list cell)) :=
  do_bqart two_zone_world pz_path tz_path ez_path (MPath csv_path)
    (MMeta one_fault_meta) (MNum (Float 1)).

(** The same tables with zone 1 alone. *)
Definition one_zone_world : world :=
  tables_world [fixture_t] [fixture_p] [fixture_e] (Some one_fault_csv).

Definition one_zone_run : result (list (list cell)) :=
  do_bqart one_zone_world pz_path tz_path ez_path (MPath csv_path)
    (MMeta one_fault_meta) (MNum (Float 1)).

(** Zone 7 with an area statistic of zero, correlated with fault 0. *)
Definition flat_t : zrow := ZRow 7 (Float 200) (Float 210) (Float 190) (Float 0).
Definition flat_p : zrow := ZRow 7 (Float 1000) (Float 1100) (Float 900) (Float 0).
Definition flat_e : zrow := ZRow 7 (Float 1000) (Int 2000) (Int 0) (Float 0).

Definition flat_world : world :=
  tables_world [flat_t] [flat_p] [flat_e]
    (Some [["id"; "fault"; "distance"]; ["7"; "0"; "12.5"]]).

Definition flat_run : result (list (list cell)) :=
  do_bqart flat_world pz_path tz_path ez_path (MPath csv_path)
    (MMeta one_fault_meta) (MNum (Float 1)).

(** Zone 2 has elevation statistics but no precipitation statistics. *)
Definition elevation_only_world : world :=
  tables_world [fixture_t] [fixture_p] [fixture_e; second_e] (Some one_fault_csv).

Definition elevation_only_run : result (list (list cell)) :=
  do_bqart elevation_only_world pz_path tz_path ez_path (MPath csv_path)
    (MMeta one_fault_meta) (MNum (Float 1)).

(** A table whose first record has the sixteen fields of the uniform case
    and whose second record has the nineteen of the fault case. *)
Definition uniform_record : list cell :=
  CNum (Int 1) :: replicate 15 (CNum (Float 0)).

Definition fault_record : list cell :=
  (CNum (Int 2) :: replicate 15 (CNum (Float 0)))
  ++ [CStr "0"; CStr "Alpine"; CStr "12.5"].

Definition mixed_table : list (list cell) := [uniform_record; fault_record].

Definition empty_world : world := {| fs := ∅; dirs := {[ ["run"] ]}; calls := [] |}.

(** ** A small batch *)

(** A service for the test runs: zonal statistics read one cell of the
    value raster, the route locator finds one pour point on fault 0, a clip
    keeps its input, and every other tool leaves a dataset tagged with its
    call. *)
Definition demo_service (c : gpcall) (ins : list file) : file :=
  if String.eqb (tool c) "ZonalStatisticsAsTable" then
    match ins with
    | [_; FRaster r] =>
        FTable [ZRow 1 (Float (r (0, 0))) (Float (r (0, 0))) (Float (r (0, 0)))
                  (Float 100000000)]
    | _ => FTable []
    end
  else if String.eqb (tool c) "LocateFeaturesAlongRoutes_lr" then
    FEvents [Event "1" "0" "12.5"]
  else if String.eqb (tool c) "Clip_management" then
    match ins with
    | f :: _ => f
    | [] => FData c
    end
  else FData c.

Definition demo_batch_path : path := ["out"; "2015_1_29_15_14_57"].
Definition demo_watershed_path : path :=
  (demo_batch_path ++ ["watershed_calcs"; "2015_1_29_16_0_0"])%list.
Definition demo_watershed_raster : path :=
  (demo_watershed_path ++ ["demo_watersheds.tif"])%list.
Definition demo_temp_directory : path := ["climate"; "temp"].
Definition demo_precip_directory : path := ["climate"; "precip"].
Definition demo_faultlines : path := ["data"; "faults.shp"].

Definition demo_batch : GISbatch :=
  {| project_name := "demo";
     original_dem := ["data"; "dem.tif"];
     batch_path := demo_batch_path;
     uplift_mm_yr := Float 1;
     flow_dir_force_flow := "NORMAL";
     flow_acc_flow_weight_raster := EmptyString;
     flow_acc_flow_data_type := "FLOAT";
     str_net_conditional := "VALUE > 1000";
     str_net_false_constant := "0";
     set_null_false_raster := "1";
     set_null_conditional := "VALUE = 0";
     str_ord_method := "STRAHLER";
     faults_cluster_tolerance := "10";
     faults_search_radius := "100";
     pour_points_minimum_height := 500;
     fault_data := [];
     fault_meta_data := ∅;
     highlands := [] |}.

Definition demo_world : world :=
  {| fs :=
       <[ ["data"; "dem.tif"] := FRaster (fun _ => 1500%R) ]>
       (<[ demo_faultlines :=
             FFeatures [Feature 0 (FaultMeta "Alpine" (Float 1) (Float 2) (Int 0)
                                     (Int 10000) "normal")] ]>
       (<[ demo_watershed_raster := FRaster (fun _ => 1%R) ]>
       (<[ ["climate"; "temp"; "t01.tif"] := FRaster (fun _ => 190%R) ]>
       (<[ ["climate"; "temp"; "t02.tif"] := FRaster (fun _ => 210%R) ]>
       (<[ ["climate"; "precip"; "p01.tif"] := FRaster (fun _ => 400%R) ]>
       (<[ ["climate"; "precip"; "p02.tif"] := FRaster (fun _ => 600%R) ]> ∅))))));
     dirs := {[ ["data"]; demo_batch_path; demo_watershed_path; demo_temp_directory;
                demo_precip_directory ]};
     calls := [] |}.

Definition demo_cache : path := (demo_watershed_path ++ ["climate_cache"])%list.
Definition demo_p_clip : path := (demo_cache ++ ["p_now_clip.tif"])%list.
Definition demo_t_clip : path := (demo_cache ++ ["t_now_clip.tif"])%list.
Definition demo_p_all : path := (demo_cache ++ ["p_now_all.tif"])%list.
Definition demo_t_all : path := (demo_cache ++ ["t_now_all.tif"])%list.

(** The climate part of a BQART run for scenario [now] on a world. *)
Definition demo_climate (w : world) : result (option path * option path * world) :=
  climate_rasters demo_service demo_watershed_raster demo_watershed_path
    demo_temp_directory demo_precip_directory "now" w.

(** The demo world with the cache directory made, as
    [climate_batch_directory] leaves it. *)
Definition demo_world_cache : world :=
  {| fs := fs demo_world; dirs := {[ demo_cache ]} ∪ dirs demo_world; calls := [] |}.

(** The same with a clipped precipitation raster in the cache and no
    temperature raster. *)
Definition demo_world_precip_cached : world :=
  {| fs := <[ demo_p_clip := FRaster (fun _ => 1000%R) ]> (fs demo_world);
     dirs := {[ demo_cache ]} ∪ dirs demo_world;
     calls := [] |}.

(** The paths of the climate cache of a watershed batch. *)
Definition cache_dir (watershed_path : path) : path :=
  os_path_join watershed_path ["climate_cache"].

Definition combined_path (watershed_path : path) (climate_scenario datatype : string) : path :=
  os_path_join (cache_dir watershed_path) [datatype ++ "_" ++ climate_scenario ++ "_all.tif"].

Definition clip_path (watershed_path : path) (climate_scenario datatype : string) : path :=
  os_path_join (cache_dir watershed_path) [datatype ++ "_" ++ climate_scenario ++ "_clip.tif"].

(** The world a run ends in. *)
Definition run_world {X} (r : result (X * world)) : world :=
  match r with
  | inr (_, w) => w
  | inl _ => empty_world
  end.

(** The stages of the demo batch, one after the other. *)
Definition demo_hydro_paths : gmap string mval :=
  hydro_manifest demo_batch
    (in_dir demo_batch_path demo_batch "_fill.tif")
    (in_dir demo_batch_path demo_batch "_f_dir.tif")
    (in_dir demo_batch_path demo_batch "_f_acc.tif")
    (in_dir demo_batch_path demo_batch "_net.tif")
    (in_dir demo_batch_path demo_batch "_net_null.tif")
    (in_dir demo_batch_path demo_batch "_s_order.tif")
    (in_dir demo_batch_path demo_batch "_streams.shp").

Definition demo_w_hydro : world :=
  run_world (hydro_workflow demo_service demo_batch demo_world).

Definition demo_fault_meta : gmap Z fault_meta :=
  {[ 0 := FaultMeta "Alpine" (Float 1) (Float 2) (Int 0) (Int 10000) "normal" ]}.

Definition demo_intersect_data : path := in_dir demo_batch_path demo_batch "_intersect_data.csv".

Definition demo_batch_after_faults : GISbatch :=
  set_fault_data
    (set_highlands (set_fault_meta_data demo_batch demo_fault_meta)
       (in_dir demo_batch_path demo_batch "_dem_no_lowlands.tif"))
    demo_intersect_data.

Definition demo_fault_paths : gmap string mval :=
  <["fault_meta_data" := MMeta demo_fault_meta]>
    (<["fault_data" := MPath demo_intersect_data]> demo_hydro_paths).

Definition demo_w_fault : world :=
  run_world (fault_workflow demo_service demo_batch demo_faultlines demo_hydro_paths
               demo_w_hydro).

Definition demo_timestamp : string := "2015_1_30_9_0_0".

Definition demo_climate_batch_path : path :=
  os_path_join demo_watershed_path ["climate_calcs"; demo_timestamp].

Definition demo_w_dirs : world :=
  run_world (climate_batch_directory demo_watershed_path demo_timestamp demo_w_hydro).

Definition demo_w_climate : world := run_world (demo_climate demo_w_dirs).

Definition demo_w_stats : world :=
  run_world (climate_statistics demo_service demo_batch demo_climate_batch_path
               demo_watershed_raster (Some demo_t_clip) (Some demo_p_clip) demo_w_climate).

(** The worlds of the cache runs. *)
Definition demo_w_built : world := run_world (demo_climate demo_world_cache).
Definition demo_w_rebuilt : world := run_world (demo_climate demo_world_precip_cached).

(** [w'] comes from [w] by writing files in directory [d]: the
    directories are the same, the files of other directories are
    untouched and no file has gone. *)
Definition extends_in (d : path) (w w' : world) : Prop :=
  dirs w' = dirs w /\
  (forall p, dirname p ≠ d -> fs w' !! p = fs w !! p) /\
  (forall p, is_Some (fs w !! p) -> is_Some (fs w' !! p)).

(** All the paths of a list name files of the world. *)
Definition present (w : world) (ps : list path) : Prop :=
  Forall (fun p => is_Some (fs w !! p)) ps.

(** Zone 2 has precipitation and temperature statistics but no elevation
    statistics. *)
Definition precipitation_only_world : world :=
  tables_world [fixture_t; second_t] [fixture_p; second_p] [fixture_e] (Some one_fault_csv).

(** The fixture zone without rain. *)
Definition dry_p : zrow := ZRow 1 (Float 0) (Float 0) (Float 0) (Float 100000000).

(** Tables without a precipitation row. *)
Definition no_precipitation_world : world :=
  tables_world [fixture_t] [] [fixture_e] (Some one_fault_csv).

(** Three empty tables and no fault table. *)
Definition no_rows_world : world := tables_world [] [] [] None.

(** The fixture zone at ten degrees below zero. *)
Definition frozen_t : zrow := ZRow 1 (Float (-100)) (Float (-90)) (Float (-110)) (Float 100000000).

(** The fixture zone with a negative precipitation mean, as a grid with
    a negative no-data value gives. *)
Definition nodata_p : zrow := ZRow 1 (Float (-9999)) (Float 0) (Float (-9999)) (Float 100000000).

(** A service whose route locator finds no pour point. *)
Definition silent_service (c : gpcall) (ins : list file) : file :=
  if String.eqb (tool c) "LocateFeaturesAlongRoutes_lr" then FEvents []
  else demo_service c ins.

(** ** The watershed stage *)

(** [os.path.basename] *)
Definition basename (p : path) : string := default EmptyString (last p).

(** [shutil.copy2(src, dst)]: into the directory [dst] under the name of
    [src], or to the file [dst]. *)
Definition copy2 (src dst : path) (w : world) : result world :=
  match fs w !! src with
  | Some f =>
      if isdir w dst then
        ok {| fs := <[os_path_join dst [basename src] := f]> (fs w);
              dirs := dirs w;
              calls := calls w |}
      else write_file dst f w
  | None => raise (IOError "No such file or directory")
  end.

Section WatershedStage.

Variable derive : gpcall -> list file -> file.

(** [setup_watershed_batch]; [timestamp] is the reading of the clock that
    [get_time_string] prints. *)
Definition setup_watershed_batch (self : GISbatch) (original_pour_points : path)
    (timestamp : string) (w : world) : result (path * path * world) :=
  let watershed_calcs := os_path_join (batch_path self) ["watershed_calcs"] in
  w ← (if isdir w watershed_calcs then ok w else makedirs watershed_calcs w);
  let watershed_batch_path :=
    os_path_join (batch_path self) ["watershed_calcs"; timestamp] in
  let originals_batch_path := os_path_join watershed_batch_path ["originals"] in
  w ← makedirs watershed_batch_path w;
  w ← makedirs originals_batch_path w;
  w ← copy2 original_pour_points originals_batch_path w;
  let working_pp_path :=
    os_path_join watershed_batch_path [basename original_pour_points] in
  w ← run_tool derive (GP "CopyFeatures_management" [original_pour_points] []
                         working_pp_path) w;
  ok (watershed_batch_path, working_pp_path, w).

(** [snap_pour_points] and [watersheds].  The attribute
    [watershed_batch_path], which [watershed_workflow] sets, and the
    configuration entry [pour_points['snap_distance']] are arguments. *)
Definition snap_pour_points (self : GISbatch) (watershed_batch_path : path)
    (snap_distance : string) (pour_points flow_acc : path) (w : world)
    : result (path * world) :=
  let out_pp_path := in_dir watershed_batch_path self "_snap_ppoints.tif" in
  w' ← run_tool derive (GP "SnapPourPoint" [pour_points; flow_acc] [snap_distance; "FID"]
                          out_pp_path) w;
  ok (out_pp_path, w').

Definition watersheds (self : GISbatch) (watershed_batch_path : path)
    (flow_path pp_path : path) (w : world) : result (path * world) :=
  let out_ws_path := in_dir watershed_batch_path self "_watersheds.tif" in
  w' ← run_tool derive (GP "Watershed" [flow_path; pp_path] ["VALUE"] out_ws_path) w;
  ok (out_ws_path, w').

(** [watershed_workflow] returns the watershed raster. *)
Definition watershed_workflow (self : GISbatch) (snap_distance : string)
    (original_pour_points : path) (hydro_paths : gmap string mval)
    (timestamp : string) (w : world) : result (path * world) :=
  '(watershed_batch_path, pp_path, w) ←
    setup_watershed_batch self original_pour_points timestamp w;
  flow_acc ← manifest_getitem hydro_paths "flow_acc_path";
  flow_acc ← as_dataset flow_acc;
  '(snap_pp_path, w) ←
    snap_pour_points self watershed_batch_path snap_distance pp_path flow_acc w;
  flow_path ← manifest_getitem hydro_paths "flow_path";
  flow_path ← as_dataset flow_path;
  '(ws_path, w) ← watersheds self watershed_batch_path flow_path snap_pp_path w;
  let watershed_paths : gmap string mval :=
    <["pour_points" := MPath snap_pp_path]> (<["watersheds" := MPath ws_path]> ∅) in
  w ← yaml_dump (os_path_join watershed_batch_path ["watershed_paths.yml"])
        watershed_paths w;
  ok (ws_path, w).

End WatershedStage.

(** ** The settings of the last run *)

(** [save_last_run(root, key, val)]: the mapping of [last_run.yml], or
    the empty one, with [key] set, written back. *)
Definition save_last_run (root : path) (key : string) (val : mval) (w : world)
    : result world :=
  let last_run_path := os_path_join root ["last_run.yml"] in
  last_run ← (if isfile w last_run_path then yaml_load last_run_path w else ok ∅);
  let last_run := <[key := val]> last_run in
  if isdir w last_run_path then raise (IOError "Is a directory")
  else yaml_dump last_run_path last_run w.

(** [load_last_run(root)] returns the mapping or [False]; [None] is
    [False]. *)
Definition load_last_run (root : path) (w : world)
    : result (option (gmap string mval)) :=
  let last_run_path := os_path_join root ["last_run.yml"] in
  if exists_ w last_run_path then
    last_run ← yaml_load last_run_path w;
    ok (Some last_run)
  else ok None.

(** ** A watershed run of the demo batch *)

Definition demo_pour_points : path := ["data"; "pour_points.shp"].

(** A batch directory that holds the two flow rasters of the hydrology
    stage, with a pour point file beside the DEM. *)
Definition demo_w_points : world :=
  {| fs := <[demo_pour_points := FFeatures []]>
           (<[in_dir demo_batch_path demo_batch "_f_acc.tif" := FRaster (fun _ => 2%R)]>
           (<[in_dir demo_batch_path demo_batch "_f_dir.tif" := FRaster (fun _ => 1%R)]> ∅));
     dirs := {[ ["data"]; demo_batch_path ]};
     calls := [] |}.

(** The demo world as a watershed run leaves its directories. *)
Definition demo_world_calcs : world :=
  {| fs := fs demo_world;
     dirs := {[ (demo_batch_path ++ ["watershed_calcs"])%list ]} ∪ dirs demo_world;
     calls := [] |}.

(** ** The names of the batch directories *)

(** A reading of the clock, [datetime.datetime]. *)
Module datetime.
Record t := DateTime {
  year : Z;
  month : Z;
  day : Z;
  hour : Z;
  minute : Z;
  second : Z
}.
End datetime.

Definition is_leap (y : Z) : bool :=
  ((y mod 4 =? 0) && (negb (y mod 100 =? 0) || (y mod 400 =? 0)))%Z.

Definition days_in_month (y m : Z) : Z :=
  if (m =? 2)%Z then (if is_leap y then 29 else 28)
  else if ((m =? 4) || (m =? 6) || (m =? 9) || (m =? 11))%Z then 30
  else 31.

(** [datetime.datetime(y, m, d, h, mi, s)] checks the ranges of its
    arguments. *)
Definition datetime_datetime (y m d h mi s : Z) : result datetime.t :=
  if negb ((1 <=? y) && (y <=? 9999))%Z then raise (ValueError "year is out of range")
  else if negb ((1 <=? m) && (m <=? 12))%Z then raise (ValueError "month must be in 1..12")
  else if negb ((1 <=? d) && (d <=? days_in_month y m))%Z then
    raise (ValueError "day is out of range for month")
  else if negb ((0 <=? h) && (h <=? 23))%Z then raise (ValueError "hour must be in 0..23")
  else if negb ((0 <=? mi) && (mi <=? 59))%Z then
    raise (ValueError "minute must be in 0..59")
  else if negb ((0 <=? s) && (s <=? 59))%Z then
    raise (ValueError "second must be in 0..59")
  else ok (datetime.DateTime y m d h mi s).

(** [get_time_string]; [t] is what [datetime.datetime.now()] returns. *)
Definition get_time_string (t : datetime.t) : string :=
  let tstuff := [datetime.year t; datetime.month t; datetime.day t; datetime.hour t;
                 datetime.minute t; datetime.second t] in
  let tstring_list := map py_str tstuff in
  String.concat "_" tstring_list.

(** [s.split(sep)] for a separator of one character. *)
Fixpoint py_split (sep : ascii) (s : string) : list string :=
  match s with
  | EmptyString => [EmptyString]
  | String c rest =>
      if Ascii.eqb c sep then EmptyString :: py_split sep rest
      else match py_split sep rest with
           | x :: xs => String c x :: xs
           | [] => [String c EmptyString]
           end
  end.

(** Lines 814-816 of [select_batch_directory]: the time the name of a
    batch directory stands for. *)
Definition batch_datetime (dir_name : string) : result datetime.t :=
  let t_frags := py_split "_" dir_name in
  t_int ← mapM py_int t_frags;
  match t_int with
  | y :: m :: d :: h :: mi :: s :: _ => datetime_datetime y m d h mi s
  | _ => raise (IndexError "list index out of range")
  end.

(** ** A batch ready for the BQART stage *)

(** The fault stage has left its table, and both clipped climate rasters
    are in the cache of the watershed run. *)
Definition demo_w_ready : world :=
  {| fs :=
       <[ ["data"; "dem.tif"] := FRaster (fun _ => 1500%R) ]>
       (<[ demo_watershed_raster := FRaster (fun _ => 1%R) ]>
       (<[ demo_p_clip := FRaster (fun _ => 1000%R) ]>
       (<[ demo_t_clip := FRaster (fun _ => 200%R) ]>
       (<[ demo_intersect_data
             := FCsv [["id"; "fault"; "distance"]; ["1"; "0"; "12.5"]] ]> ∅))));
     dirs := {[ ["data"]; demo_batch_path; demo_watershed_path; demo_cache ]};
     calls := [] |}.
(** * Properties *)

(** ** Arithmetic *)

Example py_str_negative : py_str (-12) = "-12".
Proof. reflexivity. Qed.

Example py_int_of_py_str : py_int (py_str 407) = ok 407.
Proof. reflexivity. Qed.

Example py_int_lone_sign :
  py_int "-" = raise (ValueError "invalid literal for int() with base 10").
Proof. reflexivity. Qed.

Example py_div_floors : py_div (Int 1000000000) (Int 2700) = ok (Int 370370).
Proof. reflexivity. Qed.

Example py_div_floors_negative : py_div (Int (-7)) (Int 2) = ok (Int (-4)).
Proof. reflexivity. Qed.

Example glob_match_tif_examples :
  glob_match_tif "prec_01.tif" = true /\ glob_match_tif "prec_01.tif.xml" = false /\
  glob_match_tif ".tif" = false.
Proof. repeat split; reflexivity. Qed.

Lemma py_div_by_float (x : num) (r : R) :
  r ≠ 0%R -> py_div x (Float r) = ok (Float (to_R x / r)).
Proof.
  intros Hr. unfold py_div. destruct x; simpl;
    destruct (Req_dec_T r 0); congruence.
Qed.

Lemma py_div_float_by (r : R) (y : num) :
  to_R y ≠ 0%R -> py_div (Float r) y = ok (Float (r / to_R y)).
Proof.
  intros Hy. unfold py_div. destruct (Req_dec_T (to_R y) 0); [done|].
  by destruct y.
Qed.

Lemma py_div_zero_float (x r : R) :
  r = 0%R -> py_div (Float x) (Float r) = raise (ZeroDivisionError "float division by zero").
Proof.
  intros Hr. unfold py_div. simpl. destruct (Req_dec_T r 0); congruence.
Qed.

Lemma to_R_py_sub (x y : num) : to_R (py_sub x y) = (to_R x - to_R y)%R.
Proof. destruct x, y; simpl; try reflexivity. apply minus_IZR. Qed.

Lemma math_pow_nonneg (x y : R) :
  (0 <= x)%R -> (0 < y)%R -> math_pow (Float x) (Float y) = ok (Float (rpow x y)).
Proof.
  intros Hx Hy. unfold math_pow, rpow. simpl.
  destruct (Rlt_dec 0 x) as [Hpos|Hnpos].
  - destruct (Req_dec_T x 0); [lra|done].
  - destruct (Req_dec_T x 0); [|lra].
    destruct (Rlt_dec 0 y); [done|lra].
Qed.

Lemma rpow_half (x : R) : (0 <= x)%R -> rpow x (5 / 10) = sqrt x.
Proof.
  intros Hx. unfold rpow. destruct (Req_dec_T x 0) as [->|Hne].
  - by rewrite sqrt_0.
  - replace (5 / 10)%R with (/ 2)%R by lra. apply Rpower_sqrt. lra.
Qed.

(** ** The formula chain of [do_bqart] *)

Lemma getitem_Some (d : gmap Z num) (k : Z) (v : num) :
  d !! k = Some v -> getitem d k = ok v.
Proof. intros H. unfold getitem. by rewrite H. Qed.

Lemma getitem_None (d : gmap Z num) (k : Z) :
  d !! k = None -> getitem d k = raise (KeyError (KInt k)).
Proof. intros H. unfold getitem. by rewrite H. Qed.

Ltac py_steps :=
  repeat first
    [ progress cbn [mbind result_bind ok py_float to_R py_mul omega B]
    | rewrite py_div_float_by by (simpl; lra)
    | rewrite py_div_by_float by (simpl; lra)
    | rewrite math_pow_nonneg by lra ].

(** With float statistics, a positive area and a precipitation that is
    not negative, the locals of a zone are the chain over the reals. *)
Lemma bqart_vars_floats temps precips max_reliefs min_reliefs areas k
    (p a : R) (hi lo : num) (t : R) :
  precips !! k = Some (Float p) -> areas !! k = Some (Float a) ->
  max_reliefs !! k = Some hi -> min_reliefs !! k = Some lo ->
  temps !! k = Some (Float t) ->
  (0 <= p)%R -> (0 < a)%R ->
  bqart_vars temps precips max_reliefs min_reliefs areas k = ok (zone_chain p a hi lo t).
Proof.
  intros Hp Ha Hhi Hlo Ht Hp0 Ha0. unfold bqart_vars.
  rewrite (getitem_Some _ _ _ Hp), (getitem_Some _ _ _ Ha), (getitem_Some _ _ _ Hhi),
    (getitem_Some _ _ _ Hlo), (getitem_Some _ _ _ Ht).
  change (60 * 60 * 24 * 365) with 31536000.
  change (py_div (Int 1000000000) density) with (ok (Int 370370)).
  assert (0 <= p * a)%R by (apply Rmult_le_pos; lra).
  unfold py_float. py_steps. rewrite to_R_py_sub. reflexivity.
Qed.

Lemma fixture_vars_eq :
  fixture_vars = ok (zone_chain 1000 100000000 (Int 2000) (Int 0) 200).
Proof.
  unfold fixture_vars. apply bqart_vars_floats; try (by vm_compute); lra.
Qed.

Lemma rpow_pos (x y : R) : (0 < x)%R -> (0 < rpow x y)%R.
Proof.
  intros Hx. unfold rpow. destruct (Req_dec_T x 0); [lra|].
  unfold Rpower. apply exp_pos.
Qed.

(** C1 (as amended).  For every zone whose precipitation, area and
    temperature statistics are floats, with a positive area and a
    precipitation that is not negative, [do_bqart] derives its quantities
    by the formula chain: relief and area converted to km and km2, [A] the
    square root of the area in km2, the discharge from precipitation times
    area over the 31 536 000 seconds of a year, its power 0.31, the
    temperature divided by ten, [Qs_MT_yr] the product
    [omega * B * Qw_km_yr * A * relief_km * temp], and the erosion rates
    [Qs_m3_yr / area] and a thousand times that.  For the fixture zone the
    values are [relief_km = 2], [area_km_squared = 100], [A = 10],
    [precip_m = 1], [precip_m3_yr = 1e8], [Qw_s = 1e8 / 31536000] (about
    3.1709792), [temp = 20]. *)
Theorem C1_formula_chain :
  (forall temps precips max_reliefs min_reliefs areas k (p a : R) (hi lo : num) (t : R),
     precips !! k = Some (Float p) -> areas !! k = Some (Float a) ->
     max_reliefs !! k = Some hi -> min_reliefs !! k = Some lo ->
     temps !! k = Some (Float t) ->
     (0 <= p)%R -> (0 < a)%R ->
     exists v,
       bqart_vars temps precips max_reliefs min_reliefs areas k = ok v /\
       to_R (zone.relief_km v) = ((to_R hi - to_R lo) / 1000)%R /\
       to_R (zone.area_km_squared v) = (a / 1000000)%R /\
       to_R (zone.A v) = sqrt (to_R (zone.area_km_squared v)) /\
       to_R (zone.precip_m v) = (p / 1000)%R /\
       to_R (zone.precip_m3_yr v) = (to_R (zone.precip_m v) * a)%R /\
       to_R (zone.Qw_s v) = (to_R (zone.precip_m3_yr v) / 31536000)%R /\
       to_R (zone.Qw_km_yr v) =
         rpow (to_R (zone.Qw_s v) * 31536000 / 1000000000) (31 / 100) /\
       to_R (zone.temp v) = (t / 10)%R /\
       to_R (zone.Qs_MT_yr v) =
         (to_R omega * to_R B * to_R (zone.Qw_km_yr v) * to_R (zone.A v)
          * to_R (zone.relief_km v) * to_R (zone.temp v))%R /\
       to_R (zone.Qs_m_yr v) = (to_R (zone.Qs_m3_yr v) / a)%R /\
       to_R (zone.Qs_mm_yr v) = (to_R (zone.Qs_m_yr v) * 1000)%R) /\
  (exists v,
     fixture_vars = ok v /\
     to_R (zone.relief_km v) = 2%R /\
     to_R (zone.area_km_squared v) = 100%R /\
     to_R (zone.A v) = 10%R /\
     to_R (zone.precip_m v) = 1%R /\
     to_R (zone.precip_m3_yr v) = 100000000%R /\
     to_R (zone.Qw_s v) = (100000000 / 31536000)%R /\
     (31709791 / 10000000 < to_R (zone.Qw_s v) < 31709793 / 10000000)%R /\
     to_R (zone.temp v) = 20%R /\
     to_R (zone.Qs_MT_yr v) = (6 / 10000 * 1 * rpow (1 / 10) (31 / 100) * 10 * 2 * 20)%R).
Proof.
  split.
  - intros temps precips max_reliefs min_reliefs areas k p a hi lo t
      Hp Ha Hhi Hlo Ht Hp0 Ha0.
    exists (zone_chain p a hi lo t). split.
    + by apply bqart_vars_floats.
    + cbn [zone_chain zone.relief_km zone.area_km_squared zone.A zone.precip_m
           zone.precip_m3_yr zone.Qw_s zone.Qw_km_yr zone.temp zone.Qs_MT_yr
           zone.Qs_m3_yr zone.Qs_m_yr zone.Qs_mm_yr to_R omega B].
      repeat split; try reflexivity.
      apply rpow_half. lra.
  - exists (zone_chain 1000 100000000 (Int 2000) (Int 0) 200). split.
    + apply fixture_vars_eq.
    + cbn [zone_chain zone.relief_km zone.area_km_squared zone.A zone.precip_m
           zone.precip_m3_yr zone.Qw_s zone.Qw_km_yr zone.temp zone.Qs_MT_yr
           to_R].
      assert (HA : rpow (100000000 / 1000000) (5 / 10) = 10%R).
      { rewrite rpow_half by lra.
        replace (100000000 / 1000000)%R with (10 * 10)%R by lra.
        apply sqrt_square. lra. }
      rewrite HA.
      replace (1000 / 1000 * 100000000 / 31536000 * 31536000 / 1000000000)%R
        with (1 / 10)%R by lra.
      repeat split; lra.
Qed.

Lemma C1_formula_chain_witness :
  exists v,
    bqart_vars fixture_temps fixture_precips fixture_max_reliefs fixture_min_reliefs
      fixture_areas 1 = ok v /\
    to_R (zone.relief_km v) = ((to_R (Int 2000) - to_R (Int 0)) / 1000)%R /\
    to_R (zone.Qw_s v) = (to_R (zone.precip_m3_yr v) / 31536000)%R.
Proof.
  destruct (proj1 C1_formula_chain fixture_temps fixture_precips fixture_max_reliefs
              fixture_min_reliefs fixture_areas 1 1000%R 100000000%R (Int 2000) (Int 0)
              200%R) as (v & Hv & Hrelief & _ & _ & _ & _ & HQw & _);
    [reflexivity | reflexivity | reflexivity | reflexivity | reflexivity | lra | lra |].
  exists v. auto.
Defined.

(** C1, as stated, fails on the fixture: the discharge is not about
    3.1688765 m3/s.  The engine divides by the 31 536 000 seconds of a
    365-day year and gets 3.1709792; the two differ by more than 0.002. *)
Lemma C1_fixture_Qw_s_differs :
  exists v,
    fixture_vars = ok v /\
    (2 / 1000 < Rabs (to_R (zone.Qw_s v) - 31688765 / 10000000))%R.
Proof.
  exists (zone_chain 1000 100000000 (Int 2000) (Int 0) 200). split.
  - apply fixture_vars_eq.
  - cbn [zone_chain zone.Qw_s to_R].
    rewrite Rabs_right; lra.
Qed.

(** Line 718 divides two ints, so the factor is 370370 and not
    1e9 / 2700: the volume is short of the product
    [Qs_MT_yr * (1e9 / density) * 1.3]. *)
Lemma fixture_Qs_m3_yr_floor :
  exists v,
    fixture_vars = ok v /\
    to_R (zone.Qs_m3_yr v) = (to_R (zone.Qs_MT_yr v) * (370370 * (13 / 10)))%R /\
    (to_R (zone.Qs_m3_yr v)
     < to_R (zone.Qs_MT_yr v) * (1000000000 / 2700) * (13 / 10))%R.
Proof.
  exists (zone_chain 1000 100000000 (Int 2000) (Int 0) 200). split.
  - apply fixture_vars_eq.
  - cbn [zone_chain zone.Qs_m3_yr zone.Qs_MT_yr to_R]. split; [reflexivity|].
    assert (HA : rpow (100000000 / 1000000) (5 / 10) = 10%R).
    { rewrite rpow_half by lra.
      replace (100000000 / 1000000)%R with (10 * 10)%R by lra.
      apply sqrt_square. lra. }
    rewrite HA.
    replace (1000 / 1000 * 100000000 / 31536000 * 31536000 / 1000000000)%R
      with (1 / 10)%R by lra.
    pose proof (rpow_pos (1 / 10) (31 / 100)) as Hpos.
    assert (0 < rpow (1 / 10) (31 / 100))%R by (apply Hpos; lra).
    lra.
Qed.

(** ** [do_bqart] on a world of tables *)

Lemma SearchCursor_tz t p e csv : SearchCursor (tables_world t p e csv) tz_path = ok t.
Proof. unfold SearchCursor, tables_world. cbn [fs]. by rewrite lookup_insert_eq. Qed.

Lemma SearchCursor_pz t p e csv : SearchCursor (tables_world t p e csv) pz_path = ok p.
Proof.
  unfold SearchCursor, tables_world. cbn [fs].
  rewrite lookup_insert_ne by done. by rewrite lookup_insert_eq.
Qed.

Lemma SearchCursor_ez t p e csv : SearchCursor (tables_world t p e csv) ez_path = ok e.
Proof.
  unfold SearchCursor, tables_world. cbn [fs].
  do 2 rewrite lookup_insert_ne by done. by rewrite lookup_insert_eq.
Qed.

Lemma do_bqart_tables t p e csv fault_data_path fault_meta uplift_rate d b :
  load_fault_data (tables_world t p e csv) fault_data_path = ok (d, b) ->
  nonempty t || nonempty p || nonempty e || b = true ->
  do_bqart (tables_world t p e csv) pz_path tz_path ez_path fault_data_path fault_meta
    uplift_rate
  = mapM (bqart_zone (dict_of MEAN t) (dict_of MEAN p) (dict_of MAX e) (dict_of MIN e)
            (dict_of AREA e) d fault_meta uplift_rate) (keys (dict_of MEAN p)).
Proof.
  intros Hload Hrow. unfold do_bqart.
  rewrite SearchCursor_tz, SearchCursor_pz, SearchCursor_ez.
  cbn [mbind result_bind ok]. rewrite Hload. cbn [mbind result_bind ok].
  by rewrite Hrow.
Qed.

Lemma bqart_tectonic_uniform fault_meta (u : num) k area :
  bqart_tectonic ∅ fault_meta (MNum u) k area
  = raise (NameError "global name 'Area_square_m' is not defined").
Proof.
  unfold bqart_tectonic. rewrite bool_decide_eq_false_2 by (intros H; by apply H).
  unfold mval_div, py_float. cbn [to_R]. rewrite py_div_by_float by lra. reflexivity.
Qed.

(** C2.  On the fixture zone without fault data, with a uniform uplift of
    1 mm/yr, [do_bqart] stops at line 752 on the unbound name
    [Area_square_m]: no tectonic term is computed and no record is
    returned. *)
Theorem C2_uniform_branch_raises :
  uniform_run = raise (NameError "global name 'Area_square_m' is not defined").
Proof.
  unfold uniform_run, uniform_world.
  rewrite (do_bqart_tables _ _ _ _ _ _ _ ∅ false) by reflexivity.
  replace (keys (dict_of MEAN [fixture_p])) with [1] by (by vm_compute).
  cbn [mapM mbind result_bind]. unfold bqart_zone.
  fold fixture_temps fixture_precips fixture_max_reliefs fixture_min_reliefs fixture_areas.
  fold fixture_vars. rewrite fixture_vars_eq. cbn [mbind result_bind ok].
  rewrite bqart_tectonic_uniform. reflexivity.
Qed.

(** The same for any zone: once the base record is computed, the uniform
    branch raises for whatever uplift rate and area. *)
Lemma bqart_zone_uniform temps precips max_reliefs min_reliefs areas fault_meta
    (u : num) k v :
  bqart_vars temps precips max_reliefs min_reliefs areas k = ok v ->
  bqart_zone temps precips max_reliefs min_reliefs areas ∅ fault_meta (MNum u) k
  = raise (NameError "global name 'Area_square_m' is not defined").
Proof.
  intros Hv. unfold bqart_zone. rewrite Hv. cbn [mbind result_bind ok].
  by rewrite bqart_tectonic_uniform.
Qed.

(** ** The fault branch *)

Lemma load_fault_data_csv t p e rows d :
  fault_rows rows ∅ = ok d ->
  load_fault_data (tables_world t p e (Some rows)) (MPath csv_path) = ok (d, nonempty rows).
Proof.
  intros Hd. unfold load_fault_data. cbn [truthy csv_path].
  assert (Hfs : fs (tables_world t p e (Some rows)) !! csv_path = Some (FCsv rows)).
  { unfold tables_world. cbn [fs]. do 3 rewrite lookup_insert_ne by done.
    by rewrite lookup_singleton_eq. }
  assert (Hex : exists_ (tables_world t p e (Some rows)) csv_path = true).
  { unfold exists_, isfile. rewrite bool_decide_eq_true_2; [done|].
    apply elem_of_dom. by rewrite Hfs. }
  fold csv_path. rewrite Hex, Hfs. cbn [csv_reader mbind result_bind ok].
  rewrite Hd. reflexivity.
Qed.

Lemma bqart_tectonic_fault (d : gmap string (string * string)) fm m uplift_rate k
    (area : R) fault_id distance i (slip : R) :
  d !! py_str k = Some (fault_id, distance) ->
  py_int fault_id = ok i ->
  fm !! i = Some m ->
  slip_max m = Float slip ->
  bqart_tectonic d (MMeta fm) uplift_rate k (Float area)
  = ok [CNum (Float slip); CNum (Float (area * (slip / 1000) / 2700)); CStr fault_id;
        CStr (name m); CStr distance].
Proof.
  intros Hd Hi Hm Hslip. unfold bqart_tectonic.
  rewrite bool_decide_eq_true_2.
  2:{ intros ->. by rewrite lookup_empty in Hd. }
  rewrite Hd, Hi. cbn [mbind result_bind ok meta_getitem]. rewrite Hm.
  cbn [mbind result_bind ok]. rewrite Hslip. unfold py_float, density.
  py_steps. reflexivity.
Qed.

Lemma bqart_tectonic_no_correlation (d : gmap string (string * string)) fault_meta
    uplift_rate k area :
  d ≠ ∅ -> d !! py_str k = None ->
  bqart_tectonic d fault_meta uplift_rate k area = raise (KeyError (KStr (py_str k))).
Proof.
  intros Hne Hd. unfold bqart_tectonic. rewrite bool_decide_eq_true_2 by done.
  by rewrite Hd.
Qed.

Lemma one_fault_rows :
  fault_rows one_fault_csv ∅
  = ok (<["1" := ("0", "12.5")]> (<["id" := ("fault", "distance")]> ∅)).
Proof. reflexivity. Qed.

(** Zone 1 of the test tables alone gets its record of nineteen fields. *)
Lemma one_zone_run_eq :
  one_zone_run
  = ok [(qs_base 1 (zone_chain 1000 100000000 (Int 2000) (Int 0) 200)
         ++ [CNum (Float 2); CNum (Float (100000000 * (2 / 1000) / 2700)); CStr "0";
             CStr "Alpine"; CStr "12.5"])%list].
Proof.
  unfold one_zone_run, one_zone_world.
  rewrite (do_bqart_tables _ _ _ _ _ _ _ _ true (load_fault_data_csv _ _ _ _ _ one_fault_rows))
    by reflexivity.
  replace (keys (dict_of MEAN [fixture_p])) with [1] by (by vm_compute).
  cbn [mapM mbind result_bind]. unfold bqart_zone.
  fold fixture_temps fixture_precips fixture_max_reliefs fixture_min_reliefs fixture_areas.
  fold fixture_vars. rewrite fixture_vars_eq. cbn [mbind result_bind ok].
  cbn [zone_chain zone.area_m_squared].
  rewrite (bqart_tectonic_fault _ _ (FaultMeta "Alpine" (Float 1) (Float 2) (Int 0)
             (Int 10000) "normal") _ _ _ "0" "12.5" 0 2); try reflexivity.
Qed.

(** C3.  With zones 1 and 2 in the tables and a fault table that
    correlates zone 1 only, [do_bqart] raises [KeyError] on the key
    ['2']: the zone without a correlation gets no uniform-uplift term,
    and no record is returned for either zone. *)
Theorem C3_uncorrelated_zone_raises :
  two_zone_run = raise (KeyError (KStr "2")).
Proof.
  unfold two_zone_run, two_zone_world.
  rewrite (do_bqart_tables _ _ _ _ _ _ _ _ true (load_fault_data_csv _ _ _ _ _ one_fault_rows))
    by reflexivity.
  replace (keys (dict_of MEAN [fixture_p; second_p])) with [2; 1] by (by vm_compute).
  cbn [mapM mbind result_bind].
  match goal with
  | |- context [bqart_zone ?a ?b ?c ?d ?e ?f ?g ?h 2] =>
      assert (H2 : bqart_zone a b c d e f g h 2 = raise (KeyError (KStr "2")))
  end.
  { unfold bqart_zone.
    rewrite (bqart_vars_floats _ _ _ _ _ 2 800 50000000 (Int 1500) (Int 100) 150)
      by (reflexivity || lra).
    cbn [mbind result_bind ok].
    rewrite bqart_tectonic_no_correlation; [reflexivity | | reflexivity].
    intros H. apply (f_equal (fun m => m !! "1")) in H. discriminate H. }
  rewrite H2. reflexivity.
Qed.

(** ** Dicts of zone statistics and the loop over their keys *)

Lemma foldl_insert_is_Some (f : zrow -> num) (rows : list zrow) (d : gmap Z num) (k : Z) :
  is_Some (foldl (fun d row => <[VALUE row := f row]> d) d rows !! k)
  <-> is_Some (d !! k) \/ k ∈ VALUE <$> rows.
Proof.
  revert d. induction rows as [|row rows IH]; intros d; cbn [foldl fmap list_fmap].
  - split; [by left|]. intros [H|H]; [done|]. by apply elem_of_nil in H.
  - rewrite IH. rewrite elem_of_cons. destruct (decide (VALUE row = k)) as [<-|Hne].
    + rewrite lookup_insert_eq. split; [intros _|intros _; by left]. by right; left.
    + rewrite lookup_insert_ne by done. split; (intros [H|H]; [by left|]).
      * by right; right.
      * destruct H as [H|H]; [congruence|by right].
Qed.

Lemma dict_of_is_Some (f : zrow -> num) (rows : list zrow) (k : Z) :
  is_Some (dict_of f rows !! k) <-> k ∈ VALUE <$> rows.
Proof.
  unfold dict_of. rewrite foldl_insert_is_Some, lookup_empty. split.
  - intros [H|H]; [by destruct H|done].
  - by right.
Qed.

Lemma elem_of_keys (d : gmap Z num) (k : Z) : k ∈ keys d <-> is_Some (d !! k).
Proof.
  unfold keys. rewrite list_elem_of_fmap. split.
  - intros ([k' v] & -> & Hin). apply elem_of_map_to_list in Hin. by exists v.
  - intros [v Hv]. exists (k, v). split; [done|]. by apply elem_of_map_to_list.
Qed.

Lemma mapM_raise {X Y} (f : X -> result Y) (l : list X) (x : X) (e : exn) :
  x ∈ l -> f x = raise e -> exists e', mapM f l = raise e'.
Proof.
  intros Hin Hx. induction l as [|y l IH]; [by apply elem_of_nil in Hin|].
  cbn [mapM]. apply elem_of_cons in Hin. destruct (f y) as [e0|r] eqn:Hy.
  - by exists e0.
  - destruct Hin as [->|Hin]; [rewrite Hx in Hy; discriminate|].
    destruct (IH Hin) as [e' He']. exists e'. cbn [mbind result_bind].
    fold (mapM f l). by rewrite He'.
Qed.

Lemma mapM_ok {X Y} (f : X -> result Y) (l : list X) (rs : list Y) :
  mapM f l = ok rs -> Forall2 (fun x r => f x = ok r) l rs.
Proof.
  revert rs. induction l as [|y l IH]; intros rs; cbn [mapM].
  - intros [= <-]. constructor.
  - destruct (f y) as [e0|r] eqn:Hy; [discriminate|]. cbn [mbind result_bind].
    fold (mapM f l). destruct (mapM f l) as [e1|rs'] eqn:Hl; [discriminate|].
    intros [= <-]. constructor; [done|]. by apply IH.
Qed.

(** ** A zone whose area is zero *)

Lemma py_div_ten (t : num) : exists temp, py_div t (Int 10) = ok temp.
Proof.
  destruct t as [z|r].
  - exists (Int (z / 10)). reflexivity.
  - exists (Float (r / 10)). apply py_div_float_by. simpl. lra.
Qed.

Lemma bqart_vars_zero_area temps precips max_reliefs min_reliefs areas k p a hi lo t :
  precips !! k = Some p -> areas !! k = Some a ->
  max_reliefs !! k = Some hi -> min_reliefs !! k = Some lo ->
  temps !! k = Some t ->
  to_R a = 0%R ->
  bqart_vars temps precips max_reliefs min_reliefs areas k
  = raise (ZeroDivisionError "float division by zero").
Proof.
  intros Hp Ha Hhi Hlo Ht Ha0. unfold bqart_vars.
  rewrite (getitem_Some _ _ _ Hp), (getitem_Some _ _ _ Ha), (getitem_Some _ _ _ Hhi),
    (getitem_Some _ _ _ Hlo), (getitem_Some _ _ _ Ht).
  destruct (py_div_ten t) as [temp Htemp].
  cbn [mbind result_bind ok]. rewrite Htemp.
  change (60 * 60 * 24 * 365) with 31536000.
  change (py_div (Int 1000000000) density) with (ok (Int 370370)).
  unfold py_float. rewrite Ha0. py_steps.
  by rewrite py_div_zero_float.
Qed.

Lemma bqart_zone_zero_area_fails temps precips max_reliefs min_reliefs areas fdo fm ur
    k p a :
  precips !! k = Some p -> areas !! k = Some a ->
  is_Some (max_reliefs !! k) -> is_Some (min_reliefs !! k) ->
  to_R a = 0%R ->
  exists e, bqart_zone temps precips max_reliefs min_reliefs areas fdo fm ur k = raise e.
Proof.
  intros Hp Ha [hi Hhi] [lo Hlo] Ha0. unfold bqart_zone.
  destruct (temps !! k) as [t|] eqn:Ht.
  - rewrite (bqart_vars_zero_area _ _ _ _ _ _ _ _ _ _ _ Hp Ha Hhi Hlo Ht Ha0). by eexists.
  - unfold bqart_vars.
    rewrite (getitem_Some _ _ _ Hp), (getitem_Some _ _ _ Ha), (getitem_Some _ _ _ Hhi),
      (getitem_Some _ _ _ Hlo), (getitem_None _ _ Ht). by eexists.
Qed.

(** C5 (as amended).  For a zone of the precipitation table whose area
    statistic is zero, [do_bqart] raises and returns no record, for that
    zone or any other; when the zone has a temperature statistic the
    exception raised at that zone is Python's [ZeroDivisionError] with the
    text [float division by zero], from line 720. *)
Theorem C5_zero_area_raises w pz tz ez fault_data_path fault_meta uplift_rate
    t_rows p_rows e_rows k p a :
  SearchCursor w tz = ok t_rows ->
  SearchCursor w pz = ok p_rows ->
  SearchCursor w ez = ok e_rows ->
  dict_of MEAN p_rows !! k = Some p ->
  dict_of AREA e_rows !! k = Some a ->
  to_R a = 0%R ->
  (exists e, do_bqart w pz tz ez fault_data_path fault_meta uplift_rate = raise e) /\
  (forall t, dict_of MEAN t_rows !! k = Some t ->
     bqart_vars (dict_of MEAN t_rows) (dict_of MEAN p_rows) (dict_of MAX e_rows)
       (dict_of MIN e_rows) (dict_of AREA e_rows) k
     = raise (ZeroDivisionError "float division by zero")).
Proof.
  intros Htz Hpz Hez Hp Ha Ha0.
  assert (Hin : k ∈ VALUE <$> e_rows) by (apply (dict_of_is_Some AREA); by rewrite Ha).
  assert (Hhi : is_Some (dict_of MAX e_rows !! k)) by by apply dict_of_is_Some.
  assert (Hlo : is_Some (dict_of MIN e_rows !! k)) by by apply dict_of_is_Some.
  split.
  - unfold do_bqart. rewrite Htz, Hpz, Hez. cbn [mbind result_bind ok].
    destruct (load_fault_data w fault_data_path) as [e0|[fdo csv_row]]; [by eexists|].
    cbn [mbind result_bind ok].
    destruct (nonempty t_rows || nonempty p_rows || nonempty e_rows || csv_row);
      [|by eexists].
    destruct (bqart_zone_zero_area_fails (dict_of MEAN t_rows) _ _ _ _ fdo fault_meta
                uplift_rate k p a Hp Ha Hhi Hlo Ha0) as [e He].
    eapply mapM_raise; [|exact He]. apply elem_of_keys. by rewrite Hp.
  - intros t Ht. destruct Hhi as [hi Hhi], Hlo as [lo Hlo].
    by eapply bqart_vars_zero_area.
Qed.

Lemma C5_zero_area_raises_witness :
  (exists e, flat_run = raise e) /\
  bqart_vars (dict_of MEAN [flat_t]) (dict_of MEAN [flat_p]) (dict_of MAX [flat_e])
    (dict_of MIN [flat_e]) (dict_of AREA [flat_e]) 7
  = raise (ZeroDivisionError "float division by zero").
Proof.
  destruct (C5_zero_area_raises flat_world pz_path tz_path ez_path (MPath csv_path)
              (MMeta one_fault_meta) (MNum (Float 1)) [flat_t] [flat_p] [flat_e] 7
              (Float 1000) (Float 0)) as [Hrun Hzone];
    [reflexivity | reflexivity | reflexivity | reflexivity | reflexivity | reflexivity |].
  split; [exact Hrun|]. apply (Hzone (Float 200)). reflexivity.
Defined.

(** C5, as stated, fails on zone 7 of the flat tables: the exception that
    ends the run is [ZeroDivisionError] with Python's own text, which does
    not name the zone. *)
Lemma C5_error_lacks_zone_id :
  flat_run = raise (ZeroDivisionError "float division by zero") /\
  reports_zone (ZeroDivisionError "float division by zero") 7 = false.
Proof.
  split; [|reflexivity].
  unfold flat_run, flat_world.
  rewrite (do_bqart_tables _ _ _ _ _ _ _
             (<["7" := ("0", "12.5")]> (<["id" := ("fault", "distance")]> ∅)) true)
    by first [apply load_fault_data_csv; reflexivity | reflexivity].
  replace (keys (dict_of MEAN [flat_p])) with [7] by (by vm_compute).
  cbn [mapM mbind result_bind]. unfold bqart_zone.
  rewrite (bqart_vars_zero_area _ _ _ _ _ 7 (Float 1000) (Float 0) (Int 2000) (Int 0)
             (Float 200)) by reflexivity.
  reflexivity.
Qed.

(** ** The records [do_bqart] returns *)

Lemma bqart_zone_head temps precips max_reliefs min_reliefs areas fdo fm ur k row :
  bqart_zone temps precips max_reliefs min_reliefs areas fdo fm ur k = ok row ->
  head row = Some (CNum (Int k)).
Proof.
  unfold bqart_zone.
  destruct (bqart_vars _ _ _ _ _ _) as [e|v]; [discriminate|]. cbn [mbind result_bind].
  destruct (bqart_tectonic _ _ _ _ _) as [e|extra]; [discriminate|].
  cbn [mbind result_bind]. by intros [= <-].
Qed.

Lemma bqart_tectonic_length fdo fm ur k area extra :
  bqart_tectonic fdo fm ur k area = ok extra -> length extra = 5%nat.
Proof.
  unfold bqart_tectonic. destruct (bool_decide (fdo ≠ ∅)).
  - destruct (fdo !! py_str k) as [[fault_id distance]|]; [|discriminate].
    destruct (py_int fault_id) as [e|i]; [discriminate|]. cbn [mbind result_bind].
    destruct (meta_getitem fm i) as [e|m]; [discriminate|]. cbn [mbind result_bind].
    destruct (py_div _ _) as [e|slip_m]; [discriminate|]. cbn [mbind result_bind].
    destruct (py_div _ _) as [e|Q]; [discriminate|]. cbn [mbind result_bind].
    by intros [= <-].
  - destruct (mval_div _ _); discriminate.
Qed.

Lemma bqart_zone_length temps precips max_reliefs min_reliefs areas fdo fm ur k row :
  bqart_zone temps precips max_reliefs min_reliefs areas fdo fm ur k = ok row ->
  length row = 19%nat.
Proof.
  unfold bqart_zone.
  destruct (bqart_vars _ _ _ _ _ _) as [e|v]; [discriminate|]. cbn [mbind result_bind].
  destruct (bqart_tectonic _ _ _ _ _) as [e|extra] eqn:Hextra; [discriminate|].
  cbn [mbind result_bind]. intros [= <-].
  unfold qs_base. cbn [app length].
  by rewrite (bqart_tectonic_length _ _ _ _ _ _ Hextra).
Qed.

(** What a successful run returns: one record per key of the
    precipitation dict. *)
Lemma do_bqart_ok w pz tz ez fault_data_path fault_meta uplift_rate rows :
  do_bqart w pz tz ez fault_data_path fault_meta uplift_rate = ok rows ->
  exists t_rows p_rows e_rows fdo,
    SearchCursor w tz = ok t_rows /\ SearchCursor w pz = ok p_rows /\
    SearchCursor w ez = ok e_rows /\
    Forall2 (fun k row =>
               bqart_zone (dict_of MEAN t_rows) (dict_of MEAN p_rows) (dict_of MAX e_rows)
                 (dict_of MIN e_rows) (dict_of AREA e_rows) fdo fault_meta uplift_rate k
               = ok row)
      (keys (dict_of MEAN p_rows)) rows.
Proof.
  unfold do_bqart.
  destruct (SearchCursor w tz) as [e|t_rows]; [discriminate|]. cbn [mbind result_bind].
  destruct (SearchCursor w pz) as [e|p_rows]; [discriminate|]. cbn [mbind result_bind].
  destruct (SearchCursor w ez) as [e|e_rows]; [discriminate|]. cbn [mbind result_bind].
  destruct (load_fault_data w fault_data_path) as [e|[fdo csv_row]]; [discriminate|].
  cbn [mbind result_bind].
  destruct (nonempty t_rows || nonempty p_rows || nonempty e_rows || csv_row);
    [|discriminate].
  intros Hrows. exists t_rows, p_rows, e_rows, fdo. repeat split; try reflexivity.
  by apply mapM_ok.
Qed.

Lemma do_bqart_rows_length w pz tz ez fault_data_path fault_meta uplift_rate rows :
  do_bqart w pz tz ez fault_data_path fault_meta uplift_rate = ok rows ->
  Forall (fun row => length row = 19%nat) rows.
Proof.
  intros Hrun. destruct (do_bqart_ok _ _ _ _ _ _ _ _ Hrun) as (t & p & e & fdo & _ & _ & _ & H).
  clear Hrun. induction H as [|k row ks rows Hrow _ IH]; [constructor|].
  constructor; [|done]. by eapply bqart_zone_length.
Qed.

(** C7.  A zone id found in the elevation table and not in the
    precipitation table heads no record of the output of [do_bqart]:
    the loop runs over the keys of the precipitation dict. *)
Theorem C7_zone_absent_from_precipitation w pz tz ez fault_data_path fault_meta
    uplift_rate p_rows e_rows rows k :
  SearchCursor w pz = ok p_rows ->
  SearchCursor w ez = ok e_rows ->
  k ∈ VALUE <$> e_rows ->
  k ∉ VALUE <$> p_rows ->
  do_bqart w pz tz ez fault_data_path fault_meta uplift_rate = ok rows ->
  forall row, row ∈ rows -> head row ≠ Some (CNum (Int k)).
Proof.
  intros Hpz Hez Hin Hnotin Hrun row Hrow.
  destruct (do_bqart_ok _ _ _ _ _ _ _ _ Hrun) as (t & p & e & fdo & _ & Hp & _ & H).
  rewrite Hpz in Hp. injection Hp as <-.
  apply list_elem_of_lookup in Hrow as [i Hi].
  destruct (Forall2_lookup_r _ _ _ _ _ H Hi) as (k' & Hk' & Hzone).
  rewrite (bqart_zone_head _ _ _ _ _ _ _ _ _ _ Hzone). intros [= ->].
  apply Hnotin. apply (dict_of_is_Some MEAN). apply elem_of_keys.
  by eapply list_elem_of_lookup_2.
Qed.

Lemma elevation_only_run_eq :
  elevation_only_run
  = ok [(qs_base 1 (zone_chain 1000 100000000 (Int 2000) (Int 0) 200)
         ++ [CNum (Float 2); CNum (Float (100000000 * (2 / 1000) / 2700)); CStr "0";
             CStr "Alpine"; CStr "12.5"])%list].
Proof.
  unfold elevation_only_run, elevation_only_world.
  rewrite (do_bqart_tables _ _ _ _ _ _ _ _ true (load_fault_data_csv _ _ _ _ _ one_fault_rows))
    by reflexivity.
  replace (keys (dict_of MEAN [fixture_p])) with [1] by (by vm_compute).
  cbn [mapM mbind result_bind]. unfold bqart_zone.
  rewrite (bqart_vars_floats _ _ _ _ _ 1 1000 100000000 (Int 2000) (Int 0) 200)
    by (reflexivity || lra).
  cbn [mbind result_bind ok]. cbn [zone_chain zone.area_m_squared].
  rewrite (bqart_tectonic_fault _ _ (FaultMeta "Alpine" (Float 1) (Float 2) (Int 0)
             (Int 10000) "normal") _ _ _ "0" "12.5" 0 2); try reflexivity.
Qed.

Lemma C7_zone_absent_from_precipitation_witness :
  exists rows,
    elevation_only_run = ok rows /\ length rows = 1%nat /\
    forall row, row ∈ rows -> head row ≠ Some (CNum (Int 2)).
Proof.
  eexists. split; [apply elevation_only_run_eq|]. split; [reflexivity|].
  apply (C7_zone_absent_from_precipitation elevation_only_world pz_path tz_path ez_path
           (MPath csv_path) (MMeta one_fault_meta) (MNum (Float 1))
           [fixture_p] [fixture_e; second_e]).
  - reflexivity.
  - reflexivity.
  - cbn. by right; left.
  - cbn. by rewrite list_elem_of_singleton.
  - apply elevation_only_run_eq.
Defined.

(** ** The header of the output table *)

Lemma row_headers_cons first rest :
  row_headers (first :: rest)
  = ok (if (16 <? length first)%nat then (base_headers ++ fault_headers)%list
        else base_headers).
Proof. unfold row_headers. by destruct (16 <? length first)%nat. Qed.

(** C9 (as amended).  The table written by [save_data_to_csv] has the
    three fault columns in its header exactly when its first record has
    more than sixteen fields; the other records are not looked at.  Every
    record of a table returned by [do_bqart] has nineteen fields, so for
    those tables the first record stands for all. *)
Theorem C9_header_follows_first_record :
  (forall first rest p w w',
     save_data_to_csv (first :: rest) p w = ok w' ->
     exists headers,
       fs w' !! os_path_join p ["qs_data.csv"] = Some (FRecords headers (first :: rest)) /\
       ((16 < length first)%nat -> headers = (base_headers ++ fault_headers)%list) /\
       ((length first <= 16)%nat -> headers = base_headers)) /\
  (forall w pz tz ez fault_data_path fault_meta uplift_rate rows,
     do_bqart w pz tz ez fault_data_path fault_meta uplift_rate = ok rows ->
     Forall (fun row => length row = 19%nat) rows).
Proof.
  split; [|apply do_bqart_rows_length].
  intros first rest p w w'. unfold save_data_to_csv. rewrite row_headers_cons.
  cbn [mbind result_bind ok]. unfold write_file.
  destruct (isdir w (dirname (os_path_join p ["qs_data.csv"]))); [|discriminate].
  intros [= <-]. eexists. cbn [fs]. split; [apply lookup_insert_eq|]. split; intros Hlen.
  - apply Nat.ltb_lt in Hlen. by rewrite Hlen.
  - apply Nat.ltb_ge in Hlen. by rewrite Hlen.
Qed.

Lemma C9_header_follows_first_record_witness :
  exists w' headers,
    save_data_to_csv mixed_table ["run"] empty_world = ok w' /\
    fs w' !! ["run"; "qs_data.csv"] = Some (FRecords headers mixed_table) /\
    headers = base_headers.
Proof.
  eexists.
  destruct (proj1 C9_header_follows_first_record uniform_record [fault_record] ["run"]
              empty_world _ eq_refl) as (headers & Hfile & _ & Hbase).
  exists headers. split; [reflexivity|]. split; [exact Hfile|].
  apply Hbase. vm_compute. lia.
Defined.

(** C9, as stated, fails on a table whose second record alone carries the
    fault fields: the header that is written has the sixteen base columns
    only. *)
Lemma C9_later_record_is_ignored :
  row_headers mixed_table = ok base_headers /\
  Exists (fun row => (16 < length row)%nat) mixed_table /\
  exists w',
    save_data_to_csv mixed_table ["run"] empty_world = ok w' /\
    fs w' !! ["run"; "qs_data.csv"] = Some (FRecords base_headers mixed_table).
Proof.
  split; [reflexivity|]. split.
  - apply Exists_cons_tl, Exists_cons_hd. vm_compute. lia.
  - eexists. split; [reflexivity|]. cbn [fs]. apply lookup_insert_eq.
Qed.

(** ** The stage manifest *)

(** One tool call that went through. *)
Ltac run_step :=
  match goal with
  | |- context [run_tool ?d ?c ?w] =>
      destruct (run_tool d c w) as [?|?] eqn:?; [discriminate|];
      cbn [mbind result_bind ok]
  end.

Section Manifest.

Variable derive : gpcall -> list file -> file.

(** The hydrology stage returns the mapping of lines 172-183 and leaves
    it in [hydro_paths.yml]. *)
Lemma hydro_workflow_ok self w hydro_paths w' :
  hydro_workflow derive self w = ok (hydro_paths, w') ->
  hydro_paths =
    hydro_manifest self
      (in_dir (batch_path self) self "_fill.tif")
      (in_dir (batch_path self) self "_f_dir.tif")
      (in_dir (batch_path self) self "_f_acc.tif")
      (in_dir (batch_path self) self "_net.tif")
      (in_dir (batch_path self) self "_net_null.tif")
      (in_dir (batch_path self) self "_s_order.tif")
      (in_dir (batch_path self) self "_streams.shp") /\
  yaml_load (os_path_join (batch_path self) ["hydro_paths.yml"]) w' = ok hydro_paths.
Proof.
  unfold hydro_workflow, fill, flow_direction, flow_accumulation, stream_network,
    nullify, stream_order, vectorise_streams.
  do 7 run_step. unfold yaml_dump, write_file.
  destruct (isdir _ _); [|discriminate]. cbn [mbind result_bind ok].
  intros [= <- <-]. split; [reflexivity|].
  unfold yaml_load. cbn [fs]. by rewrite lookup_insert_eq.
Qed.

(** C10.  A manifest as the hydrology stage writes it, which the fault
    stage has not completed, has the entry [fault_data_meta] and no entry
    [fault_meta_data].  With it the BQART stage never returns: once the
    climate rasters and the zonal tables are made, the read of
    [hydro_paths['fault_meta_data']] raises [KeyError], which the
    handlers of the driver ([OSError], [IOError]) do not catch. *)
Theorem C10_fault_meta_data_missing self w0 w0' hydro_paths :
  hydro_workflow derive self w0 = ok (hydro_paths, w0') ->
  hydro_paths !! "fault_data_meta" = Some (MPath []) /\
  hydro_paths !! "fault_meta_data" = None /\
  yaml_load (os_path_join (batch_path self) ["hydro_paths.yml"]) w0' = ok hydro_paths /\
  driver_catches (KeyError (KStr "fault_meta_data")) = false /\
  (forall self' watershed_raster watershed_path temp_directory precip_directory
          climate_scenario timestamp w,
     (exists e,
        bqart_workflow derive self' watershed_raster hydro_paths watershed_path
          temp_directory precip_directory climate_scenario timestamp w = raise e) /\
     (forall climate_batch_path w1 precip_clip temp_clip w2 tz pz ez w3,
        climate_batch_directory watershed_path timestamp w = ok (climate_batch_path, w1) ->
        climate_rasters derive watershed_raster watershed_path temp_directory
          precip_directory climate_scenario w1 = ok (precip_clip, temp_clip, w2) ->
        climate_statistics derive self' climate_batch_path watershed_raster temp_clip
          precip_clip w2 = ok (tz, pz, ez, w3) ->
        bqart_workflow derive self' watershed_raster hydro_paths watershed_path
          temp_directory precip_directory climate_scenario timestamp w
        = raise (KeyError (KStr "fault_meta_data")))).
Proof.
  intros Hhydro. destruct (hydro_workflow_ok _ _ _ _ Hhydro) as [-> Hload].
  set (m := hydro_manifest _ _ _ _ _ _ _ _) in *.
  split; [reflexivity|]. split; [reflexivity|]. split; [exact Hload|].
  split; [reflexivity|].
  intros self' watershed_raster watershed_path temp_directory precip_directory
    climate_scenario timestamp w.
  assert (Hread : forall (X : Type) (k : mval -> mval -> mval -> result X),
            (fault_data_path ← manifest_getitem m "fault_data";
             fault_meta ← manifest_getitem m "fault_meta_data";
             uplift_rate ← manifest_getitem m "uplift_rate";
             k fault_data_path fault_meta uplift_rate)
            = raise (KeyError (KStr "fault_meta_data"))) by reflexivity.
  split.
  - unfold bqart_workflow.
    destruct (climate_batch_directory _ _ _) as [e|[cb w1]]; [by eexists|].
    cbn [mbind result_bind].
    destruct (climate_rasters _ _ _ _ _ _ _) as [e|[[pc tc] w2]]; [by eexists|].
    cbn [mbind result_bind].
    destruct (climate_statistics _ _ _ _ _ _ _) as [e|[[[tz pz] ez] w3]]; [by eexists|].
    cbn [mbind result_bind].
    eexists. apply (Hread world (fun a b c => qs_data ← do_bqart w3 pz tz ez a b c;
                                             save_data_to_csv qs_data cb w3)).
  - intros cb w1 pc tc w2 tz pz ez w3 H1 H2 H3. unfold bqart_workflow.
    rewrite H1. cbn [mbind result_bind ok]. rewrite H2. cbn [mbind result_bind ok].
    rewrite H3. cbn [mbind result_bind ok].
    apply (Hread world (fun a b c => qs_data ← do_bqart w3 pz tz ez a b c;
                                    save_data_to_csv qs_data cb w3)).
Qed.

End Manifest.

(** ** The fault stage and the manifest *)

Section FaultStage.

Variable derive : gpcall -> list file -> file.

(** The fault stage puts two entries in the dict it is handed and writes
    the dict back to [hydro_paths.yml]. *)
Lemma fault_workflow_ok self faultlines hydro_paths w pour_points self' hydro_paths' w' :
  fault_workflow derive self faultlines hydro_paths w
  = ok (pour_points, self', hydro_paths', w') ->
  hydro_paths' =
    <["fault_meta_data" := MMeta (fault_meta_data self')]>
      (<["fault_data" := MPath (in_dir (batch_path self) self "_intersect_data.csv")]>
         hydro_paths) /\
  yaml_load (os_path_join (batch_path self) ["hydro_paths.yml"]) w' = ok hydro_paths'.
Proof.
  unfold fault_workflow, get_fault_data.
  destruct (fs w !! faultlines) as [[]|]; try discriminate.
  cbn [mbind result_bind ok].
  destruct (manifest_getitem hydro_paths "vector_streams") as [?|v]; [discriminate|].
  cbn [mbind result_bind ok].
  destruct (as_dataset v) as [?|streams]; [discriminate|]. cbn [mbind result_bind ok].
  unfold fault_intersects, intersects_to_singlepart, remove_lowlands, ignore_lowest_pp,
    fault_routes, intersect_events.
  do 7 run_step. unfold extract_intersect_positions.
  match goal with |- context [fs ?w0 !! ?p] => destruct (fs w0 !! p) as [[]|] end;
    try discriminate.
  match goal with
  | |- context [write_file ?p ?f ?w0] => destruct (write_file p f w0) as [?|?]
  end; [discriminate|]. cbn [mbind result_bind ok].
  match goal with |- context [nonempty ?l] => destruct (nonempty l) end; [|discriminate].
  cbn [mbind result_bind ok]. unfold yaml_dump, write_file.
  destruct (isdir _ _); [|discriminate]. cbn [mbind result_bind ok].
  intros [= <- <- <- <-]. split; [reflexivity|].
  unfold yaml_load. cbn [fs]. by rewrite lookup_insert_eq.
Qed.

(** C6 (as amended).  After the fault stage the manifest read back from
    [hydro_paths.yml] is the mapping the stage wrote: the mapping of the
    hydrology stage with [fault_data] overwritten by the path of the
    intersect table and [fault_meta_data] added.  Every other entry of
    the hydrology stage is there unchanged; the placeholder the hydrology
    stage wrote under [fault_data], the empty string, is gone. *)
Theorem C6_fault_stage_manifest self w0 w1 hydro_paths faultlines w pour_points self'
    hydro_paths' w2 :
  hydro_workflow derive self w0 = ok (hydro_paths, w1) ->
  fault_workflow derive self faultlines hydro_paths w
  = ok (pour_points, self', hydro_paths', w2) ->
  yaml_load (os_path_join (batch_path self) ["hydro_paths.yml"]) w2 = ok hydro_paths' /\
  hydro_paths !! "fault_data" = Some (MPath []) /\
  hydro_paths' !! "fault_data"
    = Some (MPath (in_dir (batch_path self) self "_intersect_data.csv")) /\
  hydro_paths' !! "fault_meta_data" = Some (MMeta (fault_meta_data self')) /\
  (forall k, k ≠ "fault_data" -> k ≠ "fault_meta_data" ->
     hydro_paths' !! k = hydro_paths !! k) /\
  (forall k, is_Some (hydro_paths !! k) -> is_Some (hydro_paths' !! k)).
Proof.
  intros Hhydro Hfault.
  destruct (hydro_workflow_ok _ _ _ _ _ Hhydro) as [Hhp _].
  destruct (fault_workflow_ok _ _ _ _ _ _ _ _ Hfault) as [-> Hload].
  split; [exact Hload|]. split; [by rewrite Hhp|].
  split; [rewrite lookup_insert_ne by done; by rewrite lookup_insert_eq|].
  split; [by rewrite lookup_insert_eq|]. split.
  - intros k Hk1 Hk2. by rewrite !lookup_insert_ne.
  - intros k Hk. destruct (decide (k = "fault_meta_data")) as [->|Hk2];
      [by rewrite lookup_insert_eq|].
    rewrite lookup_insert_ne by done.
    destruct (decide (k = "fault_data")) as [->|Hk1]; [by rewrite lookup_insert_eq|].
    by rewrite lookup_insert_ne.
Qed.

End FaultStage.

(** ** The climate cache *)

(** [check_climate_cache] answers with the path a build of the same
    datatype writes its clipped raster to, and only when a file is there. *)
Lemma check_climate_cache_hit w watershed_directory climate_scenario datatype p :
  check_climate_cache w watershed_directory climate_scenario datatype = Some p <->
  p = os_path_join (os_path_join watershed_directory ["climate_cache"])
        [datatype ++ "_" ++ climate_scenario ++ "_clip.tif"] /\
  isfile w p = true.
Proof.
  unfold check_climate_cache, os_path_join. rewrite <- app_assoc. cbn [app].
  destruct (isfile w _) eqn:Hfile; split.
  - intros [= <-]. by rewrite Hfile.
  - by intros [-> _].
  - discriminate.
  - intros [-> H]. congruence.
Qed.

(** Whenever a clipped precipitation raster is in the cache, the
    temperature statistics are taken from it. *)
Lemma temperature_clip_from_precipitation_cache derive watershed_raster watershed_path
    temp_directory precip_directory climate_scenario w p precip_clip temp_clip w' :
  check_climate_cache w watershed_path climate_scenario "p" = Some p ->
  climate_rasters derive watershed_raster watershed_path temp_directory precip_directory
    climate_scenario w = ok (precip_clip, temp_clip, w') ->
  temp_clip = Some p.
Proof.
  intros Hp. unfold climate_rasters. rewrite Hp.
  destruct (check_climate_cache w watershed_path climate_scenario "t").
  - cbn [mbind result_bind ok]. by intros [= _ <- _].
  - destruct (average_rasters _ _ _ _ _) as [?|[? ?]]; [discriminate|].
    cbn [mbind result_bind ok].
    destruct (clip_raster _ _ _ _ _ _) as [?|[? ?]]; [discriminate|].
    cbn [mbind result_bind ok]. by intros [= _ <- _].
Qed.

(** ** Averaging and clipping *)

Lemma dirname_join (d : path) (n : string) : dirname (os_path_join d [n]) = d.
Proof. unfold dirname, os_path_join. apply removelast_last. Qed.

Lemma append_inv_head (s a b : string) : s ++ a = s ++ b -> a = b.
Proof. induction s as [|c s IH]; cbn; [done|]. intros [= H]. by apply IH. Qed.

Lemma cell_sum_Permutation (rs rs' : list raster) (c : Z * Z) :
  rs ≡ₚ rs' -> cell_sum rs c = cell_sum rs' c.
Proof.
  unfold cell_sum.
  induction 1 as [|r l l' _ IH|r r' l|l l' l'' _ IH1 _ IH2]; cbn [foldr].
  - reflexivity.
  - by rewrite IH.
  - lra.
  - congruence.
Qed.

Lemma mapM_ext_in {X Y} (f g : X -> result Y) (l : list X) :
  (forall x, x ∈ l -> f x = g x) -> mapM f l = mapM g l.
Proof.
  induction l as [|x l IH]; intros Hfg; cbn [mapM]; [reflexivity|].
  fold (mapM f l) (mapM g l). rewrite (Hfg x) by apply list_elem_of_here.
  rewrite IH; [reflexivity|]. intros y Hy. apply Hfg. by apply list_elem_of_further.
Qed.

Lemma mapM_cons {X Y} (f : X -> result Y) (x : X) (l : list X) :
  mapM f (x :: l) = (y ← f x; k ← mapM f l; ok (y :: k)).
Proof. reflexivity. Qed.

Lemma mapM_Permutation {X Y} (f : X -> result Y) (l l' : list X) (rs : list Y) :
  l ≡ₚ l' -> mapM f l = ok rs -> exists rs', mapM f l' = ok rs' /\ rs ≡ₚ rs'.
Proof.
  intros Hperm. revert rs.
  induction Hperm as [|x l l' _ IH|x y l|l l' l'' _ IH1 _ IH2]; intros rs.
  - intros H. by exists rs.
  - rewrite !mapM_cons. destruct (f x) as [?|r]; [discriminate|].
    cbn [mbind result_bind ok].
    destruct (mapM f l) as [?|k] eqn:Hk; [discriminate|]. intros [= <-].
    destruct (IH k eq_refl) as (k' & -> & Hk'). exists (r :: k'). split; [done|].
    by constructor.
  - rewrite !mapM_cons. destruct (f y) as [?|ry]; [discriminate|].
    cbn [mbind result_bind ok]. destruct (f x) as [?|rx]; [discriminate|].
    cbn [mbind result_bind ok]. destruct (mapM f l) as [?|k]; [discriminate|].
    intros [= <-]. exists (rx :: ry :: k). split; [done|]. constructor.
  - intros H. destruct (IH1 rs H) as (rs1 & H1 & Hp1).
    destruct (IH2 rs1 H1) as (rs2 & H2 & Hp2). exists rs2. split; [done|].
    by etrans.
Qed.

Lemma foldl_rval_add (a : raster) (rs : list raster) :
  exists r, foldl rval_add (RRaster a) rs = RRaster r /\
            forall c, r c = (a c + cell_sum rs c)%R.
Proof.
  revert a. induction rs as [|r0 rs IH]; intros a; cbn [foldl rval_add].
  - exists a. split; [reflexivity|]. intros c. unfold cell_sum. cbn [foldr]. lra.
  - destruct (IH (fun c => (a c + r0 c)%R)) as (r & -> & Hr). exists r.
    split; [reflexivity|]. intros c. rewrite Hr. unfold cell_sum. cbn [foldr]. lra.
Qed.

(** [sum(rasters)] of a list that is not empty is the raster of the
    cell-wise sums. *)
Lemma py_sum_cells (rs : list raster) :
  rs ≠ [] -> exists r, py_sum rs = RRaster r /\ forall c, r c = cell_sum rs c.
Proof.
  destruct rs as [|r0 rs]; [done|]. intros _. unfold py_sum. cbn [foldl rval_add].
  destruct (foldl_rval_add (fun c => (to_R (Int 0) + r0 c)%R) rs) as (r & -> & Hr).
  exists r. split; [reflexivity|]. intros c. rewrite Hr. unfold cell_sum.
  cbn [foldr to_R]. lra.
Qed.

(** What [average_rasters] saves: the cell-wise sum of the rasters of the
    directory, divided by their number when [monthly] is set. *)
Lemma average_rasters_ok search_directory save_directory name monthly w rs :
  isdir w search_directory = true ->
  isdir w save_directory = true ->
  mapM (Raster w) (glob_tif w search_directory) = ok rs ->
  rs ≠ [] ->
  exists r,
    average_rasters search_directory save_directory name monthly w
    = ok (os_path_join save_directory [name],
          {| fs := <[os_path_join save_directory [name] := FRaster r]> (fs w);
             dirs := dirs w;
             calls := (calls w ++ [GP "Raster.save" (glob_tif w search_directory) []
                                     (os_path_join save_directory [name])])%list |}) /\
    forall c, r c = if monthly then (cell_sum rs c / INR (length rs))%R
                    else cell_sum rs c.
Proof.
  intros Hsearch Hsave Hrs Hne. unfold average_rasters, chdir. rewrite Hsearch.
  cbn [mbind result_bind ok]. rewrite Hrs. cbn [mbind result_bind ok].
  destruct (py_sum_cells rs Hne) as (r & -> & Hr). rewrite dirname_join, Hsave.
  destruct monthly.
  - cbn [rval_div]. destruct (decide (Z.of_nat (length rs) = 0)) as [H0|_].
    { destruct rs; [done|]. cbn in H0. lia. }
    cbn [mbind result_bind ok]. eexists. split; [reflexivity|]. intros c. cbn beta.
    by rewrite Hr, INR_IZR_INZ.
  - cbn [mbind result_bind ok]. exists r. by split.
Qed.

Lemma elem_of_glob_tif w d p :
  p ∈ glob_tif w d <-> is_Some (fs w !! p) /\ in_directory d p = true.
Proof.
  unfold glob_tif. rewrite list_elem_of_filter, list_elem_of_fmap. split.
  - intros [Hdir ([q f] & -> & Hin)]. apply elem_of_map_to_list in Hin. split; [|done].
    by exists f.
  - intros [[f Hf] Hdir]. split; [done|]. exists (p, f). split; [done|].
    by apply elem_of_map_to_list.
Qed.

Lemma NoDup_glob_tif w d : NoDup (glob_tif w d).
Proof. unfold glob_tif. apply NoDup_filter, NoDup_fst_map_to_list. Qed.

Lemma in_directory_dirname d p : in_directory d p = true -> dirname p = d.
Proof.
  unfold in_directory. destruct (last p); [|discriminate].
  intros H. apply andb_prop in H as [H _]. by apply bool_decide_eq_true in H.
Qed.

(** Files written elsewhere leave the rasters of a directory as they
    are, up to the order in which they are listed. *)
Lemma dir_rasters_stable w w' d rs :
  (forall p, dirname p = d -> fs w' !! p = fs w !! p) ->
  mapM (Raster w) (glob_tif w d) = ok rs ->
  exists rs', mapM (Raster w') (glob_tif w' d) = ok rs' /\ rs ≡ₚ rs'.
Proof.
  intros Hsame Hrs.
  assert (Hperm : glob_tif w d ≡ₚ glob_tif w' d).
  { apply NoDup_Permutation; [apply NoDup_glob_tif..|]. intros p.
    rewrite !elem_of_glob_tif. split; intros [Hp Hdir]; (split; [|done]).
    - by rewrite Hsame by by apply in_directory_dirname.
    - by rewrite <- Hsame by by apply in_directory_dirname. }
  destruct (mapM_Permutation _ _ _ _ Hperm Hrs) as (rs' & Hrs' & Hp). exists rs'.
  split; [|done]. rewrite <- Hrs'. apply mapM_ext_in. intros p Hp'.
  apply elem_of_glob_tif in Hp' as [_ Hdir]. unfold Raster.
  by rewrite Hsame by by apply in_directory_dirname.
Qed.

Section Climate.

Variable derive : gpcall -> list file -> file.

Lemma clip_raster_ok input_raster save_directory name extent w fi fe :
  fs w !! input_raster = Some fi ->
  fs w !! extent = Some fe ->
  isdir w save_directory = true ->
  clip_raster derive input_raster save_directory name extent w
  = ok (os_path_join save_directory [name],
        {| fs := <[os_path_join save_directory [name] :=
                     derive (GP "Clip_management" [input_raster; extent] ["#"]
                               (os_path_join save_directory [name])) [fi; fe]]> (fs w);
           dirs := dirs w;
           calls := (calls w ++ [GP "Clip_management" [input_raster; extent] ["#"]
                                   (os_path_join save_directory [name])])%list |}).
Proof.
  intros Hin Hext Hdir. unfold clip_raster, run_tool. cbn [inputs output mapM].
  unfold read_dataset. rewrite Hin, Hext. cbn [mbind result_bind ok mret result_ret].
  by rewrite dirname_join, Hdir.
Qed.

End Climate.

Lemma cache_name_ne (d : path) (n n' : string) :
  n ≠ n' -> os_path_join d [n] ≠ os_path_join d [n'].
Proof.
  intros Hne H. unfold os_path_join in H. apply app_inv_head in H. congruence.
Qed.

Lemma all_ne_clip (a b : ascii) (scenario : string) :
  String a ("_" ++ scenario ++ "_all.tif") ≠ String b ("_" ++ scenario ++ "_clip.tif").
Proof.
  intros H. injection H as _ H. do 2 apply append_inv_head in H. discriminate H.
Qed.

Lemma dirname_ne (p q : path) : dirname p ≠ dirname q -> p ≠ q.
Proof. congruence. Qed.


(** ** Stages that run to their end *)

Lemma extends_in_refl d w : extends_in d w w.
Proof. by repeat split. Qed.

Lemma extends_in_trans d w1 w2 w3 :
  extends_in d w1 w2 -> extends_in d w2 w3 -> extends_in d w1 w3.
Proof.
  intros (Hd1 & Hf1 & Hs1) (Hd2 & Hf2 & Hs2). repeat split.
  - congruence.
  - intros p Hp. by rewrite Hf2, Hf1.
  - intros p Hp. by apply Hs2, Hs1.
Qed.

Lemma extends_in_isdir d w w' p : extends_in d w w' -> isdir w' p = isdir w p.
Proof. intros (Hd & _). unfold isdir. by rewrite Hd. Qed.

Lemma extends_in_present d w w' ps : extends_in d w w' -> present w ps -> present w' ps.
Proof.
  intros (_ & _ & Hs) Hps. unfold present in *. eapply Forall_impl; [exact Hps|].
  intros p. apply Hs.
Qed.

Lemma present_elem w ps p : present w ps -> p ∈ ps -> is_Some (fs w !! p).
Proof. intros Hps Hp. unfold present in Hps. by rewrite Forall_forall in Hps; apply Hps. Qed.

Lemma length_append (s t : string) :
  String.length (s ++ t) = (String.length s + String.length t)%nat.
Proof. induction s as [|c s IH]; simpl; [done|]. by f_equal. Qed.

Section StageRuns.

Variable derive : gpcall -> list file -> file.

Lemma mapM_read_dataset w ps :
  present w ps -> exists ins, mapM (read_dataset w) ps = ok ins.
Proof.
  induction 1 as [|p ps [f Hf] _ [ins IH]].
  - by exists [].
  - exists (f :: ins). rewrite mapM_cons.
    assert (Hread : read_dataset w p = ok f) by (unfold read_dataset; by rewrite Hf).
    rewrite Hread. cbn [mbind result_bind ok]. by rewrite IH.
Qed.

(** A tool whose inputs are there and whose output directory exists runs:
    it writes its output, touches nothing else and joins the record of
    calls. *)
Lemma run_tool_step c w known :
  present w known ->
  inputs c ⊆ known ->
  isdir w (dirname (output c)) = true ->
  exists w' ins,
    run_tool derive c w = ok w' /\
    fs w' !! output c = Some (derive c ins) /\
    present w' (output c :: known) /\
    extends_in (dirname (output c)) w w' /\
    calls w' = (calls w ++ [c])%list.
Proof.
  intros Hknown Hin Hdir.
  assert (Hins : present w (inputs c)).
  { unfold present. apply Forall_forall. intros p Hp.
    eapply present_elem; [exact Hknown|]. by apply Hin. }
  destruct (mapM_read_dataset w _ Hins) as [ins Hread].
  eexists _, ins. unfold run_tool. rewrite Hread. cbn [mbind result_bind ok].
  rewrite Hdir. split; [reflexivity|]. cbn [fs dirs calls].
  split; [apply lookup_insert_eq|].
  assert (Hext : forall p, is_Some (fs w !! p) ->
                   is_Some (<[output c := derive c ins]> (fs w) !! p)).
  { intros p Hp. rewrite lookup_insert_is_Some. destruct (decide (output c = p)); auto. }
  split.
  { constructor; [cbn [fs]; by rewrite lookup_insert_eq|].
    eapply Forall_impl; [exact Hknown|]. intros p. cbn [fs]. apply Hext. }
  split; [|reflexivity]. repeat split; [|exact Hext].
  intros p Hp. cbn [fs]. apply lookup_insert_ne. congruence.
Qed.

Lemma dirname_in_dir d self suffix : dirname (in_dir d self suffix) = d.
Proof. unfold in_dir. apply dirname_join. Qed.

(** The same for a tool that writes [<project_name><suffix>] in [d]. *)
Lemma tool_in_dir_step self d t ins_ ps suffix w known :
  present w known ->
  ins_ ⊆ known ->
  isdir w d = true ->
  exists w' ins,
    run_tool derive (GP t ins_ ps (in_dir d self suffix)) w = ok w' /\
    fs w' !! in_dir d self suffix = Some (derive (GP t ins_ ps (in_dir d self suffix)) ins) /\
    present w' (in_dir d self suffix :: known) /\
    extends_in d w w' /\
    isdir w' d = true /\
    calls w' = (calls w ++ [GP t ins_ ps (in_dir d self suffix)])%list.
Proof.
  intros Hknown Hin Hdir.
  destruct (run_tool_step (GP t ins_ ps (in_dir d self suffix)) w known Hknown Hin)
    as (w' & ins & Hrun & Hout & Hknown' & Hext & Hcalls).
  { cbn [output]. unfold in_dir. by rewrite dirname_join. }
  cbn [output] in *. unfold in_dir in Hext. rewrite dirname_join in Hext.
  exists w', ins. repeat split; try done; try apply Hext.
  by rewrite (extends_in_isdir _ _ _ _ Hext).
Qed.

Ltac in_list :=
  solve [repeat first [apply list_elem_of_here | apply list_elem_of_further]].

Ltac sub_list :=
  let x := fresh "x" in
  let Hx := fresh "Hx" in
  intros x Hx;
  repeat (apply elem_of_cons in Hx; destruct Hx as [->|Hx]; [in_list|]);
  by apply elem_of_nil in Hx.

(** The setters of the object leave its project name alone. *)
Ltac norm_in_dir self :=
  repeat match goal with
         | |- context [in_dir ?d ?x ?s] =>
             lazymatch x with
             | self => fail
             | _ => change (in_dir d x s) with (in_dir d self s)
             end
         end.

Tactic Notation "tool_step" hyp(H) "as" ident(w') ident(Ho) ident(Hk) ident(He)
    ident(Hd) ident(Hc) :=
  match goal with
  | |- context [run_tool derive (GP ?t ?i ?ps (in_dir ?d ?self ?suffix)) ?w] =>
      let ins := fresh "ins" in
      let Hrun := fresh "Hrun" in
      destruct (tool_in_dir_step self d t i ps suffix w _ H)
        as (w' & ins & Hrun & Ho & Hk & He & Hd & Hc);
      [sub_list | assumption |];
      rewrite Hrun; cbn [mbind result_bind ok]; clear Hrun
  end.

(** The datasets the hydrology stage leaves, with the DEM. *)
Lemma hydro_workflow_runs_all self w :
  is_Some (fs w !! original_dem self) ->
  isdir w (batch_path self) = true ->
  exists w',
    hydro_workflow derive self w
    = ok (hydro_manifest self
            (in_dir (batch_path self) self "_fill.tif")
            (in_dir (batch_path self) self "_f_dir.tif")
            (in_dir (batch_path self) self "_f_acc.tif")
            (in_dir (batch_path self) self "_net.tif")
            (in_dir (batch_path self) self "_net_null.tif")
            (in_dir (batch_path self) self "_s_order.tif")
            (in_dir (batch_path self) self "_streams.shp"), w') /\
    extends_in (batch_path self) w w' /\
    present w' [in_dir (batch_path self) self "_streams.shp";
                in_dir (batch_path self) self "_s_order.tif";
                in_dir (batch_path self) self "_net_null.tif";
                in_dir (batch_path self) self "_net.tif";
                in_dir (batch_path self) self "_f_acc.tif";
                in_dir (batch_path self) self "_f_dir.tif";
                in_dir (batch_path self) self "_fill.tif";
                original_dem self] /\
    tool <$> calls w'
    = ((tool <$> calls w)
       ++ ["Fill"; "FlowDirection"; "FlowAccumulation"; "Con"; "SetNull"; "StreamOrder";
           "StreamToFeature"])%list.
Proof.
  intros Hdem Hdir0.
  assert (Hknown : present w [original_dem self]) by by constructor.
  unfold hydro_workflow, fill, flow_direction, flow_accumulation, stream_network,
    nullify, stream_order, vectorise_streams.
  tool_step Hknown as w1 Ho1 Hk1 He1 Hd1 Hc1.
  tool_step Hk1 as w2 Ho2 Hk2 He2 Hd2 Hc2.
  tool_step Hk2 as w3 Ho3 Hk3 He3 Hd3 Hc3.
  tool_step Hk3 as w4 Ho4 Hk4 He4 Hd4 Hc4.
  tool_step Hk4 as w5 Ho5 Hk5 He5 Hd5 Hc5.
  tool_step Hk5 as w6 Ho6 Hk6 He6 Hd6 Hc6.
  tool_step Hk6 as w7 Ho7 Hk7 He7 Hd7 Hc7.
  unfold yaml_dump, write_file. rewrite dirname_join, Hd7.
  cbn [mbind result_bind ok]. eexists. split; [reflexivity|].
  assert (Hext : extends_in (batch_path self) w w7).
  { repeat (eapply extends_in_trans; [|eassumption]). apply extends_in_refl. }
  assert (Hin : forall f p,
            is_Some (fs w7 !! p) ->
            is_Some (<[os_path_join (batch_path self) ["hydro_paths.yml"] := f]>
                       (fs w7) !! p)).
  { intros f p Hp. rewrite lookup_insert_is_Some.
    destruct (decide (os_path_join (batch_path self) ["hydro_paths.yml"] = p)); auto. }
  split; [|split].
  - destruct Hext as (Hd & Hf & Hs). repeat split; cbn [fs dirs].
    + exact Hd.
    + intros p Hp. rewrite lookup_insert_ne; [by apply Hf|].
      intros <-. by rewrite dirname_join in Hp.
    + intros p Hp. by apply Hin, Hs.
  - unfold present in *. cbn [fs]. eapply Forall_impl; [exact Hk7|].
    intros p. apply Hin.
  - cbn [calls]. rewrite Hc7, Hc6, Hc5, Hc4, Hc3, Hc2, Hc1.
    rewrite !fmap_app. cbn. by rewrite <- !app_assoc.
Qed.

(** The hydrology stage runs to its end whenever the DEM is there and
    the batch directory exists.  It returns the mapping of lines 172-183,
    leaves it in [hydro_paths.yml], writes in the batch directory only and
    calls the seven tools in order. *)
Lemma hydro_workflow_runs self w :
  is_Some (fs w !! original_dem self) ->
  isdir w (batch_path self) = true ->
  exists w',
    hydro_workflow derive self w
    = ok (hydro_manifest self
            (in_dir (batch_path self) self "_fill.tif")
            (in_dir (batch_path self) self "_f_dir.tif")
            (in_dir (batch_path self) self "_f_acc.tif")
            (in_dir (batch_path self) self "_net.tif")
            (in_dir (batch_path self) self "_net_null.tif")
            (in_dir (batch_path self) self "_s_order.tif")
            (in_dir (batch_path self) self "_streams.shp"), w') /\
    extends_in (batch_path self) w w' /\
    present w' [in_dir (batch_path self) self "_streams.shp"; original_dem self] /\
    tool <$> calls w'
    = ((tool <$> calls w)
       ++ ["Fill"; "FlowDirection"; "FlowAccumulation"; "Con"; "SetNull"; "StreamOrder";
           "StreamToFeature"])%list.
Proof.
  intros Hdem Hdir0.
  destruct (hydro_workflow_runs_all self w Hdem Hdir0) as (w' & Hrun & Hext & Hall & Hc).
  exists w'. split; [exact Hrun|]. split; [exact Hext|]. split; [|exact Hc].
  unfold present in *. rewrite !Forall_cons in Hall. rewrite !Forall_cons.
  repeat split; apply Hall.
Qed.

(** The seven tools of the fault stage, and what follows them: the
    intersect table is written, then [del row] needs a located point. *)
Lemma fault_workflow_steps self faultlines hydro_paths w rows streams evs :
  fs w !! faultlines = Some (FFeatures rows) ->
  hydro_paths !! "vector_streams" = Some (MPath streams) ->
  present w [streams; original_dem self] ->
  isdir w (batch_path self) = true ->
  (forall ins,
     derive (GP "LocateFeaturesAlongRoutes_lr"
               [in_dir (batch_path self) self "_intersects_above.shp";
                in_dir (batch_path self) self "_fault_routes.shp"]
               ["Id"; faults_search_radius self; "RID POINT MEAS"]
               (in_dir (batch_path self) self "_intersect_events.dbf")) ins
     = FEvents evs) ->
  let meta := foldl (fun d row => <[FID row := attrs row]> d) (fault_meta_data self) rows in
  let data := in_dir (batch_path self) self "_intersect_data.csv" in
  let hydro_paths' :=
    <["fault_meta_data" := MMeta meta]> (<["fault_data" := MPath data]> hydro_paths) in
  exists w7,
    fault_workflow derive self faultlines hydro_paths w
    = (if nonempty evs then
         ok (in_dir (batch_path self) self "_intersects_above.shp",
             set_fault_data
               (set_highlands (set_fault_meta_data self meta)
                  (in_dir (batch_path self) self "_dem_no_lowlands.tif")) data,
             hydro_paths',
             {| fs := <[os_path_join (batch_path self) ["hydro_paths.yml"]
                          := FYaml hydro_paths']>
                        (<[data := FCsv (["id"; "fault"; "distance"]
                                           :: map (fun r => [OID r; RID r; MEAS r]) evs)]>
                           (fs w7));
                dirs := dirs w7;
                calls := calls w7 |})
       else raise (UnboundLocalError "local variable 'row' referenced before assignment")) /\
    extends_in (batch_path self) w w7 /\
    isdir w7 (batch_path self) = true /\
    tool <$> calls w7
    = ((tool <$> calls w)
       ++ ["Intersect_analysis"; "MultipartToSinglepart_management"; "ExtractByAttributes";
           "ExtractValuesToPoints"; "Select_analysis"; "CreateRoutes_lr";
           "LocateFeaturesAlongRoutes_lr"])%list.
Proof.
  intros Hfaults Hstreams Hpresent Hdir Hevents meta data. subst meta data.
  assert (Hknown : present w [faultlines; streams; original_dem self]).
  { constructor; [by rewrite Hfaults|exact Hpresent]. }
  unfold fault_workflow, get_fault_data. rewrite Hfaults. cbn [mbind result_bind ok].
  unfold manifest_getitem. rewrite Hstreams. cbn [mbind result_bind ok as_dataset].
  unfold fault_intersects, intersects_to_singlepart, remove_lowlands, ignore_lowest_pp,
    fault_routes, intersect_events, extract_intersect_positions.
  cbn [batch_path original_dem set_fault_meta_data set_highlands set_fault_data
       faults_cluster_tolerance faults_search_radius pour_points_minimum_height highlands].
  norm_in_dir self.
  norm_in_dir self. cbn [batch_path original_dem highlands set_highlands set_fault_meta_data faults_search_radius].
  tool_step Hknown as w1 Ho1 Hk1 He1 Hd1 Hc1.
  norm_in_dir self. cbn [batch_path original_dem highlands set_highlands set_fault_meta_data faults_search_radius].
  tool_step Hk1 as w2 Ho2 Hk2 He2 Hd2 Hc2.
  norm_in_dir self. cbn [batch_path original_dem highlands set_highlands set_fault_meta_data faults_search_radius].
  tool_step Hk2 as w3 Ho3 Hk3 He3 Hd3 Hc3.
  norm_in_dir self. cbn [batch_path original_dem highlands set_highlands set_fault_meta_data faults_search_radius].
  tool_step Hk3 as w4 Ho4 Hk4 He4 Hd4 Hc4.
  norm_in_dir self. cbn [batch_path original_dem highlands set_highlands set_fault_meta_data faults_search_radius].
  tool_step Hk4 as w5 Ho5 Hk5 He5 Hd5 Hc5.
  norm_in_dir self. cbn [batch_path original_dem highlands set_highlands set_fault_meta_data faults_search_radius].
  tool_step Hk5 as w6 Ho6 Hk6 He6 Hd6 Hc6.
  norm_in_dir self. cbn [batch_path original_dem highlands set_highlands set_fault_meta_data faults_search_radius].
  tool_step Hk6 as w7 Ho7 Hk7 He7 Hd7 Hc7.
  norm_in_dir self. cbn [batch_path set_highlands set_fault_meta_data].
  rewrite Ho7, Hevents. unfold write_file at 1.
  rewrite dirname_in_dir, Hd7. cbn [mbind result_bind ok].
  exists w7. split; [|split; [|split]].
  - destruct evs as [|ev evs]; [reflexivity|]. cbn [nonempty mbind result_bind ok].
    unfold yaml_dump, write_file.
    cbn [batch_path set_fault_data set_highlands set_fault_meta_data fault_data
         fault_meta_data].
    norm_in_dir self.
    match goal with
    | |- context [isdir ?w0 (dirname (os_path_join (batch_path self) ["hydro_paths.yml"]))] =>
        change (isdir w0 (dirname (os_path_join (batch_path self) ["hydro_paths.yml"])))
          with (isdir w7 (dirname (os_path_join (batch_path self) ["hydro_paths.yml"])))
    end.
    rewrite dirname_join, Hd7. reflexivity.
  - repeat (eapply extends_in_trans; [|eassumption]). apply extends_in_refl.
  - exact Hd7.
  - rewrite Hc7, Hc6, Hc5, Hc4, Hc3, Hc2, Hc1.
    rewrite !fmap_app. cbn. by rewrite <- !app_assoc.
Qed.

(** The fault stage runs to its end when the fault features, the stream
    vectors and the DEM are there and the route locator finds at least
    one pour point.  It returns the pour points above the minimum height,
    leaves the located points in the intersect table under a header row,
    and records that table and the fault metadata in the manifest. *)
Lemma fault_workflow_runs self faultlines hydro_paths w rows streams evs :
  fs w !! faultlines = Some (FFeatures rows) ->
  hydro_paths !! "vector_streams" = Some (MPath streams) ->
  present w [streams; original_dem self] ->
  isdir w (batch_path self) = true ->
  (forall ins,
     derive (GP "LocateFeaturesAlongRoutes_lr"
               [in_dir (batch_path self) self "_intersects_above.shp";
                in_dir (batch_path self) self "_fault_routes.shp"]
               ["Id"; faults_search_radius self; "RID POINT MEAS"]
               (in_dir (batch_path self) self "_intersect_events.dbf")) ins
     = FEvents evs) ->
  evs ≠ [] ->
  let meta := foldl (fun d row => <[FID row := attrs row]> d) (fault_meta_data self) rows in
  let data := in_dir (batch_path self) self "_intersect_data.csv" in
  exists w',
    fault_workflow derive self faultlines hydro_paths w
    = ok (in_dir (batch_path self) self "_intersects_above.shp",
          set_fault_data
            (set_highlands (set_fault_meta_data self meta)
               (in_dir (batch_path self) self "_dem_no_lowlands.tif")) data,
          <["fault_meta_data" := MMeta meta]> (<["fault_data" := MPath data]> hydro_paths),
          w') /\
    fs w' !! data
    = Some (FCsv (["id"; "fault"; "distance"]
                    :: map (fun r => [OID r; RID r; MEAS r]) evs)) /\
    yaml_load (os_path_join (batch_path self) ["hydro_paths.yml"]) w'
    = ok (<["fault_meta_data" := MMeta meta]> (<["fault_data" := MPath data]> hydro_paths)) /\
    extends_in (batch_path self) w w'.
Proof.
  intros Hfaults Hstreams Hpresent Hdir Hevents Hne meta data. subst meta data.
  destruct (fault_workflow_steps self faultlines hydro_paths w rows streams evs
              Hfaults Hstreams Hpresent Hdir Hevents) as (w7 & Hrun & Hext & Hd7 & _).
  destruct evs as [|ev evs]; [done|]. cbn [nonempty] in Hrun.
  eexists. split; [exact Hrun|]. cbn [fs dirs].
  assert (Hyaml : os_path_join (batch_path self) ["hydro_paths.yml"]
                  ≠ in_dir (batch_path self) self "_intersect_data.csv").
  { unfold in_dir. apply cache_name_ne. intros H.
    apply (f_equal String.length) in H. rewrite length_append in H.
    cbn in H. lia. }
  split; [rewrite lookup_insert_ne by done; apply lookup_insert_eq|].
  split; [unfold yaml_load; cbn [fs]; by rewrite lookup_insert_eq|].
  destruct Hext as (Hd & Hf & Hs). repeat split; cbn [fs dirs].
  - exact Hd.
  - intros p Hp. rewrite !lookup_insert_ne; [by apply Hf|..].
    + intros <-. unfold in_dir in Hp. by rewrite dirname_join in Hp.
    + intros <-. by rewrite dirname_join in Hp.
  - intros p Hp. rewrite !lookup_insert_is_Some.
    destruct (decide (os_path_join (batch_path self) ["hydro_paths.yml"] = p)); [auto|].
    right. split; [done|].
    destruct (decide (in_dir (batch_path self) self "_intersect_data.csv" = p)); auto.
Qed.

(** *** The BQART stage *)

Lemma makedirs_runs p w :
  p ≠ [] -> exists_ w p = false ->
  makedirs p w = ok {| fs := fs w; dirs := list_to_set (ancestors p) ∪ dirs w;
                       calls := calls w |} /\
  p ∈ (list_to_set (ancestors p) : gset path).
Proof.
  intros Hne Hex. unfold makedirs. rewrite Hex. split; [reflexivity|].
  apply elem_of_list_to_set. unfold ancestors. apply list_elem_of_fmap.
  exists (length p). split; [by rewrite firstn_all|].
  apply elem_of_seq. destruct p; [done|]. cbn [length]. lia.
Qed.

(** [climate_batch_directory] makes the directory of the run and, when
    it is not there yet, the cache directory; it touches no file. *)
Lemma climate_batch_directory_runs watershed_directory timestamp w :
  exists_ w (os_path_join watershed_directory ["climate_calcs"; timestamp]) = false ->
  isfile w (cache_dir watershed_directory) = false ->
  exists w',
    climate_batch_directory watershed_directory timestamp w
    = ok (os_path_join watershed_directory ["climate_calcs"; timestamp], w') /\
    fs w' = fs w /\ calls w' = calls w /\
    (forall p, isdir w p = true -> isdir w' p = true) /\
    isdir w' (os_path_join watershed_directory ["climate_calcs"; timestamp]) = true /\
    isdir w' (cache_dir watershed_directory) = true.
Proof.
  intros Hex Hfile. unfold climate_batch_directory.
  destruct (makedirs_runs (os_path_join watershed_directory ["climate_calcs"; timestamp]) w)
    as [Hmk Hin]; [by destruct watershed_directory|exact Hex|].
  rewrite Hmk. cbn [mbind result_bind ok]. fold (cache_dir watershed_directory).
  set (w1 := {| fs := fs w; dirs := _; calls := calls w |}).
  assert (Hmono : forall p, isdir w p = true -> isdir w1 p = true).
  { intros p Hp. unfold isdir in *. apply bool_decide_eq_true in Hp.
    apply bool_decide_eq_true. cbn [dirs w1]. apply elem_of_union. by right. }
  assert (Hcb : isdir w1 (os_path_join watershed_directory ["climate_calcs"; timestamp])
                = true).
  { unfold isdir. apply bool_decide_eq_true. cbn [dirs w1]. apply elem_of_union.
    by left. }
  destruct (isdir w1 (cache_dir watershed_directory)) eqn:Hcache.
  - cbn [mbind result_bind ok]. exists w1. repeat split; done.
  - destruct (makedirs_runs (cache_dir watershed_directory) w1) as [Hmk2 Hin2].
    { unfold cache_dir. by destruct watershed_directory. }
    { unfold exists_. by rewrite Hcache, orb_false_r. }
    rewrite Hmk2. cbn [mbind result_bind ok]. eexists. split; [reflexivity|].
    cbn [fs calls]. repeat split.
    + intros p Hp. apply Hmono in Hp. unfold isdir in *.
      apply bool_decide_eq_true in Hp. apply bool_decide_eq_true. cbn [dirs].
      apply elem_of_union. by right.
    + unfold isdir in *. apply bool_decide_eq_true in Hcb. apply bool_decide_eq_true.
      cbn [dirs]. apply elem_of_union. by right.
    + unfold isdir. apply bool_decide_eq_true. cbn [dirs]. apply elem_of_union. by left.
Qed.

(** A second run in the same second finds the directory of the run and
    stops. *)
Lemma climate_batch_directory_exists watershed_directory timestamp w :
  exists_ w (os_path_join watershed_directory ["climate_calcs"; timestamp]) = true ->
  climate_batch_directory watershed_directory timestamp w = raise (OSError "file exists").
Proof. intros Hex. unfold climate_batch_directory, makedirs. by rewrite Hex. Qed.

(** With both clipped rasters in the cache nothing is built and the
    world is left as it is. *)
Lemma climate_rasters_cached watershed_raster watershed_path temp_directory
    precip_directory climate_scenario w t p :
  check_climate_cache w watershed_path climate_scenario "t" = Some t ->
  check_climate_cache w watershed_path climate_scenario "p" = Some p ->
  climate_rasters derive watershed_raster watershed_path temp_directory precip_directory
    climate_scenario w = ok (Some p, Some p, w).
Proof. intros Ht Hp. unfold climate_rasters. by rewrite Ht, Hp. Qed.

(** The three tables of zonal statistics are made when the watershed
    raster, the two clipped rasters and the DEM are there. *)
Lemma climate_statistics_runs self climate_batch_path watershed_raster temp_clip
    precip_clip w :
  present w [watershed_raster; temp_clip; precip_clip; original_dem self] ->
  isdir w climate_batch_path = true ->
  exists w',
    climate_statistics derive self climate_batch_path watershed_raster (Some temp_clip)
      (Some precip_clip) w
    = ok (os_path_join climate_batch_path ["temp_data"],
          os_path_join climate_batch_path ["precip_data"],
          os_path_join climate_batch_path ["elev_data"], w') /\
    extends_in climate_batch_path w w' /\
    tool <$> calls w'
    = ((tool <$> calls w)
       ++ ["ZonalStatisticsAsTable"; "ZonalStatisticsAsTable"; "ZonalStatisticsAsTable"])%list.
Proof.
  intros Hknown Hdir. unfold climate_statistics, zone_statistics.
  destruct (run_tool_step
              (GP "ZonalStatisticsAsTable" [watershed_raster; temp_clip] ["VALUE"; "DATA"]
                 (os_path_join climate_batch_path ["temp_data"])) w _ Hknown)
    as (w1 & ins1 & Hrun1 & _ & Hk1 & He1 & Hc1);
    [sub_list | by cbn [output]; rewrite dirname_join |].
  rewrite Hrun1. cbn [mbind result_bind ok]. cbn [output] in *.
  rewrite dirname_join in He1.
  destruct (run_tool_step
              (GP "ZonalStatisticsAsTable" [watershed_raster; precip_clip] ["VALUE"; "DATA"]
                 (os_path_join climate_batch_path ["precip_data"])) w1 _ Hk1)
    as (w2 & ins2 & Hrun2 & _ & Hk2 & He2 & Hc2);
    [sub_list
    | by cbn [output]; rewrite dirname_join, (extends_in_isdir _ _ _ _ He1) |].
  rewrite Hrun2. cbn [mbind result_bind ok]. cbn [output] in *.
  rewrite dirname_join in He2.
  destruct (run_tool_step
              (GP "ZonalStatisticsAsTable" [watershed_raster; original_dem self]
                 ["VALUE"; "DATA"] (os_path_join climate_batch_path ["elev_data"])) w2 _ Hk2)
    as (w3 & ins3 & Hrun3 & _ & Hk3 & He3 & Hc3);
    [sub_list
    | by cbn [output]; rewrite dirname_join, (extends_in_isdir _ _ _ _ He2),
           (extends_in_isdir _ _ _ _ He1) |].
  rewrite Hrun3. cbn [mbind result_bind ok]. cbn [output] in *.
  rewrite dirname_join in He3.
  exists w3. split; [reflexivity|]. split.
  - eapply extends_in_trans; [|exact He3]. eapply extends_in_trans; [exact He1|exact He2].
  - rewrite Hc3, Hc2, Hc1, !fmap_app. cbn. by rewrite <- !app_assoc.
Qed.

(** The climate rasters of a batch without cache: the shared part of the
    statements on the build. *)
Lemma climate_rasters_builds watershed_raster watershed_path temp_directory
    precip_directory climate_scenario w rs_p rs_t extent :
  check_climate_cache w watershed_path climate_scenario "t" = None ->
  check_climate_cache w watershed_path climate_scenario "p" = None ->
  isdir w precip_directory = true ->
  isdir w temp_directory = true ->
  isdir w (cache_dir watershed_path) = true ->
  mapM (Raster w) (glob_tif w precip_directory) = ok rs_p -> rs_p ≠ [] ->
  mapM (Raster w) (glob_tif w temp_directory) = ok rs_t -> rs_t ≠ [] ->
  fs w !! watershed_raster = Some extent ->
  temp_directory ≠ cache_dir watershed_path ->
  dirname watershed_raster ≠ cache_dir watershed_path ->
  exists w' r_p r_t,
    climate_rasters derive watershed_raster watershed_path temp_directory
      precip_directory climate_scenario w
    = ok (Some (clip_path watershed_path climate_scenario "p"),
          Some (clip_path watershed_path climate_scenario "t"), w') /\
    fs w' !! combined_path watershed_path climate_scenario "p" = Some (FRaster r_p) /\
    (forall c, r_p c = cell_sum rs_p c) /\
    fs w' !! combined_path watershed_path climate_scenario "t" = Some (FRaster r_t) /\
    (forall c, r_t c = (cell_sum rs_t c / INR (length rs_t))%R) /\
    fs w' !! clip_path watershed_path climate_scenario "p"
    = Some (derive (GP "Clip_management"
                      [combined_path watershed_path climate_scenario "p"; watershed_raster]
                      ["#"] (clip_path watershed_path climate_scenario "p"))
              [FRaster r_p; extent]) /\
    fs w' !! clip_path watershed_path climate_scenario "t"
    = Some (derive (GP "Clip_management"
                      [combined_path watershed_path climate_scenario "t"; watershed_raster]
                      ["#"] (clip_path watershed_path climate_scenario "t"))
              [FRaster r_t; extent]) /\
    extends_in (cache_dir watershed_path) w w' /\
    tool <$> calls w'
    = ((tool <$> calls w)
       ++ ["Raster.save"; "Clip_management"; "Raster.save"; "Clip_management"])%list.
Proof.
  intros Hct Hcp Hpdir Htdir Hcache Hrs_p Hne_p Hrs_t Hne_t Hext Htemp Hws.
  unfold climate_rasters. rewrite Hct, Hcp.
  fold (cache_dir watershed_path).
  (* the names *)
  assert (Hd_pa : dirname (combined_path watershed_path climate_scenario "p")
                  = cache_dir watershed_path) by apply dirname_join.
  assert (Hd_pc : dirname (clip_path watershed_path climate_scenario "p")
                  = cache_dir watershed_path) by apply dirname_join.
  assert (Hd_ta : dirname (combined_path watershed_path climate_scenario "t")
                  = cache_dir watershed_path) by apply dirname_join.
  assert (Hd_tc : dirname (clip_path watershed_path climate_scenario "t")
                  = cache_dir watershed_path) by apply dirname_join.
  assert (Hws_pa : combined_path watershed_path climate_scenario "p" ≠ watershed_raster)
    by (apply dirname_ne; congruence).
  assert (Hws_pc : clip_path watershed_path climate_scenario "p" ≠ watershed_raster)
    by (apply dirname_ne; congruence).
  assert (Hws_ta : combined_path watershed_path climate_scenario "t" ≠ watershed_raster)
    by (apply dirname_ne; congruence).
  assert (Hpa_pc : combined_path watershed_path climate_scenario "p"
                   ≠ clip_path watershed_path climate_scenario "p")
    by (apply cache_name_ne, all_ne_clip).
  assert (Hpa_tc : combined_path watershed_path climate_scenario "p"
                   ≠ clip_path watershed_path climate_scenario "t")
    by (apply cache_name_ne, all_ne_clip).
  assert (Hta_pc : combined_path watershed_path climate_scenario "t"
                   ≠ clip_path watershed_path climate_scenario "p")
    by (apply cache_name_ne, all_ne_clip).
  assert (Hta_tc : combined_path watershed_path climate_scenario "t"
                   ≠ clip_path watershed_path climate_scenario "t")
    by (apply cache_name_ne, all_ne_clip).
  assert (Hpa_ta : combined_path watershed_path climate_scenario "p"
                   ≠ combined_path watershed_path climate_scenario "t")
    by (apply cache_name_ne; discriminate).
  assert (Hpc_tc : clip_path watershed_path climate_scenario "p"
                   ≠ clip_path watershed_path climate_scenario "t")
    by (apply cache_name_ne; discriminate).
  (* precipitation: sum, then clip *)
  destruct (average_rasters_ok precip_directory (cache_dir watershed_path)
              ("p" ++ "_" ++ climate_scenario ++ "_all.tif") false w rs_p
              Hpdir Hcache Hrs_p Hne_p) as (r_p & Havg_p & Hr_p).
  rewrite Havg_p. cbn [mbind result_bind ok].
  fold (combined_path watershed_path climate_scenario "p").
  erewrite (clip_raster_ok derive (combined_path watershed_path climate_scenario "p")
              (cache_dir watershed_path) _ watershed_raster _ (FRaster r_p) extent);
    [|cbn [fs]; apply lookup_insert_eq
     |cbn [fs]; by rewrite lookup_insert_ne
     |exact Hcache].
  cbn [mbind result_bind ok].
  fold (clip_path watershed_path climate_scenario "p").
  (* temperature: mean, then clip *)
  match goal with
  | |- context [average_rasters _ _ _ true ?w2] =>
      destruct (dir_rasters_stable w w2 temp_directory rs_t) as (rs_t' & Hrs_t' & Hperm);
      [|exact Hrs_t|];
      [intros p Hp; cbn [fs];
       rewrite !lookup_insert_ne by (apply dirname_ne; congruence); reflexivity|];
      destruct (average_rasters_ok temp_directory (cache_dir watershed_path)
                  ("t" ++ "_" ++ climate_scenario ++ "_all.tif") true w2 rs_t')
        as (r_t & Havg_t & Hr_t);
      [exact Htdir | exact Hcache | exact Hrs_t'
      | intros ->; apply Permutation_nil_r in Hperm; done |]
  end.
  rewrite Havg_t. cbn [mbind result_bind ok].
  fold (combined_path watershed_path climate_scenario "t").
  erewrite (clip_raster_ok derive (combined_path watershed_path climate_scenario "t")
              (cache_dir watershed_path) _ watershed_raster _ (FRaster r_t) extent);
    [|cbn [fs]; apply lookup_insert_eq
     |cbn [fs]; by rewrite !lookup_insert_ne
     |exact Hcache].
  cbn [mbind result_bind ok].
  fold (clip_path watershed_path climate_scenario "t").
  eexists _, r_p, r_t. split; [reflexivity|]. cbn [fs].
  split; [by rewrite !lookup_insert_ne, lookup_insert_eq by done|].
  split; [exact Hr_p|].
  split; [by rewrite lookup_insert_ne, lookup_insert_eq by done|].
  split.
  { intros c. rewrite Hr_t, (cell_sum_Permutation _ _ c Hperm).
    by rewrite (Permutation_length Hperm). }
  split; [by rewrite !lookup_insert_ne, lookup_insert_eq by done|].
  split; [by rewrite lookup_insert_eq|]. split.
  - repeat split; cbn [fs dirs].
    + intros q Hq. rewrite !lookup_insert_ne; [done|intros <-; congruence..].
    + intros q Hq. rewrite !lookup_insert_is_Some'. auto.
  - cbn [calls]. rewrite !fmap_app. cbn. by rewrite <- !app_assoc.
Qed.


(** With the clipped precipitation raster alone in the cache,
    precipitation is summed and clipped again, and the cached
    precipitation raster is what the temperature statistics get. *)
Lemma climate_rasters_precipitation_cached watershed_raster watershed_path temp_directory
    precip_directory climate_scenario w rs_p extent p :
  check_climate_cache w watershed_path climate_scenario "t" = None ->
  check_climate_cache w watershed_path climate_scenario "p" = Some p ->
  isdir w precip_directory = true ->
  isdir w (cache_dir watershed_path) = true ->
  mapM (Raster w) (glob_tif w precip_directory) = ok rs_p -> rs_p ≠ [] ->
  fs w !! watershed_raster = Some extent ->
  dirname watershed_raster ≠ cache_dir watershed_path ->
  exists w',
    climate_rasters derive watershed_raster watershed_path temp_directory
      precip_directory climate_scenario w
    = ok (Some (clip_path watershed_path climate_scenario "p"), Some p, w') /\
    calls w'
    = (calls w
       ++ [GP "Raster.save" (glob_tif w precip_directory) []
             (combined_path watershed_path climate_scenario "p");
           GP "Clip_management"
             [combined_path watershed_path climate_scenario "p"; watershed_raster] ["#"]
             (clip_path watershed_path climate_scenario "p")])%list.
Proof.
  intros Hct Hcp Hpdir Hcache Hrs_p Hne_p Hext Hws.
  unfold climate_rasters. rewrite Hct, Hcp. fold (cache_dir watershed_path).
  destruct (average_rasters_ok precip_directory (cache_dir watershed_path)
              ("p" ++ "_" ++ climate_scenario ++ "_all.tif") false w rs_p
              Hpdir Hcache Hrs_p Hne_p) as (r_p & Havg_p & Hr_p).
  rewrite Havg_p. cbn [mbind result_bind ok].
  fold (combined_path watershed_path climate_scenario "p").
  erewrite (clip_raster_ok derive (combined_path watershed_path climate_scenario "p")
              (cache_dir watershed_path) _ watershed_raster _ (FRaster r_p) extent);
    [|cbn [fs]; apply lookup_insert_eq
     |cbn [fs]; rewrite lookup_insert_ne; [done|]; apply dirname_ne;
      unfold combined_path; rewrite dirname_join; congruence
     |exact Hcache].
  cbn [mbind result_bind ok]. eexists. split; [reflexivity|]. cbn [calls].
  by rewrite <- app_assoc.
Qed.

End StageRuns.

(** ** Building the climate rasters *)

Section ClimateBuild.

Variable derive : gpcall -> list file -> file.

(** C8.  In a batch without cached climate rasters, with at least one
    [.tif] raster in the precipitation directory and one in the
    temperature directory, the climate step of [bqart_workflow] saves for
    precipitation the cell-wise sum of the rasters of the precipitation
    directory and for temperature the cell-wise sum of the rasters of the
    temperature directory divided by their number, and clips each saved
    raster with the watershed raster as extent; the two clipped rasters
    are what it returns. *)
Theorem C8_build_mean_and_sum watershed_raster watershed_path temp_directory
    precip_directory climate_scenario w rs_p rs_t extent :
  check_climate_cache w watershed_path climate_scenario "t" = None ->
  check_climate_cache w watershed_path climate_scenario "p" = None ->
  isdir w precip_directory = true ->
  isdir w temp_directory = true ->
  isdir w (cache_dir watershed_path) = true ->
  mapM (Raster w) (glob_tif w precip_directory) = ok rs_p -> rs_p ≠ [] ->
  mapM (Raster w) (glob_tif w temp_directory) = ok rs_t -> rs_t ≠ [] ->
  fs w !! watershed_raster = Some extent ->
  temp_directory ≠ cache_dir watershed_path ->
  dirname watershed_raster ≠ cache_dir watershed_path ->
  exists w' r_p r_t,
    climate_rasters derive watershed_raster watershed_path temp_directory
      precip_directory climate_scenario w
    = ok (Some (clip_path watershed_path climate_scenario "p"),
          Some (clip_path watershed_path climate_scenario "t"), w') /\
    fs w' !! combined_path watershed_path climate_scenario "p" = Some (FRaster r_p) /\
    (forall c, r_p c = cell_sum rs_p c) /\
    fs w' !! combined_path watershed_path climate_scenario "t" = Some (FRaster r_t) /\
    (forall c, r_t c = (cell_sum rs_t c / INR (length rs_t))%R) /\
    fs w' !! clip_path watershed_path climate_scenario "p"
    = Some (derive (GP "Clip_management"
                      [combined_path watershed_path climate_scenario "p"; watershed_raster]
                      ["#"] (clip_path watershed_path climate_scenario "p"))
              [FRaster r_p; extent]) /\
    fs w' !! clip_path watershed_path climate_scenario "t"
    = Some (derive (GP "Clip_management"
                      [combined_path watershed_path climate_scenario "t"; watershed_raster]
                      ["#"] (clip_path watershed_path climate_scenario "t"))
              [FRaster r_t; extent]).
Proof.
  intros Hct Hcp Hpdir Htdir Hcache Hrs_p Hne_p Hrs_t Hne_t Hext Htemp Hws.
  destruct (climate_rasters_builds derive watershed_raster watershed_path temp_directory
              precip_directory climate_scenario w rs_p rs_t extent)
    as (w' & r_p & r_t & Hrun & Hpa & Hr_p & Hta & Hr_t & Hpc & Htc & _); try assumption.
  exists w', r_p, r_t. repeat split; assumption.
Qed.

End ClimateBuild.

(** ** The stages of the demo batch *)

Lemma demo_hydro_run :
  hydro_workflow demo_service demo_batch demo_world = ok (demo_hydro_paths, demo_w_hydro) /\
  extends_in demo_batch_path demo_world demo_w_hydro /\
  present demo_w_hydro [in_dir demo_batch_path demo_batch "_streams.shp"; ["data"; "dem.tif"]].
Proof.
  destruct (hydro_workflow_runs demo_service demo_batch demo_world)
    as (w' & Hrun & Hext & Hpresent & _); [by eexists | reflexivity |].
  assert (Hw : demo_w_hydro = w') by (unfold demo_w_hydro; by rewrite Hrun).
  rewrite Hw. split; [exact Hrun|]. split; [exact Hext|exact Hpresent].
Qed.

Lemma demo_fault_run :
  fault_workflow demo_service demo_batch demo_faultlines demo_hydro_paths demo_w_hydro
  = ok (in_dir demo_batch_path demo_batch "_intersects_above.shp",
        demo_batch_after_faults, demo_fault_paths, demo_w_fault) /\
  yaml_load (os_path_join demo_batch_path ["hydro_paths.yml"]) demo_w_fault
  = ok demo_fault_paths /\
  fs demo_w_fault !! demo_intersect_data
  = Some (FCsv [["id"; "fault"; "distance"]; ["1"; "0"; "12.5"]]).
Proof.
  destruct demo_hydro_run as (_ & Hext & Hpresent).
  destruct (fault_workflow_runs demo_service demo_batch demo_faultlines demo_hydro_paths
              demo_w_hydro
              [Feature 0 (FaultMeta "Alpine" (Float 1) (Float 2) (Int 0) (Int 10000)
                            "normal")]
              (in_dir demo_batch_path demo_batch "_streams.shp")
              [Event "1" "0" "12.5"])
    as (w' & Hrun & Hcsv & Hyaml & _).
  - destruct Hext as (_ & Hframe & _). by rewrite Hframe.
  - reflexivity.
  - exact Hpresent.
  - by rewrite (extends_in_isdir _ _ _ _ Hext).
  - intros ins. reflexivity.
  - discriminate.
  - assert (Hw : demo_w_fault = w') by (unfold demo_w_fault; by rewrite Hrun).
    rewrite Hw. split; [exact Hrun|]. split; [exact Hyaml|exact Hcsv].
Qed.

Lemma C6_fault_stage_manifest_witness :
  hydro_workflow demo_service demo_batch demo_world = ok (demo_hydro_paths, demo_w_hydro) /\
  fault_workflow demo_service demo_batch demo_faultlines demo_hydro_paths demo_w_hydro
  = ok (in_dir demo_batch_path demo_batch "_intersects_above.shp",
        demo_batch_after_faults, demo_fault_paths, demo_w_fault) /\
  yaml_load (os_path_join demo_batch_path ["hydro_paths.yml"]) demo_w_fault
  = ok demo_fault_paths /\
  demo_fault_paths !! "flow_acc_path" = demo_hydro_paths !! "flow_acc_path" /\
  demo_fault_paths !! "fault_data" = Some (MPath demo_intersect_data).
Proof.
  destruct demo_hydro_run as (Hhydro & _). destruct demo_fault_run as (Hfault & _).
  split; [exact Hhydro|]. split; [exact Hfault|].
  destruct (C6_fault_stage_manifest demo_service demo_batch demo_world _ _ demo_faultlines
              _ _ _ _ _ Hhydro Hfault) as (Hload & _ & Hdata & _ & Hframe & _).
  split; [exact Hload|]. split; [|exact Hdata].
  apply Hframe; discriminate.
Defined.

(** C6, as stated, fails on the demo batch: the hydrology stage writes
    the pair [fault_data: ''], and the manifest persisted by the fault
    stage holds another value under that key. *)
Lemma C6_fault_data_overwritten :
  hydro_workflow demo_service demo_batch demo_world = ok (demo_hydro_paths, demo_w_hydro) /\
  fault_workflow demo_service demo_batch demo_faultlines demo_hydro_paths demo_w_hydro
  = ok (in_dir demo_batch_path demo_batch "_intersects_above.shp",
        demo_batch_after_faults, demo_fault_paths, demo_w_fault) /\
  yaml_load (os_path_join demo_batch_path ["hydro_paths.yml"]) demo_w_hydro
  = ok demo_hydro_paths /\
  yaml_load (os_path_join demo_batch_path ["hydro_paths.yml"]) demo_w_fault
  = ok demo_fault_paths /\
  demo_hydro_paths !! "fault_data" = Some (MPath []) /\
  demo_fault_paths !! "fault_data" = Some (MPath demo_intersect_data) /\
  demo_fault_paths !! "fault_data" ≠ demo_hydro_paths !! "fault_data".
Proof.
  destruct demo_hydro_run as (Hhydro & _). destruct demo_fault_run as (Hfault & Hyaml & _).
  split; [exact Hhydro|]. split; [exact Hfault|].
  split; [exact (proj2 (hydro_workflow_ok _ _ _ _ _ Hhydro))|]. split; [exact Hyaml|].
  split; [reflexivity|]. split; [reflexivity|]. discriminate.
Qed.

(** ** The BQART stage of the demo batch *)

Lemma demo_frame p :
  dirname p ≠ demo_batch_path -> fs demo_w_hydro !! p = fs demo_world !! p.
Proof. destruct demo_hydro_run as (_ & (_ & Hframe & _) & _). apply Hframe. Qed.

Lemma demo_isdir p : isdir demo_w_hydro p = isdir demo_world p.
Proof. destruct demo_hydro_run as (_ & Hext & _). by apply (extends_in_isdir _ _ _ _ Hext). Qed.

Lemma isfile_false w p : fs w !! p = None -> isfile w p = false.
Proof. intros H. unfold isfile. apply bool_decide_eq_false. by apply not_elem_of_dom. Qed.

Lemma isfile_true w p f : fs w !! p = Some f -> isfile w p = true.
Proof. intros H. unfold isfile. apply bool_decide_eq_true. apply elem_of_dom. by eexists. Qed.

Lemma check_climate_cache_miss w watershed_directory climate_scenario datatype :
  fs w !! clip_path watershed_directory climate_scenario datatype = None ->
  check_climate_cache w watershed_directory climate_scenario datatype = None.
Proof.
  intros H. unfold check_climate_cache. unfold clip_path, cache_dir, os_path_join in H.
  rewrite <- app_assoc in H. cbn [app] in H. unfold os_path_join.
  by rewrite (isfile_false _ _ H).
Qed.

Lemma check_climate_cache_found w watershed_directory climate_scenario datatype f :
  fs w !! clip_path watershed_directory climate_scenario datatype = Some f ->
  check_climate_cache w watershed_directory climate_scenario datatype
  = Some (clip_path watershed_directory climate_scenario datatype).
Proof.
  intros H. apply check_climate_cache_hit. split; [reflexivity|].
  by apply (isfile_true _ _ f).
Qed.

Lemma C10_fault_meta_data_missing_witness :
  hydro_workflow demo_service demo_batch demo_world = ok (demo_hydro_paths, demo_w_hydro) /\
  demo_hydro_paths !! "fault_meta_data" = None /\
  bqart_workflow demo_service demo_batch demo_watershed_raster demo_hydro_paths
    demo_watershed_path demo_temp_directory demo_precip_directory "now"
    demo_timestamp demo_w_hydro
  = raise (KeyError (KStr "fault_meta_data")).
Proof.
  destruct demo_hydro_run as (Hhydro & Hext & Hpresent).
  split; [exact Hhydro|].
  destruct (C10_fault_meta_data_missing demo_service demo_batch demo_world _ _ Hhydro)
    as (_ & Hnone & _ & _ & Hrun).
  split; [exact Hnone|].
  (* the directories of the run *)
  destruct (climate_batch_directory_runs demo_watershed_path demo_timestamp demo_w_hydro)
    as (w1 & Hdirs & Hfs1 & _ & Hmono1 & Hcb1 & Hcache1).
  { assert (Hnone' : fs demo_w_hydro !! os_path_join demo_watershed_path
                                           ["climate_calcs"; demo_timestamp] = None)
      by (rewrite demo_frame by discriminate; reflexivity).
    unfold exists_. rewrite (isfile_false _ _ Hnone'), demo_isdir. reflexivity. }
  { apply isfile_false. by rewrite demo_frame. }
  assert (Hsame : forall p, dirname p ≠ demo_batch_path -> fs w1 !! p = fs demo_world !! p).
  { intros p Hp. rewrite Hfs1. by apply demo_frame. }
  (* the climate rasters *)
  destruct (dir_rasters_stable demo_world w1 demo_precip_directory
              [fun _ => 600%R; fun _ => 400%R]) as (rs_p & Hrs_p & Hperm_p);
    [intros p Hp; apply Hsame; rewrite Hp; discriminate | reflexivity |].
  destruct (dir_rasters_stable demo_world w1 demo_temp_directory
              [fun _ => 210%R; fun _ => 190%R]) as (rs_t & Hrs_t & Hperm_t);
    [intros p Hp; apply Hsame; rewrite Hp; discriminate | reflexivity |].
  destruct (climate_rasters_builds demo_service demo_watershed_raster demo_watershed_path
              demo_temp_directory demo_precip_directory "now" w1 rs_p rs_t
              (FRaster (fun _ => 1%R)))
    as (w2 & r_p & r_t & Hclimate & _ & _ & _ & _ & Hpc & Htc & Hext2 & _).
  { apply check_climate_cache_miss. by rewrite Hsame. }
  { apply check_climate_cache_miss. by rewrite Hsame. }
  { apply Hmono1. by rewrite demo_isdir. }
  { apply Hmono1. by rewrite demo_isdir. }
  { exact Hcache1. }
  { exact Hrs_p. }
  { intros ->. by apply Permutation_nil_r in Hperm_p. }
  { exact Hrs_t. }
  { intros ->. by apply Permutation_nil_r in Hperm_t. }
  { by rewrite Hsame. }
  { discriminate. }
  { discriminate. }
  (* the zonal statistics *)
  destruct (climate_statistics_runs demo_service demo_batch demo_climate_batch_path
              demo_watershed_raster (clip_path demo_watershed_path "now" "t")
              (clip_path demo_watershed_path "now" "p") w2)
    as (w3 & Hstats & _).
  { destruct Hext2 as (_ & _ & Hkeep).
    constructor; [apply Hkeep; by rewrite Hsame|].
    constructor; [by rewrite Htc|]. constructor; [by rewrite Hpc|].
    constructor; [apply Hkeep; by rewrite Hsame|constructor]. }
  { by rewrite (extends_in_isdir _ _ _ _ Hext2). }
  exact (proj2 (Hrun demo_batch demo_watershed_raster demo_watershed_path
                  demo_temp_directory demo_precip_directory "now" demo_timestamp
                  demo_w_hydro)
           _ _ _ _ _ _ _ _ _ Hdirs Hclimate Hstats).
Defined.

(** ** The climate cache of the demo batch *)

Lemma demo_built :
  demo_climate demo_world_cache = ok (Some demo_p_clip, Some demo_t_clip, demo_w_built) /\
  is_Some (fs demo_w_built !! demo_p_clip) /\ is_Some (fs demo_w_built !! demo_t_clip) /\
  exists r_p r_t,
    fs demo_w_built !! demo_p_all = Some (FRaster r_p) /\
    (forall c, r_p c = 1000%R) /\
    fs demo_w_built !! demo_t_all = Some (FRaster r_t) /\
    (forall c, r_t c = 200%R) /\
    fs demo_w_built !! demo_t_clip = Some (FRaster r_t).
Proof.
  destruct (climate_rasters_builds demo_service demo_watershed_raster demo_watershed_path
              demo_temp_directory demo_precip_directory "now" demo_world_cache
              [fun _ => 600%R; fun _ => 400%R] [fun _ => 210%R; fun _ => 190%R]
              (FRaster (fun _ => 1%R)))
    as (w' & r_p & r_t & Hrun & Hpa & Hr_p & Hta & Hr_t & Hpc & Htc & _);
    [ reflexivity | reflexivity | reflexivity | reflexivity | reflexivity | reflexivity
    | discriminate | reflexivity | discriminate | reflexivity | discriminate
    | discriminate | ].
  assert (Hw : demo_w_built = w') by (unfold demo_w_built, demo_climate; by rewrite Hrun).
  rewrite Hw. split; [exact Hrun|]. split; [eexists; exact Hpc|].
  split; [eexists; exact Htc|].
  exists r_p, r_t. split; [exact Hpa|]. split.
  { intros c. rewrite Hr_p. unfold cell_sum. cbn [foldr]. lra. }
  split; [exact Hta|]. split.
  { intros c. rewrite Hr_t. unfold cell_sum. cbn [foldr length INR]. lra. }
  exact Htc.
Qed.

Lemma C8_build_mean_and_sum_witness :
  exists w' r_p r_t,
    demo_climate demo_world_cache = ok (Some demo_p_clip, Some demo_t_clip, w') /\
    fs w' !! demo_p_all = Some (FRaster r_p) /\
    (forall c, r_p c = 1000%R) /\
    fs w' !! demo_t_all = Some (FRaster r_t) /\
    (forall c, r_t c = 200%R) /\
    fs w' !! demo_t_clip = Some (FRaster r_t).
Proof.
  destruct (C8_build_mean_and_sum demo_service demo_watershed_raster demo_watershed_path
              demo_temp_directory demo_precip_directory "now" demo_world_cache
              [fun _ => 600%R; fun _ => 400%R] [fun _ => 210%R; fun _ => 190%R]
              (FRaster (fun _ => 1%R)))
    as (w' & r_p & r_t & Hrun & Hpa & Hr_p & Hta & Hr_t & _ & Htc);
    [ reflexivity | reflexivity | reflexivity | reflexivity | reflexivity | reflexivity
    | discriminate | reflexivity | discriminate | reflexivity | discriminate
    | discriminate | ].
  exists w', r_p, r_t. split; [exact Hrun|]. split; [exact Hpa|]. split.
  { intros c. rewrite Hr_p. unfold cell_sum. cbn [foldr]. lra. }
  split; [exact Hta|]. split.
  { intros c. rewrite Hr_t. unfold cell_sum. cbn [foldr length INR]. lra. }
  exact Htc.
Defined.

(** C4.  On the demo batch the first run builds both clipped rasters and
    both lookups then hit.  The second run builds nothing, but hands the
    precipitation raster to the temperature statistics.  And with the
    precipitation raster alone in the cache, the run averages and clips
    precipitation again. *)
Theorem C4_cache_checks_swapped :
  demo_climate demo_world_cache = ok (Some demo_p_clip, Some demo_t_clip, demo_w_built) /\
  check_climate_cache demo_w_built demo_watershed_path "now" "t" = Some demo_t_clip /\
  check_climate_cache demo_w_built demo_watershed_path "now" "p" = Some demo_p_clip /\
  demo_climate demo_w_built = ok (Some demo_p_clip, Some demo_p_clip, demo_w_built) /\
  demo_p_clip ≠ demo_t_clip /\
  check_climate_cache demo_world_precip_cached demo_watershed_path "now" "p"
    = Some demo_p_clip /\
  demo_climate demo_world_precip_cached
    = ok (Some demo_p_clip, Some demo_p_clip, demo_w_rebuilt) /\
  calls demo_w_rebuilt =
    [GP "Raster.save"
       [["climate"; "precip"; "p02.tif"]; ["climate"; "precip"; "p01.tif"]] []
       demo_p_all;
     GP "Clip_management" [demo_p_all; demo_watershed_raster] ["#"] demo_p_clip].
Proof.
  destruct demo_built as (Hbuilt & [f_p Hf_p] & [f_t Hf_t] & _).
  assert (Ht : check_climate_cache demo_w_built demo_watershed_path "now" "t"
               = Some demo_t_clip)
    by exact (check_climate_cache_found demo_w_built demo_watershed_path "now" "t" f_t Hf_t).
  assert (Hp : check_climate_cache demo_w_built demo_watershed_path "now" "p"
               = Some demo_p_clip)
    by exact (check_climate_cache_found demo_w_built demo_watershed_path "now" "p" f_p Hf_p).
  assert (Hp' : check_climate_cache demo_world_precip_cached demo_watershed_path "now" "p"
                = Some demo_p_clip).
  { apply (check_climate_cache_found demo_world_precip_cached demo_watershed_path "now" "p"
             (FRaster (fun _ => 1000%R))). reflexivity. }
  split; [exact Hbuilt|]. split; [exact Ht|]. split; [exact Hp|].
  split; [exact (climate_rasters_cached _ _ _ _ _ _ _ _ _ Ht Hp)|].
  split; [discriminate|]. split; [exact Hp'|].
  destruct (climate_rasters_precipitation_cached demo_service demo_watershed_raster
              demo_watershed_path demo_temp_directory demo_precip_directory "now"
              demo_world_precip_cached [fun _ => 600%R; fun _ => 400%R]
              (FRaster (fun _ => 1%R)) demo_p_clip)
    as (w' & Hrun & Hcalls);
    [ apply (check_climate_cache_miss demo_world_precip_cached demo_watershed_path "now" "t");
      reflexivity
    | exact Hp' | reflexivity | reflexivity
    | reflexivity | discriminate | reflexivity | discriminate | ].
  assert (Hw : demo_w_rebuilt = w') by (unfold demo_w_rebuilt, demo_climate; by rewrite Hrun).
  rewrite Hw. split; [exact Hrun|]. rewrite Hcalls.
  replace (glob_tif demo_world_precip_cached demo_precip_directory)
    with [["climate"; "precip"; "p02.tif"]; ["climate"; "precip"; "p01.tif"]]
    by reflexivity.
  reflexivity.
Qed.

(** * Further properties *)

(** ** The loop of [do_bqart] *)

Lemma NoDup_keys (d : gmap Z num) : NoDup (keys d).
Proof. unfold keys. apply NoDup_fst_map_to_list. Qed.

Lemma length_keys (d : gmap Z num) : length (keys d) = size d.
Proof. unfold keys. by rewrite length_fmap, length_map_to_list. Qed.

(** X1.  When [do_bqart] returns, its records are in one-to-one
    correspondence with the zones of the precipitation table: the ids of
    the records, in order, are the keys of the precipitation dict, no id
    comes twice, and every zone id of the table heads a record. *)
Theorem do_bqart_one_record_per_zone w pz tz ez fault_data_path fault_meta uplift_rate
    p_rows rows :
  SearchCursor w pz = ok p_rows ->
  do_bqart w pz tz ez fault_data_path fault_meta uplift_rate = ok rows ->
  head <$> rows = (fun k => Some (CNum (Int k))) <$> keys (dict_of MEAN p_rows) /\
  NoDup (head <$> rows) /\
  length rows = size (dict_of MEAN p_rows) /\
  (forall k, k ∈ VALUE <$> p_rows <-> exists row, row ∈ rows /\ head row = Some (CNum (Int k))).
Proof.
  intros Hpz Hrun.
  destruct (do_bqart_ok _ _ _ _ _ _ _ _ Hrun) as (t & p & e & fdo & _ & Hp & _ & H).
  rewrite Hpz in Hp. injection Hp as <-.
  assert (Hheads : head <$> rows
                   = (fun k => Some (CNum (Int k))) <$> keys (dict_of MEAN p_rows)).
  { clear Hrun. induction H as [|k row ks rows' Hrow _ IH]; [reflexivity|].
    cbn [fmap list_fmap]. rewrite (bqart_zone_head _ _ _ _ _ _ _ _ _ _ Hrow). f_equal.
    exact IH. }
  split; [exact Hheads|]. split; [|split].
  - rewrite Hheads. apply NoDup_fmap_2; [|apply NoDup_keys]. intros a b [= ->]. done.
  - rewrite <- (length_fmap head rows), Hheads, length_fmap. apply length_keys.
  - intros k. rewrite <- (dict_of_is_Some MEAN), <- elem_of_keys. split.
    + intros Hk. assert (Hin : Some (CNum (Int k)) ∈ head <$> rows).
      { rewrite Hheads. apply list_elem_of_fmap. by exists k. }
      apply list_elem_of_fmap in Hin as (row & Hrow & Hin). by exists row.
    + intros (row & Hin & Hrow).
      assert (Hin' : Some (CNum (Int k)) ∈ head <$> rows).
      { apply list_elem_of_fmap. by exists row. }
      rewrite Hheads in Hin'. apply list_elem_of_fmap in Hin' as (k' & [= ->] & Hk'). done.
Qed.

Lemma do_bqart_one_record_per_zone_witness :
  exists rows,
    elevation_only_run = ok rows /\
    head <$> rows = [Some (CNum (Int 1))] /\ length rows = 1%nat.
Proof.
  eexists. split; [apply elevation_only_run_eq|].
  destruct (do_bqart_one_record_per_zone elevation_only_world pz_path tz_path ez_path
              (MPath csv_path) (MMeta one_fault_meta) (MNum (Float 1)) [fixture_p] _
              eq_refl elevation_only_run_eq) as (Hheads & _ & Hlen & _).
  split; [exact Hheads|exact Hlen].
Defined.

Lemma do_bqart_zones w pz tz ez fault_data_path fault_meta uplift_rate
    t_rows p_rows e_rows fdo csv_row rows :
  SearchCursor w tz = ok t_rows ->
  SearchCursor w pz = ok p_rows ->
  SearchCursor w ez = ok e_rows ->
  load_fault_data w fault_data_path = ok (fdo, csv_row) ->
  do_bqart w pz tz ez fault_data_path fault_meta uplift_rate = ok rows ->
  Forall2 (fun k row =>
             bqart_zone (dict_of MEAN t_rows) (dict_of MEAN p_rows) (dict_of MAX e_rows)
               (dict_of MIN e_rows) (dict_of AREA e_rows) fdo fault_meta uplift_rate k
             = ok row)
    (keys (dict_of MEAN p_rows)) rows.
Proof.
  intros Htz Hpz Hez Hload. unfold do_bqart. rewrite Htz, Hpz, Hez.
  cbn [mbind result_bind ok]. rewrite Hload. cbn [mbind result_bind ok].
  destruct (nonempty t_rows || nonempty p_rows || nonempty e_rows || csv_row);
    [|discriminate].
  apply mapM_ok.
Qed.

Lemma Forall2_elem_of_l {X Y} (P : X -> Y -> Prop) (l : list X) (rs : list Y) (x : X) :
  Forall2 P l rs -> x ∈ l -> exists r, r ∈ rs /\ P x r.
Proof.
  intros H Hin. apply list_elem_of_lookup in Hin as [n Hn].
  destruct (Forall2_lookup_l _ _ _ _ _ H Hn) as (r & Hr & HP).
  exists r. split; [|done]. by eapply list_elem_of_lookup_2.
Qed.

(** X2.  A zone of the precipitation table that has no row in the
    elevation table, or none in the temperature table, stops the run:
    the lookup for that zone raises [KeyError] with the zone id, and
    [do_bqart] returns no record for any zone. *)
Theorem do_bqart_zone_without_statistics w pz tz ez fault_data_path fault_meta uplift_rate
    t_rows p_rows e_rows k :
  SearchCursor w tz = ok t_rows ->
  SearchCursor w pz = ok p_rows ->
  SearchCursor w ez = ok e_rows ->
  k ∈ VALUE <$> p_rows ->
  k ∉ VALUE <$> e_rows \/ k ∉ VALUE <$> t_rows ->
  bqart_vars (dict_of MEAN t_rows) (dict_of MEAN p_rows) (dict_of MAX e_rows)
    (dict_of MIN e_rows) (dict_of AREA e_rows) k = raise (KeyError (KInt k)) /\
  exists e, do_bqart w pz tz ez fault_data_path fault_meta uplift_rate = raise e.
Proof.
  intros Htz Hpz Hez Hp Hmiss.
  assert (Hvars : bqart_vars (dict_of MEAN t_rows) (dict_of MEAN p_rows)
                    (dict_of MAX e_rows) (dict_of MIN e_rows) (dict_of AREA e_rows) k
                  = raise (KeyError (KInt k))).
  { unfold bqart_vars.
    apply (dict_of_is_Some MEAN) in Hp as Hp'. destruct Hp' as [p Hp'].
    rewrite (getitem_Some _ _ _ Hp'). cbn [mbind result_bind ok].
    destruct (decide (k ∈ VALUE <$> e_rows)) as [He|He].
    - destruct Hmiss as [Hmiss|Hmiss]; [done|].
      apply (dict_of_is_Some AREA) in He as [a Ha].
      assert (Hhi : is_Some (dict_of MAX e_rows !! k)).
      { apply dict_of_is_Some. apply (dict_of_is_Some AREA). by rewrite Ha. }
      assert (Hlo : is_Some (dict_of MIN e_rows !! k)).
      { apply dict_of_is_Some. apply (dict_of_is_Some AREA). by rewrite Ha. }
      destruct Hhi as [hi Hhi], Hlo as [lo Hlo].
      rewrite (getitem_Some _ _ _ Ha), (getitem_Some _ _ _ Hhi), (getitem_Some _ _ _ Hlo).
      cbn [mbind result_bind ok].
      rewrite (getitem_None (dict_of MEAN t_rows) k); [reflexivity|].
      apply eq_None_not_Some. by rewrite dict_of_is_Some.
    - rewrite (getitem_None (dict_of AREA e_rows) k); [reflexivity|].
      apply eq_None_not_Some. by rewrite dict_of_is_Some. }
  split; [exact Hvars|].
  unfold do_bqart. rewrite Htz, Hpz, Hez. cbn [mbind result_bind ok].
  destruct (load_fault_data w fault_data_path) as [e0|[fdo csv_row]]; [by eexists|].
  cbn [mbind result_bind ok].
  destruct (nonempty t_rows || nonempty p_rows || nonempty e_rows || csv_row);
    [|by eexists].
  eapply (mapM_raise _ _ k).
  - apply elem_of_keys. by apply dict_of_is_Some.
  - unfold bqart_zone. rewrite Hvars. reflexivity.
Qed.

Lemma do_bqart_zone_without_statistics_witness :
  exists e,
    do_bqart precipitation_only_world pz_path tz_path ez_path (MPath csv_path)
      (MMeta one_fault_meta) (MNum (Float 1)) = raise e.
Proof.
  destruct (do_bqart_zone_without_statistics precipitation_only_world pz_path tz_path
              ez_path (MPath csv_path) (MMeta one_fault_meta) (MNum (Float 1))
              [fixture_t; second_t] [fixture_p; second_p] [fixture_e] 2)
    as [_ Hrun]; [reflexivity | reflexivity | reflexivity | | | exact Hrun].
  - cbn. by right; left.
  - left. cbn. intros H. apply list_elem_of_singleton in H. discriminate H.
Defined.

(** X3.  When the three statistics tables are empty and no row of a fault
    table was read, [do_bqart] stops at [del row] with
    [UnboundLocalError]: no loop has bound the name. *)
Theorem do_bqart_without_rows w pz tz ez fault_data_path fault_meta uplift_rate fdo :
  SearchCursor w tz = ok [] ->
  SearchCursor w pz = ok [] ->
  SearchCursor w ez = ok [] ->
  load_fault_data w fault_data_path = ok (fdo, false) ->
  do_bqart w pz tz ez fault_data_path fault_meta uplift_rate
  = raise (UnboundLocalError "local variable 'row' referenced before assignment").
Proof.
  intros Htz Hpz Hez Hload. unfold do_bqart. rewrite Htz, Hpz, Hez.
  cbn [mbind result_bind ok]. rewrite Hload. reflexivity.
Qed.

Lemma do_bqart_without_rows_witness :
  do_bqart no_rows_world pz_path tz_path ez_path (MPath []) (MMeta ∅) (MNum (Float 1))
  = raise (UnboundLocalError "local variable 'row' referenced before assignment").
Proof.
  apply (do_bqart_without_rows no_rows_world pz_path tz_path ez_path (MPath []) (MMeta ∅)
           (MNum (Float 1)) ∅); reflexivity.
Defined.

(** X4.  With an empty precipitation table and a row in some other table,
    [do_bqart] returns the empty list, and [save_data_to_csv] then fails
    on [qs_data[0]] with [IndexError]. *)
Theorem empty_precipitation_table_fails_at_save w pz tz ez fault_data_path fault_meta
    uplift_rate t_rows e_rows fdo csv_row :
  SearchCursor w tz = ok t_rows ->
  SearchCursor w pz = ok [] ->
  SearchCursor w ez = ok e_rows ->
  load_fault_data w fault_data_path = ok (fdo, csv_row) ->
  nonempty t_rows || nonempty e_rows || csv_row = true ->
  do_bqart w pz tz ez fault_data_path fault_meta uplift_rate = ok [] /\
  forall p,
    (qs_data ← do_bqart w pz tz ez fault_data_path fault_meta uplift_rate;
     save_data_to_csv qs_data p w)
    = raise (IndexError "list index out of range").
Proof.
  intros Htz Hpz Hez Hload Hrow.
  assert (Hrun : do_bqart w pz tz ez fault_data_path fault_meta uplift_rate = ok []).
  { unfold do_bqart. rewrite Htz, Hpz, Hez. cbn [mbind result_bind ok]. rewrite Hload.
    cbn [mbind result_bind ok nonempty]. rewrite orb_false_r. rewrite Hrow. reflexivity. }
  split; [exact Hrun|]. intros p. rewrite Hrun. reflexivity.
Qed.

Lemma empty_precipitation_table_fails_at_save_witness :
  do_bqart no_precipitation_world pz_path tz_path ez_path (MPath csv_path)
    (MMeta one_fault_meta) (MNum (Float 1)) = ok [].
Proof.
  apply (empty_precipitation_table_fails_at_save no_precipitation_world pz_path tz_path
           ez_path (MPath csv_path) (MMeta one_fault_meta) (MNum (Float 1))
           [fixture_t] [fixture_e]
           (<["1" := ("0", "12.5")]> (<["id" := ("fault", "distance")]> ∅)) true);
    reflexivity.
Defined.

(** ** The fields of a record *)

(** X5.  In the fault case the record of a zone is the fourteen base
    fields followed by the maximum slip of the correlated fault, the
    tectonic term [area * (slip / 1000) / 2700], the fault id as read
    from the csv file, the fault name and the distance; the record is
    among those [do_bqart] returns. *)
Theorem do_bqart_fault_record w pz tz ez fault_data_path fm uplift_rate
    t_rows p_rows e_rows fdo csv_row rows k (p a : R) (hi lo : num) (t : R)
    fault_id distance i m :
  SearchCursor w tz = ok t_rows ->
  SearchCursor w pz = ok p_rows ->
  SearchCursor w ez = ok e_rows ->
  load_fault_data w fault_data_path = ok (fdo, csv_row) ->
  do_bqart w pz tz ez fault_data_path (MMeta fm) uplift_rate = ok rows ->
  dict_of MEAN p_rows !! k = Some (Float p) ->
  dict_of AREA e_rows !! k = Some (Float a) ->
  dict_of MAX e_rows !! k = Some hi ->
  dict_of MIN e_rows !! k = Some lo ->
  dict_of MEAN t_rows !! k = Some (Float t) ->
  (0 <= p)%R -> (0 < a)%R ->
  fdo !! py_str k = Some (fault_id, distance) ->
  py_int fault_id = ok i ->
  fm !! i = Some m ->
  (qs_base k (zone_chain p a hi lo t)
   ++ [CNum (slip_max m); CNum (Float (a * (to_R (slip_max m) / 1000) / 2700));
       CStr fault_id; CStr (name m); CStr distance])%list ∈ rows.
Proof.
  intros Htz Hpz Hez Hload Hrun Hp Ha Hhi Hlo Ht Hp0 Ha0 Hd Hi Hm.
  pose proof (do_bqart_zones _ _ _ _ _ _ _ _ _ _ _ _ _ Htz Hpz Hez Hload Hrun) as H.
  destruct (Forall2_elem_of_l _ _ _ k H) as (row & Hin & Hrow).
  { apply elem_of_keys. by rewrite Hp. }
  revert Hrow. unfold bqart_zone.
  rewrite (bqart_vars_floats _ _ _ _ _ _ _ _ _ _ _ Hp Ha Hhi Hlo Ht Hp0 Ha0).
  cbn [mbind result_bind ok]. cbn [zone_chain zone.area_m_squared].
  unfold bqart_tectonic. rewrite bool_decide_eq_true_2.
  2:{ intros ->. by rewrite lookup_empty in Hd. }
  rewrite Hd, Hi. cbn [mbind result_bind ok meta_getitem]. rewrite Hm.
  cbn [mbind result_bind ok]. unfold py_float, density. cbn [to_R].
  rewrite py_div_by_float by lra. cbn [mbind result_bind ok py_mul to_R].
  rewrite py_div_float_by by (simpl; lra). cbn [mbind result_bind ok to_R].
  intros [= <-]. exact Hin.
Qed.

Lemma do_bqart_fault_record_witness :
  exists rows,
    one_zone_run = ok rows /\
    (qs_base 1 (zone_chain 1000 100000000 (Int 2000) (Int 0) 200)
     ++ [CNum (Float 2); CNum (Float (100000000 * (2 / 1000) / 2700)); CStr "0";
         CStr "Alpine"; CStr "12.5"])%list ∈ rows.
Proof.
  eexists. split; [apply one_zone_run_eq|].
  apply (do_bqart_fault_record one_zone_world pz_path tz_path ez_path (MPath csv_path)
           one_fault_meta (MNum (Float 1)) [fixture_t] [fixture_p] [fixture_e]
           (<["1" := ("0", "12.5")]> (<["id" := ("fault", "distance")]> ∅)) true _ 1
           1000 100000000 (Int 2000) (Int 0) 200 "0" "12.5" 0
           (FaultMeta "Alpine" (Float 1) (Float 2) (Int 0) (Int 10000) "normal"));
    try reflexivity; try lra.
  apply one_zone_run_eq.
Defined.

Lemma do_bqart_zone_stops w pz tz ez fault_data_path fault_meta uplift_rate
    t_rows p_rows e_rows fdo csv_row k :
  SearchCursor w tz = ok t_rows ->
  SearchCursor w pz = ok p_rows ->
  SearchCursor w ez = ok e_rows ->
  load_fault_data w fault_data_path = ok (fdo, csv_row) ->
  k ∈ VALUE <$> p_rows ->
  (forall area, exists e, bqart_tectonic fdo fault_meta uplift_rate k area = raise e) ->
  exists e, do_bqart w pz tz ez fault_data_path fault_meta uplift_rate = raise e.
Proof.
  intros Htz Hpz Hez Hload Hk Hstop.
  unfold do_bqart. rewrite Htz, Hpz, Hez. cbn [mbind result_bind ok]. rewrite Hload.
  cbn [mbind result_bind ok].
  destruct (nonempty t_rows || nonempty p_rows || nonempty e_rows || csv_row);
    [|by eexists].
  assert (Hzone : exists e,
            bqart_zone (dict_of MEAN t_rows) (dict_of MEAN p_rows) (dict_of MAX e_rows)
              (dict_of MIN e_rows) (dict_of AREA e_rows) fdo fault_meta uplift_rate k
            = raise e).
  { unfold bqart_zone. destruct (bqart_vars _ _ _ _ _ _) as [e|v]; [by eexists|].
    cbn [mbind result_bind ok]. destruct (Hstop (zone.area_m_squared v)) as [e ->].
    by eexists. }
  destruct Hzone as [e He]. eapply (mapM_raise _ _ k); [|exact He].
  apply elem_of_keys. by apply dict_of_is_Some.
Qed.



Lemma rpow_zero (y : R) : rpow 0 y = 0%R.
Proof. unfold rpow. destruct (Req_dec_T 0 0); [done|lra]. Qed.

(** X7.  A zone whose precipitation mean is zero gets a discharge of
    zero and a sediment yield of zero, whatever its relief and
    temperature. *)
Theorem zone_without_precipitation temps precips max_reliefs min_reliefs areas k
    (a : R) (hi lo : num) (t : R) :
  precips !! k = Some (Float 0) -> areas !! k = Some (Float a) ->
  max_reliefs !! k = Some hi -> min_reliefs !! k = Some lo ->
  temps !! k = Some (Float t) ->
  (0 < a)%R ->
  exists v,
    bqart_vars temps precips max_reliefs min_reliefs areas k = ok v /\
    to_R (zone.Qw_s v) = 0%R /\ to_R (zone.Qw_km_yr v) = 0%R /\
    to_R (zone.Qs_MT_yr v) = 0%R /\ to_R (zone.Qs_m3_yr v) = 0%R /\
    to_R (zone.Qs_m_yr v) = 0%R /\ to_R (zone.Qs_mm_yr v) = 0%R.
Proof.
  intros Hp Ha Hhi Hlo Ht Ha0. eexists. split.
  - apply (bqart_vars_floats _ _ _ _ _ _ 0 a hi lo t); try done; lra.
  - cbn [zone_chain zone.Qw_s zone.Qw_km_yr zone.Qs_MT_yr zone.Qs_m3_yr zone.Qs_m_yr
         zone.Qs_mm_yr to_R].
    replace (0 / 1000 * a / 31536000 * 31536000 / 1000000000)%R with 0%R by (field; lra).
    rewrite rpow_zero. repeat split; field; lra.
Qed.

Lemma zone_without_precipitation_witness :
  exists v,
    bqart_vars fixture_temps (dict_of MEAN [dry_p]) fixture_max_reliefs fixture_min_reliefs
      fixture_areas 1 = ok v /\
    to_R (zone.Qs_mm_yr v) = 0%R.
Proof.
  destruct (zone_without_precipitation fixture_temps (dict_of MEAN [dry_p])
              fixture_max_reliefs fixture_min_reliefs fixture_areas 1 100000000
              (Int 2000) (Int 0) 200) as (v & Hv & _ & _ & _ & _ & _ & Hmm);
    [reflexivity | reflexivity | reflexivity | reflexivity | reflexivity | lra |].
  exists v. split; [exact Hv|exact Hmm].
Defined.

Lemma fraction_not_integer (z : Z) : (31 / 100)%R ≠ IZR z.
Proof.
  intros H.
  assert (H0 : (IZR 0 < IZR z)%R) by (rewrite <- H; lra).
  assert (H1 : (IZR z < IZR 1)%R) by (rewrite <- H; lra).
  apply lt_IZR in H0. apply lt_IZR in H1. lia.
Qed.

Lemma math_pow_negative (q : R) :
  (q < 0)%R -> math_pow (Float q) (Float (31 / 100)) = raise (ValueError "math domain error").
Proof.
  intros Hq. unfold math_pow. cbn [to_R].
  destruct (Rlt_dec 0 q) as [Hpos|_]; [lra|].
  destruct (Req_dec_T q 0) as [Hz|_]; [lra|].
  destruct (Req_dec_T _ _) as [Hint|_]; [by apply fraction_not_integer in Hint|].
  reflexivity.
Qed.

Lemma do_bqart_stops w pz tz ez fault_data_path fault_meta uplift_rate
    t_rows p_rows e_rows k e :
  SearchCursor w tz = ok t_rows ->
  SearchCursor w pz = ok p_rows ->
  SearchCursor w ez = ok e_rows ->
  is_Some (dict_of MEAN p_rows !! k) ->
  bqart_vars (dict_of MEAN t_rows) (dict_of MEAN p_rows) (dict_of MAX e_rows)
    (dict_of MIN e_rows) (dict_of AREA e_rows) k = raise e ->
  exists e', do_bqart w pz tz ez fault_data_path fault_meta uplift_rate = raise e'.
Proof.
  intros Htz Hpz Hez Hp Hvars.
  unfold do_bqart. rewrite Htz, Hpz, Hez. cbn [mbind result_bind ok].
  destruct (load_fault_data w fault_data_path) as [e0|[fdo csv_row]]; [by eexists|].
  cbn [mbind result_bind ok].
  destruct (nonempty t_rows || nonempty p_rows || nonempty e_rows || csv_row);
    [|by eexists].
  eapply (mapM_raise _ _ k).
  - by apply elem_of_keys.
  - unfold bqart_zone. rewrite Hvars. reflexivity.
Qed.

(** X8.  A negative precipitation mean, as a no-data value in the climate
    grids gives, stops the run: the zone fails at the power 0.31 of line
    709 with [ValueError: math domain error], and [do_bqart] returns no
    record. *)
Theorem negative_precipitation_raises w pz tz ez fault_data_path fault_meta uplift_rate
    t_rows p_rows e_rows k (p a : R) (hi lo : num) (t : R) :
  SearchCursor w tz = ok t_rows ->
  SearchCursor w pz = ok p_rows ->
  SearchCursor w ez = ok e_rows ->
  dict_of MEAN p_rows !! k = Some (Float p) ->
  dict_of AREA e_rows !! k = Some (Float a) ->
  dict_of MAX e_rows !! k = Some hi ->
  dict_of MIN e_rows !! k = Some lo ->
  dict_of MEAN t_rows !! k = Some (Float t) ->
  (p < 0)%R -> (0 < a)%R ->
  bqart_vars (dict_of MEAN t_rows) (dict_of MEAN p_rows) (dict_of MAX e_rows)
    (dict_of MIN e_rows) (dict_of AREA e_rows) k
  = raise (ValueError "math domain error") /\
  exists e, do_bqart w pz tz ez fault_data_path fault_meta uplift_rate = raise e.
Proof.
  intros Htz Hpz Hez Hp Ha Hhi Hlo Ht Hp0 Ha0.
  assert (Hvars : bqart_vars (dict_of MEAN t_rows) (dict_of MEAN p_rows)
                    (dict_of MAX e_rows) (dict_of MIN e_rows) (dict_of AREA e_rows) k
                  = raise (ValueError "math domain error")).
  { unfold bqart_vars.
    rewrite (getitem_Some _ _ _ Hp), (getitem_Some _ _ _ Ha), (getitem_Some _ _ _ Hhi),
      (getitem_Some _ _ _ Hlo), (getitem_Some _ _ _ Ht).
    change (60 * 60 * 24 * 365) with 31536000.
    unfold py_float. py_steps.
    assert (Hq : (p / 1000 * a / 31536000 * 31536000 / 1000000000 < 0)%R).
    { replace (p / 1000 * a / 31536000 * 31536000 / 1000000000)%R
        with (- (- p * a / 1000000000000))%R by (field; lra).
      assert (0 < - p * a)%R by (apply Rmult_lt_0_compat; lra).
      assert (0 < - p * a / 1000000000000)%R by (apply Rdiv_lt_0_compat; lra). lra. }
    by rewrite math_pow_negative. }
  split; [exact Hvars|].
  eapply do_bqart_stops; try done; by rewrite Hp.
Qed.

Lemma negative_precipitation_raises_witness :
  exists e,
    do_bqart (tables_world [fixture_t] [nodata_p] [fixture_e] (Some one_fault_csv))
      pz_path tz_path ez_path (MPath csv_path) (MMeta one_fault_meta) (MNum (Float 1))
    = raise e.
Proof.
  destruct (negative_precipitation_raises
              (tables_world [fixture_t] [nodata_p] [fixture_e] (Some one_fault_csv))
              pz_path tz_path ez_path (MPath csv_path) (MMeta one_fault_meta)
              (MNum (Float 1)) [fixture_t] [nodata_p] [fixture_e] 1 (-9999) 100000000
              (Int 2000) (Int 0) 200) as [_ Hrun]; try reflexivity; try lra.
  exact Hrun.
Defined.

Lemma bqart_zone_no_fault_table temps precips max_reliefs min_reliefs areas fm ur k :
  exists e, bqart_zone temps precips max_reliefs min_reliefs areas ∅ fm ur k = raise e.
Proof.
  unfold bqart_zone.
  destruct (bqart_vars _ _ _ _ _ _) as [e|v]; [by eexists|]. cbn [mbind result_bind].
  unfold bqart_tectonic. rewrite bool_decide_eq_false_2 by (intros H; by apply H).
  destruct (mval_div _ _) as [e|u]; by eexists.
Qed.

Lemma do_bqart_records_need_fault_table w pz tz ez fault_data_path fault_meta uplift_rate
    rows :
  do_bqart w pz tz ez fault_data_path fault_meta uplift_rate = ok rows ->
  rows ≠ [] ->
  exists fdo csv_row,
    load_fault_data w fault_data_path = ok (fdo, csv_row) /\ fdo ≠ ∅.
Proof.
  intros Hrun Hne.
  destruct (do_bqart_ok _ _ _ _ _ _ _ _ Hrun) as (t & p & e & _ & Htz & Hpz & Hez & _).
  destruct (load_fault_data w fault_data_path) as [e0|[fdo csv_row]] eqn:Hload.
  { revert Hrun. unfold do_bqart. rewrite Htz, Hpz, Hez. cbn [mbind result_bind ok].
    by rewrite Hload. }
  exists fdo, csv_row. split; [reflexivity|]. intros ->.
  pose proof (do_bqart_zones _ _ _ _ _ _ _ _ _ _ _ _ _ Htz Hpz Hez Hload Hrun) as H.
  destruct H as [|k row ks rows' Hrow _]; [done|].
  destruct (bqart_zone_no_fault_table (dict_of MEAN t) (dict_of MEAN p) (dict_of MAX e)
              (dict_of MIN e) (dict_of AREA e) fault_meta uplift_rate k) as [e' He'].
  rewrite He' in Hrow. discriminate Hrow.
Qed.

Lemma load_fault_data_nonempty w fault_data_path fdo csv_row :
  load_fault_data w fault_data_path = ok (fdo, csv_row) -> fdo ≠ ∅ ->
  truthy fault_data_path = true /\
  exists p, fault_data_path = MPath p /\ is_Some (fs w !! p).
Proof.
  unfold load_fault_data. destruct (truthy fault_data_path); [|by intros [= <- _]].
  destruct fault_data_path as [p| |]; try discriminate.
  destruct (exists_ w p); [|by intros [= <- _]].
  destruct (fs w !! p) as [f|] eqn:Hf; [|discriminate]. intros _ _. split; [done|].
  exists p. split; [done|]. by rewrite Hf.
Qed.

(** X9.  When no fault table was read (the manifest names none, or the
    file it names does not exist, or the file is empty), [do_bqart]
    returns no record at all: it either raises or, with an empty
    precipitation table, returns the empty list. *)
Theorem no_fault_table_no_record w pz tz ez fault_data_path fault_meta uplift_rate
    csv_row rows :
  load_fault_data w fault_data_path = ok (∅, csv_row) ->
  do_bqart w pz tz ez fault_data_path fault_meta uplift_rate = ok rows ->
  rows = [].
Proof.
  intros Hload Hrun.
  destruct (do_bqart_ok _ _ _ _ _ _ _ _ Hrun) as (t & p & e & fdo & Htz & Hpz & Hez & _).
  pose proof (do_bqart_zones _ _ _ _ _ _ _ _ _ _ _ _ _ Htz Hpz Hez Hload Hrun) as H.
  destruct H as [|k row ks rows' Hrow _]; [reflexivity|].
  destruct (bqart_zone_no_fault_table (dict_of MEAN t) (dict_of MEAN p) (dict_of MAX e)
              (dict_of MIN e) (dict_of AREA e) fault_meta uplift_rate k) as [e' He'].
  rewrite He' in Hrow. discriminate Hrow.
Qed.

Lemma no_fault_table_no_record_witness :
  do_bqart (tables_world [fixture_t] [] [fixture_e] None) pz_path tz_path ez_path
    (MPath []) (MMeta ∅) (MNum (Float 1)) = ok [].
Proof.
  assert (Hrun : exists rows,
             do_bqart (tables_world [fixture_t] [] [fixture_e] None) pz_path tz_path
               ez_path (MPath []) (MMeta ∅) (MNum (Float 1)) = ok rows)
    by (eexists; reflexivity).
  destruct Hrun as [rows Hrun]. rewrite Hrun. f_equal.
  apply (no_fault_table_no_record (tables_world [fixture_t] [] [fixture_e] None) pz_path
           tz_path ez_path (MPath []) (MMeta ∅) (MNum (Float 1)) false rows);
    [reflexivity|exact Hrun].
Defined.

(** X10.  The yield has the sign of the mean temperature: for a zone with
    rain, a positive area and a positive relief, [Qs_MT_yr] and the
    erosion rate are positive above zero degrees, zero at zero degrees
    and negative below; no lower bound is put on the temperature. *)
Theorem yield_has_sign_of_temperature temps precips max_reliefs min_reliefs areas k
    (p a : R) (hi lo : num) (t : R) :
  precips !! k = Some (Float p) -> areas !! k = Some (Float a) ->
  max_reliefs !! k = Some hi -> min_reliefs !! k = Some lo ->
  temps !! k = Some (Float t) ->
  (0 < p)%R -> (0 < a)%R -> (to_R lo < to_R hi)%R ->
  exists v,
    bqart_vars temps precips max_reliefs min_reliefs areas k = ok v /\
    ((0 < t)%R -> (0 < to_R (zone.Qs_MT_yr v))%R /\ (0 < to_R (zone.Qs_mm_yr v))%R) /\
    (t = 0%R -> to_R (zone.Qs_MT_yr v) = 0%R /\ to_R (zone.Qs_mm_yr v) = 0%R) /\
    ((t < 0)%R -> (to_R (zone.Qs_MT_yr v) < 0)%R /\ (to_R (zone.Qs_mm_yr v) < 0)%R).
Proof.
  intros Hp Ha Hhi Hlo Ht Hp0 Ha0 Hrelief. eexists. split.
  - apply (bqart_vars_floats _ _ _ _ _ _ p a hi lo t); try done; lra.
  - cbn [zone_chain zone.Qs_MT_yr zone.Qs_mm_yr to_R].
    set (Qw := rpow (p / 1000 * a / 31536000 * 31536000 / 1000000000) (31 / 100)).
    set (A := rpow (a / 1000000) (5 / 10)).
    set (relief_km := ((to_R hi - to_R lo) / 1000)%R).
    assert (HQw : (0 < Qw)%R).
    { apply rpow_pos.
      replace (p / 1000 * a / 31536000 * 31536000 / 1000000000)%R
        with (p * a / 1000000000000)%R by (field; lra).
      apply Rdiv_lt_0_compat; [|lra]. apply Rmult_lt_0_compat; lra. }
    assert (HA : (0 < A)%R) by (apply rpow_pos; lra).
    assert (Hr : (0 < relief_km)%R) by (unfold relief_km; lra).
    assert (Hc : (0 < 6 / 10000 * 1 * Qw * A * relief_km)%R).
    { repeat apply Rmult_lt_0_compat; lra. }
    set (c := (6 / 10000 * 1 * Qw * A * relief_km)%R) in *.
    assert (Hmm : forall x : R,
               (x * (370370 * (13 / 10)) / a * 1000)%R
               = (x * (370370 * (13 / 10) * 1000 / a))%R) by (intros x; field; lra).
    assert (Hd : (0 < 370370 * (13 / 10) * 1000 / a)%R)
      by (apply Rdiv_lt_0_compat; lra).
    rewrite Hmm. set (d := (370370 * (13 / 10) * 1000 / a)%R) in *.
    split; [|split].
    + intros Ht0. assert (0 < c * (t / 10))%R by (apply Rmult_lt_0_compat; lra).
      split; [done|]. by apply Rmult_lt_0_compat.
    + intros ->. split; field; lra.
    + intros Ht0. assert (0 < c * (- t / 10))%R by (apply Rmult_lt_0_compat; lra).
      assert (0 < c * (- t / 10) * d)%R by (by apply Rmult_lt_0_compat).
      split; lra.
Qed.

Lemma yield_has_sign_of_temperature_witness :
  exists v,
    bqart_vars (dict_of MEAN [frozen_t]) fixture_precips fixture_max_reliefs
      fixture_min_reliefs fixture_areas 1 = ok v /\
    (to_R (zone.Qs_MT_yr v) < 0)%R.
Proof.
  destruct (yield_has_sign_of_temperature (dict_of MEAN [frozen_t]) fixture_precips
              fixture_max_reliefs fixture_min_reliefs fixture_areas 1 1000 100000000
              (Int 2000) (Int 0) (-100)) as (v & Hv & _ & _ & Hneg);
    [reflexivity | reflexivity | reflexivity | reflexivity | reflexivity | lra | lra
    | simpl; lra |].
  exists v. split; [exact Hv|]. apply Hneg. lra.
Defined.

(** ** The stages *)

Lemma foldl_insert_lookup `{Countable K} {V X} (key : X -> K) (val : X -> V)
    (l : list X) (d : gmap K V) :
  (forall k, k ∉ key <$> l ->
     foldl (fun d r => <[key r := val r]> d) d l !! k = d !! k) /\
  (forall l1 r l2, l = (l1 ++ r :: l2)%list -> key r ∉ key <$> l2 ->
     foldl (fun d r => <[key r := val r]> d) d l !! key r = Some (val r)).
Proof.
  assert (Hout : forall (l : list X) (d : gmap K V) k, k ∉ key <$> l ->
            foldl (fun d r => <[key r := val r]> d) d l !! k = d !! k).
  { clear l d. induction l as [|r l IH]; intros d k Hk; [reflexivity|].
    cbn [foldl]. rewrite fmap_cons, not_elem_of_cons in Hk. destruct Hk as [Hne Hk].
    rewrite IH by done. by rewrite lookup_insert_ne. }
  split; [apply Hout|].
  intros l1 r l2 -> Hr. rewrite foldl_app. cbn [foldl].
  rewrite Hout by done. apply lookup_insert_eq.
Qed.

Lemma foldl_insert_dom `{Countable K} {V X} (key : X -> K) (val : X -> V)
    (l : list X) (d : gmap K V) (k : K) :
  is_Some (foldl (fun d r => <[key r := val r]> d) d l !! k) ->
  is_Some (d !! k) \/ k ∈ key <$> l.
Proof.
  revert d. induction l as [|r l IH]; intros d; cbn [foldl]; [by left|].
  intros Hk. destruct (IH _ Hk) as [Hd|Hl].
  - rewrite lookup_insert_is_Some in Hd. destruct Hd as [<-|[_ Hd]]; [|by left].
    right. rewrite fmap_cons. apply list_elem_of_here.
  - right. rewrite fmap_cons. by apply list_elem_of_further.
Qed.

Lemma fault_rows_events (evs : list event) (d : gmap string (string * string)) :
  fault_rows (map (fun r => [OID r; RID r; MEAS r]) evs) d
  = ok (foldl (fun d r => <[OID r := (RID r, MEAS r)]> d) d evs).
Proof.
  revert d. induction evs as [|ev evs IH]; intros d; [reflexivity|].
  cbn [map fault_rows foldl]. apply IH.
Qed.

Section StageProperties.

Variable derive : gpcall -> list file -> file.


Lemma truthy_in_dir d self suffix : truthy (MPath (in_dir d self suffix)) = true.
Proof. unfold in_dir, os_path_join. by destruct d. Qed.

(** X12.  The fault stage runs to its end when the fault features, the
    stream vectors and the DEM are there and the route locator finds at
    least one pour point.  The table it leaves is the one [do_bqart]
    loads from the [fault_data] entry of the manifest: every located
    point is read back with its route and its measure, the last event of
    a point winning; the header row is read as one more entry, under the
    key [id]; and no other key is read. *)
Theorem fault_table_read_back self faultlines hydro_paths w rows streams evs :
  fs w !! faultlines = Some (FFeatures rows) ->
  hydro_paths !! "vector_streams" = Some (MPath streams) ->
  present w [streams; original_dem self] ->
  isdir w (batch_path self) = true ->
  (forall ins,
     derive (GP "LocateFeaturesAlongRoutes_lr"
               [in_dir (batch_path self) self "_intersects_above.shp";
                in_dir (batch_path self) self "_fault_routes.shp"]
               ["Id"; faults_search_radius self; "RID POINT MEAS"]
               (in_dir (batch_path self) self "_intersect_events.dbf")) ins
     = FEvents evs) ->
  evs ≠ [] ->
  exists pour_points self' hydro_paths' w' data fdo,
    fault_workflow derive self faultlines hydro_paths w
    = ok (pour_points, self', hydro_paths', w') /\
    hydro_paths' !! "fault_data" = Some (MPath data) /\
    load_fault_data w' (MPath data) = ok (fdo, true) /\
    (forall evs1 ev evs2, evs = (evs1 ++ ev :: evs2)%list -> OID ev ∉ OID <$> evs2 ->
       fdo !! OID ev = Some (RID ev, MEAS ev)) /\
    ("id" ∉ OID <$> evs -> fdo !! "id" = Some ("fault", "distance")) /\
    (forall k, is_Some (fdo !! k) -> k = "id" \/ k ∈ OID <$> evs).
Proof.
  intros Hfaults Hstreams Hpresent Hdir Hevents Hne.
  destruct (fault_workflow_runs derive self faultlines hydro_paths w rows streams evs
              Hfaults Hstreams Hpresent Hdir Hevents Hne)
    as (w' & Hrun & Hcsv & _ & _).
  eexists _, _, _, w', _, _. split; [exact Hrun|].
  split; [rewrite lookup_insert_ne by done; apply lookup_insert_eq|].
  split.
  { unfold load_fault_data. rewrite truthy_in_dir.
    unfold exists_, isfile. rewrite bool_decide_eq_true_2
      by (apply elem_of_dom; by rewrite Hcsv).
    cbn [orb]. rewrite Hcsv. cbn [csv_reader mbind result_bind ok fault_rows].
    rewrite fault_rows_events. reflexivity. }
  destruct (foldl_insert_lookup OID (fun r => (RID r, MEAS r)) evs
              (<["id" := ("fault", "distance")]> ∅)) as [Hout Hlast].
  split; [exact Hlast|]. split.
  - intros Hid. rewrite Hout by done. apply lookup_insert_eq.
  - intros k Hk. apply foldl_insert_dom in Hk as [Hk|Hk]; [|by right].
    left. rewrite lookup_insert_is_Some in Hk. destruct Hk as [<-|[_ Hk]]; [done|].
    rewrite lookup_empty in Hk. by destruct Hk.
Qed.

(** X13.  When the route locator finds no pour point, the fault stage
    does not return: with every input there, it ends in
    [UnboundLocalError], raised by [del row] after a loop that never
    ran. *)
Theorem fault_stage_without_events self faultlines hydro_paths w rows streams :
  fs w !! faultlines = Some (FFeatures rows) ->
  hydro_paths !! "vector_streams" = Some (MPath streams) ->
  present w [streams; original_dem self] ->
  isdir w (batch_path self) = true ->
  (forall ins,
     derive (GP "LocateFeaturesAlongRoutes_lr"
               [in_dir (batch_path self) self "_intersects_above.shp";
                in_dir (batch_path self) self "_fault_routes.shp"]
               ["Id"; faults_search_radius self; "RID POINT MEAS"]
               (in_dir (batch_path self) self "_intersect_events.dbf")) ins
     = FEvents []) ->
  fault_workflow derive self faultlines hydro_paths w
  = raise (UnboundLocalError "local variable 'row' referenced before assignment").
Proof.
  intros Hfaults Hstreams Hpresent Hdir Hevents.
  destruct (fault_workflow_steps derive self faultlines hydro_paths w rows streams []
              Hfaults Hstreams Hpresent Hdir Hevents) as (w7 & Hrun & _).
  exact Hrun.
Qed.

(** X14.  The fault stage, when it runs to its end, returns the pour
    points above the minimum height, [<project>_intersects_above.shp];
    it writes in the batch directory only and removes no file; and it
    calls its seven tools in the order intersect, multipart to
    singlepart, extract by attributes, extract values to points, select,
    create routes, locate features along routes. *)
Theorem fault_stage_runs self faultlines hydro_paths w rows streams evs :
  fs w !! faultlines = Some (FFeatures rows) ->
  hydro_paths !! "vector_streams" = Some (MPath streams) ->
  present w [streams; original_dem self] ->
  isdir w (batch_path self) = true ->
  (forall ins,
     derive (GP "LocateFeaturesAlongRoutes_lr"
               [in_dir (batch_path self) self "_intersects_above.shp";
                in_dir (batch_path self) self "_fault_routes.shp"]
               ["Id"; faults_search_radius self; "RID POINT MEAS"]
               (in_dir (batch_path self) self "_intersect_events.dbf")) ins
     = FEvents evs) ->
  evs ≠ [] ->
  exists self' hydro_paths' w',
    fault_workflow derive self faultlines hydro_paths w
    = ok (in_dir (batch_path self) self "_intersects_above.shp", self', hydro_paths', w') /\
    fault_data self' = in_dir (batch_path self) self "_intersect_data.csv" /\
    highlands self' = in_dir (batch_path self) self "_dem_no_lowlands.tif" /\
    extends_in (batch_path self) w w' /\
    tool <$> calls w'
    = ((tool <$> calls w)
       ++ ["Intersect_analysis"; "MultipartToSinglepart_management"; "ExtractByAttributes";
           "ExtractValuesToPoints"; "Select_analysis"; "CreateRoutes_lr";
           "LocateFeaturesAlongRoutes_lr"])%list.
Proof.
  intros Hfaults Hstreams Hpresent Hdir Hevents Hne.
  destruct (fault_workflow_steps derive self faultlines hydro_paths w rows streams evs
              Hfaults Hstreams Hpresent Hdir Hevents) as (w7 & Hrun & _ & _ & Hcalls).
  destruct (fault_workflow_runs derive self faultlines hydro_paths w rows streams evs
              Hfaults Hstreams Hpresent Hdir Hevents Hne)
    as (w' & Hrun' & _ & _ & Hext).
  destruct evs as [|ev evs]; [done|]. cbn [nonempty] in Hrun.
  rewrite Hrun in Hrun'. injection Hrun' as <-.
  eexists _, _, _. split; [exact Hrun|]. split; [reflexivity|]. split; [reflexivity|].
  split; [exact Hext|exact Hcalls].
Qed.

End StageProperties.


Lemma fault_table_read_back_witness :
  exists pour_points self' hydro_paths' w' data fdo,
    fault_workflow demo_service demo_batch demo_faultlines demo_hydro_paths demo_w_hydro
    = ok (pour_points, self', hydro_paths', w') /\
    load_fault_data w' (MPath data) = ok (fdo, true) /\
    fdo !! "1" = Some ("0", "12.5").
Proof.
  destruct demo_hydro_run as (_ & Hext & Hpresent).
  destruct (fault_table_read_back demo_service demo_batch demo_faultlines demo_hydro_paths
              demo_w_hydro
              [Feature 0 (FaultMeta "Alpine" (Float 1) (Float 2) (Int 0) (Int 10000)
                            "normal")]
              (in_dir demo_batch_path demo_batch "_streams.shp")
              [Event "1" "0" "12.5"])
    as (pp & self' & m' & w' & data & fdo & Hrun & _ & Hload & Hlast & _).
  - destruct Hext as (_ & Hframe & _). by rewrite Hframe.
  - reflexivity.
  - exact Hpresent.
  - by rewrite (extends_in_isdir _ _ _ _ Hext).
  - intros ins. reflexivity.
  - discriminate.
  - exists pp, self', m', w', data, fdo. split; [exact Hrun|]. split; [exact Hload|].
    apply (Hlast [] (Event "1" "0" "12.5") []); [reflexivity|].
    cbn. apply not_elem_of_nil.
Defined.

Lemma fault_stage_without_events_witness :
  fault_workflow silent_service demo_batch demo_faultlines demo_hydro_paths demo_w_hydro
  = raise (UnboundLocalError "local variable 'row' referenced before assignment").
Proof.
  destruct demo_hydro_run as (_ & Hext & Hpresent).
  apply (fault_stage_without_events silent_service demo_batch demo_faultlines
           demo_hydro_paths demo_w_hydro
           [Feature 0 (FaultMeta "Alpine" (Float 1) (Float 2) (Int 0) (Int 10000)
                         "normal")]
           (in_dir demo_batch_path demo_batch "_streams.shp")).
  - destruct Hext as (_ & Hframe & _). by rewrite Hframe.
  - reflexivity.
  - exact Hpresent.
  - by rewrite (extends_in_isdir _ _ _ _ Hext).
  - intros ins. reflexivity.
Defined.

(** ** The climate rasters *)

Section ClimateProperties.

Variable derive : gpcall -> list file -> file.


(** X16.  After a run that built the two clipped rasters, both lookups
    of the cache hit, and a second run builds nothing and leaves the
    world as it is; the raster it hands to the temperature statistics is
    the clipped precipitation raster. *)
Theorem second_run_reads_cache watershed_raster watershed_path temp_directory
    precip_directory climate_scenario w rs_p rs_t extent :
  check_climate_cache w watershed_path climate_scenario "t" = None ->
  check_climate_cache w watershed_path climate_scenario "p" = None ->
  isdir w precip_directory = true ->
  isdir w temp_directory = true ->
  isdir w (cache_dir watershed_path) = true ->
  mapM (Raster w) (glob_tif w precip_directory) = ok rs_p -> rs_p ≠ [] ->
  mapM (Raster w) (glob_tif w temp_directory) = ok rs_t -> rs_t ≠ [] ->
  fs w !! watershed_raster = Some extent ->
  temp_directory ≠ cache_dir watershed_path ->
  dirname watershed_raster ≠ cache_dir watershed_path ->
  let p_clip := clip_path watershed_path climate_scenario "p" in
  let t_clip := clip_path watershed_path climate_scenario "t" in
  exists w',
    climate_rasters derive watershed_raster watershed_path temp_directory
      precip_directory climate_scenario w = ok (Some p_clip, Some t_clip, w') /\
    check_climate_cache w' watershed_path climate_scenario "p" = Some p_clip /\
    check_climate_cache w' watershed_path climate_scenario "t" = Some t_clip /\
    climate_rasters derive watershed_raster watershed_path temp_directory
      precip_directory climate_scenario w' = ok (Some p_clip, Some p_clip, w').
Proof.
  intros Hct Hcp Hpdir Htdir Hcache Hrs_p Hne_p Hrs_t Hne_t Hext Htemp Hws p_clip t_clip.
  destruct (climate_rasters_builds derive watershed_raster watershed_path temp_directory
              precip_directory climate_scenario w rs_p rs_t extent)
    as (w' & r_p & r_t & Hrun & _ & _ & _ & _ & Hpc & Htc & _); try assumption.
  assert (Hp : check_climate_cache w' watershed_path climate_scenario "p" = Some p_clip)
    by exact (check_climate_cache_found w' watershed_path climate_scenario "p" _ Hpc).
  assert (Ht : check_climate_cache w' watershed_path climate_scenario "t" = Some t_clip)
    by exact (check_climate_cache_found w' watershed_path climate_scenario "t" _ Htc).
  exists w'. split; [exact Hrun|]. split; [exact Hp|]. split; [exact Ht|].
  exact (climate_rasters_cached derive _ _ _ _ _ _ _ _ Ht Hp).
Qed.

End ClimateProperties.

(** X17.  In a directory without a [.tif] file [average_rasters] saves
    nothing: the mean of the temperature rasters divides the int [0] by
    zero, and the sum of the precipitation rasters is the int [0], which
    has no [save]. *)
Theorem average_rasters_empty_directory search_directory save_directory name w :
  isdir w search_directory = true ->
  glob_tif w search_directory = [] ->
  average_rasters search_directory save_directory name true w
  = raise (ZeroDivisionError "integer division or modulo by zero") /\
  average_rasters search_directory save_directory name false w
  = raise (AttributeError "'int' object has no attribute 'save'").
Proof.
  intros Hdir Hglob. unfold average_rasters, chdir. rewrite Hdir, Hglob.
  split; reflexivity.
Qed.

Lemma average_rasters_empty_directory_witness :
  average_rasters ["run"] ["run"] "t_now_all.tif" true empty_world
  = raise (ZeroDivisionError "integer division or modulo by zero") /\
  average_rasters ["run"] ["run"] "p_now_all.tif" false empty_world
  = raise (AttributeError "'int' object has no attribute 'save'").
Proof.
  split.
  - apply (average_rasters_empty_directory ["run"] ["run"] "t_now_all.tif" empty_world);
      reflexivity.
  - apply (average_rasters_empty_directory ["run"] ["run"] "p_now_all.tif" empty_world);
      reflexivity.
Defined.


Lemma second_run_reads_cache_witness :
  exists w',
    demo_climate demo_world_cache = ok (Some demo_p_clip, Some demo_t_clip, w') /\
    demo_climate w' = ok (Some demo_p_clip, Some demo_p_clip, w').
Proof.
  destruct (second_run_reads_cache demo_service demo_watershed_raster demo_watershed_path
              demo_temp_directory demo_precip_directory "now" demo_world_cache
              [fun _ => 600%R; fun _ => 400%R] [fun _ => 210%R; fun _ => 190%R]
              (FRaster (fun _ => 1%R)))
    as (w' & Hrun & _ & _ & Hagain);
    [ reflexivity | reflexivity | reflexivity | reflexivity | reflexivity | reflexivity
    | discriminate | reflexivity | discriminate | reflexivity | discriminate
    | discriminate | ].
  exists w'. split; [exact Hrun|exact Hagain].
Defined.

(** ** The settings of the last run *)

(** X18.  What [save_last_run] stores under a key is what
    [load_last_run] returns under it, together with every other entry
    the file held before; the file is made when it is not there, and no
    other file is touched. *)
Theorem last_run_round_trip root key val w prev :
  isdir w root = true ->
  isdir w (os_path_join root ["last_run.yml"]) = false ->
  load_last_run root w = ok prev ->
  exists w',
    save_last_run root key val w = ok w' /\
    load_last_run root w' = ok (Some (<[key := val]> (default ∅ prev))) /\
    (forall p, p ≠ os_path_join root ["last_run.yml"] -> fs w' !! p = fs w !! p) /\
    dirs w' = dirs w /\ calls w' = calls w.
Proof.
  intros Hroot Hnodir. unfold load_last_run, save_last_run, exists_.
  rewrite Hnodir, orb_false_r.
  set (p := os_path_join root ["last_run.yml"]) in *.
  assert (Hwrite : forall doc,
            exists w',
              yaml_dump p doc w = ok w' /\
              load_last_run root w' = ok (Some doc) /\
              (forall q, q ≠ p -> fs w' !! q = fs w !! q) /\
              dirs w' = dirs w /\ calls w' = calls w).
  { intros doc. unfold yaml_dump, write_file. unfold p at 1. rewrite dirname_join, Hroot.
    eexists. split; [reflexivity|]. cbn [fs dirs calls]. split.
    - unfold load_last_run, exists_, isfile. fold p. cbn [fs].
      rewrite bool_decide_eq_true_2 by (apply elem_of_dom; by rewrite lookup_insert_eq).
      cbn [orb]. unfold yaml_load. cbn [fs]. by rewrite lookup_insert_eq.
    - split; [|done]. intros q Hq. by rewrite lookup_insert_ne. }
  destruct (isfile w p) eqn:Hfile.
  - destruct (yaml_load p w) as [e|doc]; [discriminate|].
    cbn [mbind result_bind ok]. intros [= <-]. apply Hwrite.
  - intros [= <-]. cbn [mbind result_bind ok default]. apply Hwrite.
Qed.

Lemma last_run_round_trip_witness :
  exists w1 w2 d,
    save_last_run ["run"] "hydro_batch" (MPath demo_batch_path) empty_world = ok w1 /\
    save_last_run ["run"] "watershed_batch" (MPath demo_watershed_path) w1 = ok w2 /\
    load_last_run ["run"] w2 = ok (Some d) /\
    d !! "hydro_batch" = Some (MPath demo_batch_path) /\
    d !! "watershed_batch" = Some (MPath demo_watershed_path).
Proof.
  destruct (last_run_round_trip ["run"] "hydro_batch" (MPath demo_batch_path) empty_world
              None) as (w1 & Hsave1 & Hload1 & _ & Hdirs1 & _);
    [reflexivity | reflexivity | reflexivity |].
  destruct (last_run_round_trip ["run"] "watershed_batch" (MPath demo_watershed_path) w1
              (Some (<["hydro_batch" := MPath demo_batch_path]> ∅)))
    as (w2 & Hsave2 & Hload2 & _);
    [unfold isdir; rewrite Hdirs1; reflexivity
    | unfold isdir; rewrite Hdirs1; reflexivity
    | exact Hload1 |].
  eexists w1, w2, _. split; [exact Hsave1|]. split; [exact Hsave2|].
  split; [exact Hload2|]. split; reflexivity.
Defined.

(** ** The watershed stage *)

Lemma elem_of_ancestors (p q : path) : q ∈ ancestors p -> (length q <= length p)%nat.
Proof.
  unfold ancestors. intros Hq. apply list_elem_of_fmap in Hq as (n & -> & _).
  rewrite length_take. lia.
Qed.

(** [os.makedirs] on a path where nothing is: the directory is there
    afterwards, the directories there were are kept, none is made below
    the path, and the files and the record of calls are as before. *)
Lemma makedirs_step (p : path) (w : world) :
  p ≠ [] -> exists_ w p = false ->
  exists w',
    makedirs p w = ok w' /\ fs w' = fs w /\ calls w' = calls w /\
    isdir w' p = true /\
    (forall q, isdir w q = true -> isdir w' q = true) /\
    (forall q, (length p < length q)%nat -> isdir w' q = isdir w q).
Proof.
  intros Hne Hex. destruct (makedirs_runs p w Hne Hex) as [Hmk Hin].
  eexists. split; [exact Hmk|]. cbn [fs calls]. split; [done|]. split; [done|].
  unfold isdir. cbn [dirs]. split; [|split].
  - apply bool_decide_eq_true. apply elem_of_union. by left.
  - intros q Hq. apply bool_decide_eq_true in Hq. apply bool_decide_eq_true.
    apply elem_of_union. by right.
  - intros q Hq. apply bool_decide_ext. rewrite elem_of_union, elem_of_list_to_set.
    split; [|by right]. intros [Hanc|Hdir]; [|done].
    apply elem_of_ancestors in Hanc. lia.
Qed.

Ltac in_list :=
  solve [repeat first [apply list_elem_of_here | apply list_elem_of_further]].

Ltac sub_list :=
  let x := fresh "x" in
  let Hx := fresh "Hx" in
  intros x Hx;
  repeat (apply elem_of_cons in Hx; destruct Hx as [->|Hx]; [in_list|]);
  by apply elem_of_nil in Hx.

Lemma watersheds_name_ne (n : string) : "watershed_paths.yml" ≠ n ++ "_watersheds.tif".
Proof.
  intros H. destruct n as [|c1 [|c2 [|c3 [|c4 [|c5 n]]]]]; try discriminate H.
  apply (f_equal String.length) in H. simpl in H. rewrite length_append in H.
  simpl in H. lia.
Qed.

Section WatershedProperties.

Variable derive : gpcall -> list file -> file.


(** X20.  A second watershed run within the same second finds the
    directory of the run and stops with [OSError]. *)
Theorem watershed_stage_same_second self snap_distance original_pour_points hydro_paths
    timestamp w :
  isdir w (os_path_join (batch_path self) ["watershed_calcs"]) = true ->
  exists_ w (os_path_join (batch_path self) ["watershed_calcs"; timestamp]) = true ->
  watershed_workflow derive self snap_distance original_pour_points hydro_paths timestamp w
  = raise (OSError "file exists").
Proof.
  intros Hcalcs Hex. unfold watershed_workflow, setup_watershed_batch, makedirs.
  rewrite Hcalcs. cbn [mbind result_bind ok]. by rewrite Hex.
Qed.

End WatershedProperties.


Lemma watershed_stage_same_second_witness :
  watershed_workflow demo_service demo_batch "10" demo_pour_points demo_hydro_paths
    "2015_1_29_16_0_0" demo_world_calcs
  = raise (OSError "file exists").
Proof.
  apply (watershed_stage_same_second demo_service demo_batch "10" demo_pour_points
           demo_hydro_paths "2015_1_29_16_0_0" demo_world_calcs); reflexivity.
Defined.

(** ** The output table of a run *)

(** X21.  The records [do_bqart] returns all have nineteen fields, so
    the table [save_data_to_csv] writes for them has the nineteen-column
    header and as many columns in every row; the records are written as
    they are, in [qs_data.csv] of the given directory, and no other file
    is touched. *)
Theorem completed_run_table w pz tz ez fault_data_path fault_meta uplift_rate rows p :
  do_bqart w pz tz ez fault_data_path fault_meta uplift_rate = ok rows ->
  rows ≠ [] ->
  isdir w p = true ->
  exists w',
    save_data_to_csv rows p w = ok w' /\
    fs w' !! os_path_join p ["qs_data.csv"]
    = Some (FRecords (base_headers ++ fault_headers) rows) /\
    Forall (fun row => length row = length (base_headers ++ fault_headers)%list) rows /\
    (forall q, q ≠ os_path_join p ["qs_data.csv"] -> fs w' !! q = fs w !! q).
Proof.
  intros Hrun Hne Hdir. pose proof (do_bqart_rows_length _ _ _ _ _ _ _ _ Hrun) as Hlen.
  destruct rows as [|first rest]; [done|].
  unfold save_data_to_csv, row_headers.
  rewrite (Forall_inv Hlen). cbn [Nat.ltb Nat.leb mbind result_bind ok].
  unfold write_file. rewrite dirname_join, Hdir. eexists. split; [reflexivity|].
  cbn [fs]. split; [apply lookup_insert_eq|]. split; [exact Hlen|].
  intros q Hq. by apply lookup_insert_ne.
Qed.

Lemma completed_run_table_witness :
  exists rows w',
    one_zone_run = ok rows /\
    save_data_to_csv rows ["run"] one_zone_world = ok w' /\
    fs w' !! ["run"; "qs_data.csv"] = Some (FRecords (base_headers ++ fault_headers) rows).
Proof.
  destruct (completed_run_table one_zone_world pz_path tz_path ez_path (MPath csv_path)
              (MMeta one_fault_meta) (MNum (Float 1)) _ ["run"] one_zone_run_eq)
    as (w' & Hsave & Hfile & _); [discriminate | reflexivity |].
  eexists _, w'. split; [apply one_zone_run_eq|]. split; [exact Hsave|exact Hfile].
Defined.

(** X22.  The conversion from megatons to cubic metres multiplies by
    [(1000000000 / 2700) * 1.3] with the quotient of two ints, which
    Python 2 floors to 370370: for every zone [Qs_m3_yr] is
    [Qs_MT_yr * 481481], and differs from the product with the exact
    quotient whenever the yield is not zero. *)
Theorem density_conversion_floors temps precips max_reliefs min_reliefs areas k
    (p a : R) (hi lo : num) (t : R) :
  precips !! k = Some (Float p) -> areas !! k = Some (Float a) ->
  max_reliefs !! k = Some hi -> min_reliefs !! k = Some lo ->
  temps !! k = Some (Float t) ->
  (0 <= p)%R -> (0 < a)%R ->
  exists v,
    bqart_vars temps precips max_reliefs min_reliefs areas k = ok v /\
    to_R (zone.Qs_m3_yr v) = (to_R (zone.Qs_MT_yr v) * 481481)%R /\
    (to_R (zone.Qs_MT_yr v) ≠ 0%R ->
     to_R (zone.Qs_m3_yr v)
     ≠ (to_R (zone.Qs_MT_yr v) * (1000000000 / 2700 * (13 / 10)))%R).
Proof.
  intros Hp Ha Hhi Hlo Ht Hp0 Ha0. eexists. split.
  - by apply (bqart_vars_floats _ _ _ _ _ _ p a hi lo t).
  - cbn [zone_chain zone.Qs_MT_yr zone.Qs_m3_yr to_R].
    set (q := (6 / 10000 * 1 * _ * _ * _ * _)%R). split; [lra|].
    intros Hq Heq. apply Hq.
    assert (H : (q * (1000000000 / 2700 * (13 / 10) - 370370 * (13 / 10)) = 0)%R) by lra.
    apply Rmult_integral in H as [H|H]; [done|lra].
Qed.

Lemma density_conversion_floors_witness :
  exists v,
    fixture_vars = ok v /\
    to_R (zone.Qs_m3_yr v) = (to_R (zone.Qs_MT_yr v) * 481481)%R.
Proof.
  destruct (density_conversion_floors fixture_temps fixture_precips fixture_max_reliefs
              fixture_min_reliefs fixture_areas 1 1000 100000000 (Int 2000) (Int 0) 200)
    as (v & Hv & Hfloor & _);
    [reflexivity | reflexivity | reflexivity | reflexivity | reflexivity | lra | lra |].
  exists v. split; [exact Hv|exact Hfloor].
Defined.

(** ** The fault metadata *)

(** X23.  [get_fault_data] adds one entry per feature to the metadata
    the object holds, keyed by [FID]: the attributes of a feature are
    found under its [FID] (those of the last feature, when two share an
    [FID]), the entries of other keys are kept, and the batch path, the
    project name, the DEM and the fault table of the object are as
    before. *)
Theorem get_fault_data_updates self faultlines w rows :
  fs w !! faultlines = Some (FFeatures rows) ->
  exists self',
    get_fault_data self faultlines w = ok self' /\
    (forall rows1 row rows2, rows = (rows1 ++ row :: rows2)%list ->
       FID row ∉ FID <$> rows2 ->
       fault_meta_data self' !! FID row = Some (attrs row)) /\
    (forall i, i ∉ FID <$> rows -> fault_meta_data self' !! i = fault_meta_data self !! i) /\
    (forall i, is_Some (fault_meta_data self' !! i) ->
       is_Some (fault_meta_data self !! i) \/ i ∈ FID <$> rows) /\
    batch_path self' = batch_path self /\ project_name self' = project_name self /\
    original_dem self' = original_dem self /\ fault_data self' = fault_data self.
Proof.
  intros Hrows. unfold get_fault_data. rewrite Hrows. eexists. split; [reflexivity|].
  cbn [fault_meta_data set_fault_meta_data batch_path project_name original_dem fault_data].
  destruct (foldl_insert_lookup FID attrs rows (fault_meta_data self)) as [Hout Hlast].
  split; [exact Hlast|]. split; [exact Hout|]. split; [apply foldl_insert_dom|done].
Qed.

Lemma get_fault_data_updates_witness :
  exists self',
    get_fault_data demo_batch demo_faultlines demo_world = ok self' /\
    fault_meta_data self' !! 0
    = Some (FaultMeta "Alpine" (Float 1) (Float 2) (Int 0) (Int 10000) "normal").
Proof.
  destruct (get_fault_data_updates demo_batch demo_faultlines demo_world
              [Feature 0 (FaultMeta "Alpine" (Float 1) (Float 2) (Int 0) (Int 10000)
                            "normal")])
    as (self' & Hrun & Hlast & _); [reflexivity|].
  exists self'. split; [exact Hrun|].
  apply (Hlast [] (Feature 0 (FaultMeta "Alpine" (Float 1) (Float 2) (Int 0) (Int 10000)
                               "normal")) []); [reflexivity|].
  cbn. apply not_elem_of_nil.
Defined.

(** ** The names of the batch directories *)

Lemma string_of_uint_digits (d : Decimal.uint) (c : ascii) :
  In c (list_ascii_of_string (NilEmpty.string_of_uint d)) ->
  c ≠ "_"%char /\ c ≠ "-"%char /\ c ≠ "+"%char.
Proof.
  induction d; cbn [NilEmpty.string_of_uint list_ascii_of_string In];
    try (intros [<-|Hc]; [by repeat split|by apply IHd]).
  done.
Qed.

Lemma string_of_uint_to_uint (p : positive) :
  NilZero.string_of_uint (Pos.to_uint p) = NilEmpty.string_of_uint (Pos.to_uint p).
Proof.
  pose proof (Unsigned.to_uint_nonnil p) as Hp. unfold NilZero.string_of_uint.
  by destruct (Pos.to_uint p).
Qed.

Lemma py_str_no_separator (z : Z) (c : ascii) :
  In c (list_ascii_of_string (py_str z)) -> c ≠ "_"%char.
Proof.
  unfold py_str. destruct z as [|p|p]; cbn [Z.to_int NilZero.string_of_int].
  - cbn. intros [<-|[]]. done.
  - rewrite string_of_uint_to_uint. intros Hc. by apply string_of_uint_digits in Hc as [? _].
  - rewrite string_of_uint_to_uint. cbn [list_ascii_of_string In]. intros [<-|Hc]; [done|].
    by apply string_of_uint_digits in Hc as [? _].
Qed.

Lemma py_int_digits (d : Decimal.uint) :
  d ≠ Decimal.Nil ->
  py_int (NilEmpty.string_of_uint d) = ok (Z.of_uint d).
Proof.
  intros Hd. unfold py_int.
  assert (Hhead : forall c s, NilEmpty.string_of_uint d = String c s ->
            c ≠ "-"%char /\ c ≠ "+"%char).
  { intros c s Hs. destruct (string_of_uint_digits d c) as (_ & H1 & H2); [|done].
    rewrite Hs. by left. }
  destruct (NilEmpty.string_of_uint d) as [|c s] eqn:Hs; [by destruct d|].
  destruct (Hhead c s eq_refl) as [Hminus Hplus].
  assert (Hsign : (match String c s with
                   | String "-" rest => (true, rest)
                   | String "+" rest => (false, rest)
                   | _ => (false, String c s)
                   end) = (false, String c s)).
  { destruct c as [[] [] [] [] [] [] [] []]; try reflexivity; congruence. }
  rewrite Hsign. cbn beta iota zeta. rewrite <- Hs, NilEmpty.usu. reflexivity.
Qed.

(** [int(str(z))] is [z]. *)
Lemma py_int_py_str (z : Z) : py_int (py_str z) = ok z.
Proof.
  unfold py_str. destruct z as [|p|p]; cbn [Z.to_int NilZero.string_of_int].
  - reflexivity.
  - rewrite string_of_uint_to_uint.
    rewrite py_int_digits by apply Unsigned.to_uint_nonnil. unfold Z.of_uint.
    by rewrite DecimalPos.Unsigned.of_to.
  - rewrite string_of_uint_to_uint. unfold py_int. cbn beta iota zeta.
    pose proof (NilEmpty.usu (Pos.to_uint p)) as Husu.
    destruct (NilEmpty.string_of_uint (Pos.to_uint p)) as [|c s] eqn:Hs.
    + pose proof (Unsigned.to_uint_nonnil p). by destruct (Pos.to_uint p).
    + rewrite Husu. f_equal. unfold Z.of_uint. by rewrite DecimalPos.Unsigned.of_to.
Qed.

Lemma py_split_no_separator (sep : ascii) (s : string) :
  (forall c, In c (list_ascii_of_string s) -> c ≠ sep) ->
  py_split sep s = [s].
Proof.
  induction s as [|c s IH]; intros Hs; [reflexivity|].
  cbn [py_split]. rewrite (proj2 (Ascii.eqb_neq c sep)) by (apply Hs; by left).
  rewrite IH; [reflexivity|]. intros c' Hc'. apply Hs. by right.
Qed.

Lemma py_split_app (sep : ascii) (s t : string) :
  (forall c, In c (list_ascii_of_string s) -> c ≠ sep) ->
  py_split sep (s ++ String sep t) = s :: py_split sep t.
Proof.
  induction s as [|c s IH]; intros Hs.
  - change (EmptyString ++ String sep t) with (String sep t).
    cbn [py_split]. by rewrite Ascii.eqb_refl.
  - change (String c s ++ String sep t) with (String c (s ++ String sep t)).
    cbn [py_split]. rewrite (proj2 (Ascii.eqb_neq c sep)) by (apply Hs; by left).
    rewrite IH; [reflexivity|]. intros c' Hc'. apply Hs. by right.
Qed.

Lemma py_split_get_time_string (t : datetime.t) :
  py_split "_" (get_time_string t)
  = map py_str [datetime.year t; datetime.month t; datetime.day t; datetime.hour t;
                datetime.minute t; datetime.second t].
Proof.
  unfold get_time_string. destruct t as [y m d h mi s].
  cbn [datetime.year datetime.month datetime.day datetime.hour datetime.minute
       datetime.second].
  change (String.concat "_" (map py_str [y; m; d; h; mi; s]))
    with (py_str y ++ String "_" (py_str m ++ String "_" (py_str d ++ String "_"
            (py_str h ++ String "_" (py_str mi ++ String "_" (py_str s)))))).
  repeat (rewrite py_split_app by apply py_str_no_separator).
  by rewrite py_split_no_separator by apply py_str_no_separator.
Qed.

(** X24.  The name [get_time_string] gives a batch directory is read
    back by lines 814-816 of [select_batch_directory]: splitting the name
    at the underscores and converting the pieces gives the year, month,
    day, hour, minute and second of the clock reading; hence two
    different readings never give the same name. *)
Theorem batch_name_round_trip y m d h mi s t :
  datetime_datetime y m d h mi s = ok t ->
  batch_datetime (get_time_string t) = ok t /\
  (forall y' m' d' h' mi' s' t',
     datetime_datetime y' m' d' h' mi' s' = ok t' ->
     get_time_string t' = get_time_string t -> t' = t).
Proof.
  assert (Hfields : forall y m d h mi s t,
            datetime_datetime y m d h mi s = ok t -> t = datetime.DateTime y m d h mi s).
  { clear. intros y m d h mi s t. unfold datetime_datetime.
    repeat match goal with |- context [if ?b then _ else _] => destruct b end;
      try discriminate. by intros [= <-]. }
  assert (Hback : forall y m d h mi s t,
            datetime_datetime y m d h mi s = ok t ->
            batch_datetime (get_time_string t) = ok t).
  { clear -Hfields. intros y m d h mi s t Ht.
    pose proof (Hfields _ _ _ _ _ _ _ Ht) as ->.
    unfold batch_datetime. rewrite py_split_get_time_string.
    cbn [map mapM datetime.year datetime.month datetime.day datetime.hour datetime.minute
         datetime.second].
    rewrite !py_int_py_str. cbn [mbind result_bind ok mret result_ret]. exact Ht. }
  intros Ht. split; [by eapply Hback|].
  intros y' m' d' h' mi' s' t' Ht' Hname.
  apply Hback in Ht, Ht'. rewrite Hname, Ht in Ht'. by inversion Ht'.
Qed.

Lemma batch_name_round_trip_witness :
  get_time_string (datetime.DateTime 2015 1 29 15 14 57) = "2015_1_29_15_14_57" /\
  batch_datetime "2015_1_29_15_14_57" = ok (datetime.DateTime 2015 1 29 15 14 57).
Proof.
  split; [reflexivity|].
  destruct (batch_name_round_trip 2015 1 29 15 14 57 (datetime.DateTime 2015 1 29 15 14 57))
    as [Hback _]; [reflexivity|exact Hback].
Defined.

(** ** The BQART stage as a whole *)

Section BqartStage.

Variable derive : gpcall -> list file -> file.

Lemma zone_statistics_table table_directory watersheds v data_name w fw fv :
  fs w !! watersheds = Some fw ->
  fs w !! v = Some fv ->
  isdir w table_directory = true ->
  zone_statistics derive table_directory watersheds (Some v) data_name w
  = ok (os_path_join table_directory [data_name],
        {| fs := <[os_path_join table_directory [data_name]
                     := derive (GP "ZonalStatisticsAsTable" [watersheds; v]
                                  ["VALUE"; "DATA"]
                                  (os_path_join table_directory [data_name])) [fw; fv]]>
                   (fs w);
           dirs := dirs w;
           calls := (calls w
                     ++ [GP "ZonalStatisticsAsTable" [watersheds; v] ["VALUE"; "DATA"]
                           (os_path_join table_directory [data_name])])%list |}).
Proof.
  intros Hw Hv Hdir. unfold zone_statistics, run_tool.
  cbn [inputs output mapM]. unfold read_dataset. rewrite Hw, Hv.
  cbn [mbind result_bind ok mret result_ret]. by rewrite dirname_join, Hdir.
Qed.

(** The three tables are the zonal statistics of the clipped temperature
    raster, the clipped precipitation raster and the DEM over the
    watershed raster. *)
Lemma climate_statistics_tables self climate_batch_path watershed_raster temp_clip
    precip_clip w fw ft fp fd :
  fs w !! watershed_raster = Some fw ->
  fs w !! temp_clip = Some ft ->
  fs w !! precip_clip = Some fp ->
  fs w !! original_dem self = Some fd ->
  isdir w climate_batch_path = true ->
  dirname watershed_raster ≠ climate_batch_path ->
  dirname precip_clip ≠ climate_batch_path ->
  dirname (original_dem self) ≠ climate_batch_path ->
  let table name v :=
    GP "ZonalStatisticsAsTable" [watershed_raster; v] ["VALUE"; "DATA"]
      (os_path_join climate_batch_path [name]) in
  exists w',
    climate_statistics derive self climate_batch_path watershed_raster (Some temp_clip)
      (Some precip_clip) w
    = ok (os_path_join climate_batch_path ["temp_data"],
          os_path_join climate_batch_path ["precip_data"],
          os_path_join climate_batch_path ["elev_data"], w') /\
    fs w' !! os_path_join climate_batch_path ["temp_data"]
    = Some (derive (table "temp_data" temp_clip) [fw; ft]) /\
    fs w' !! os_path_join climate_batch_path ["precip_data"]
    = Some (derive (table "precip_data" precip_clip) [fw; fp]) /\
    fs w' !! os_path_join climate_batch_path ["elev_data"]
    = Some (derive (table "elev_data" (original_dem self)) [fw; fd]) /\
    (forall p, dirname p ≠ climate_batch_path -> fs w' !! p = fs w !! p) /\
    dirs w' = dirs w.
Proof.
  intros Hw Ht Hp Hd Hdir Hw_ne Hp_ne Hd_ne table. unfold climate_statistics.
  assert (Hout : forall (n : string) (q : path),
            dirname q ≠ climate_batch_path -> os_path_join climate_batch_path [n] ≠ q).
  { intros n q Hq <-. by rewrite dirname_join in Hq. }
  rewrite (zone_statistics_table _ _ _ _ _ fw ft Hw Ht Hdir). cbn [mbind result_bind ok].
  erewrite (zone_statistics_table _ _ _ _ _ fw fp);
    [|cbn [fs]; rewrite lookup_insert_ne by (by apply Hout); done..|exact Hdir].
  cbn [mbind result_bind ok].
  erewrite (zone_statistics_table _ _ _ _ _ fw fd);
    [|cbn [fs]; rewrite !lookup_insert_ne by (by apply Hout); done..|exact Hdir].
  cbn [mbind result_bind ok]. eexists. split; [reflexivity|]. cbn [fs dirs].
  split.
  { rewrite !lookup_insert_ne by (by apply cache_name_ne). apply lookup_insert_eq. }
  split.
  { rewrite lookup_insert_ne by (by apply cache_name_ne). apply lookup_insert_eq. }
  split; [apply lookup_insert_eq|]. split; [|done].
  intros q Hq. by rewrite !lookup_insert_ne by by apply Hout.
Qed.

(** X25.  What a BQART stage that ran to its end has done: the table
    [qs_data.csv] in the directory of the run opens with the
    nineteen-column header, holds at least one record, and every record
    has nineteen fields.  The manifest then had the entries
    [fault_meta_data] and [uplift_rate] and a path that is not empty
    under [fault_data]: a batch whose manifest names no fault table
    never completes the stage. *)
Theorem bqart_stage_completed self watershed_raster hydro_paths watershed_path
    temp_directory precip_directory climate_scenario timestamp w w' :
  bqart_workflow derive self watershed_raster hydro_paths watershed_path temp_directory
    precip_directory climate_scenario timestamp w = ok w' ->
  let climate_batch_path := os_path_join watershed_path ["climate_calcs"; timestamp] in
  exists rows fault_data,
    fs w' !! os_path_join climate_batch_path ["qs_data.csv"]
    = Some (FRecords (base_headers ++ fault_headers) rows) /\
    rows ≠ [] /\
    Forall (fun row => length row = 19%nat) rows /\
    hydro_paths !! "fault_data" = Some (MPath fault_data) /\ fault_data ≠ [] /\
    is_Some (hydro_paths !! "fault_meta_data") /\
    is_Some (hydro_paths !! "uplift_rate") /\
    isdir w' climate_batch_path = true.
Proof.
  unfold bqart_workflow, climate_batch_directory.
  destruct (makedirs _ w) as [e|w0]; [discriminate|]. cbn [mbind result_bind ok].
  destruct (if isdir w0 _ then _ else _) as [e|w1]; [discriminate|].
  cbn [mbind result_bind ok].
  destruct (climate_rasters _ _ _ _ _ _ _) as [e|[[pc tc] w2]]; [discriminate|].
  cbn [mbind result_bind ok].
  destruct (climate_statistics _ _ _ _ _ _ _) as [e|[[[tz pz] ez] w3]]; [discriminate|].
  cbn [mbind result_bind ok]. unfold manifest_getitem.
  destruct (hydro_paths !! "fault_data") as [fault_data_path|]; [|discriminate].
  cbn [mbind result_bind ok].
  destruct (hydro_paths !! "fault_meta_data") as [fault_meta|]; [|discriminate].
  cbn [mbind result_bind ok].
  destruct (hydro_paths !! "uplift_rate") as [uplift_rate|]; [|discriminate].
  cbn [mbind result_bind ok].
  destruct (do_bqart w3 pz tz ez fault_data_path fault_meta uplift_rate) as [e|rows] eqn:Hrun;
    [discriminate|].
  cbn [mbind result_bind ok]. intros Hsave.
  set (climate_batch_path := os_path_join watershed_path ["climate_calcs"; timestamp]) in *.
  destruct rows as [|first rest]; [discriminate|].
  pose proof (do_bqart_rows_length _ _ _ _ _ _ _ _ Hrun) as Hlen.
  destruct (do_bqart_records_need_fault_table _ _ _ _ _ _ _ _ Hrun)
    as (fdo & csv_row & Hload & Hfdo); [done|].
  destruct (load_fault_data_nonempty _ _ _ _ Hload Hfdo) as (Htruthy & p & -> & _).
  revert Hsave. unfold save_data_to_csv, row_headers.
  rewrite (Forall_inv Hlen). cbn [Nat.ltb Nat.leb mbind result_bind ok].
  unfold write_file. rewrite dirname_join.
  destruct (isdir w3 climate_batch_path) eqn:Hdir; [|discriminate].
  intros [= <-]. exists (first :: rest), p. cbn [fs].
  split; [apply lookup_insert_eq|]. split; [done|]. split; [exact Hlen|].
  split; [done|]. split; [by destruct p|]. split; [by eexists|]. split; [by eexists|].
  exact Hdir.
Qed.

End BqartStage.

Lemma bqart_stage_completed_witness :
  exists w' rows,
    bqart_workflow demo_service demo_batch demo_watershed_raster demo_fault_paths
      demo_watershed_path demo_temp_directory demo_precip_directory "now" demo_timestamp
      demo_w_ready = ok w' /\
    fs w' !! os_path_join demo_climate_batch_path ["qs_data.csv"]
    = Some (FRecords (base_headers ++ fault_headers) rows) /\
    rows ≠ [].
Proof.
  (* the directories of the run *)
  destruct (climate_batch_directory_runs demo_watershed_path demo_timestamp demo_w_ready)
    as (w1 & Hdirs & Hfs1 & _ & _ & Hcb1 & _); [reflexivity | reflexivity |].
  (* both clipped rasters are in the cache *)
  assert (Ht : check_climate_cache w1 demo_watershed_path "now" "t"
               = Some (clip_path demo_watershed_path "now" "t")).
  { apply (check_climate_cache_found w1 demo_watershed_path "now" "t"
             (FRaster (fun _ => 200%R))). by rewrite Hfs1. }
  assert (Hp : check_climate_cache w1 demo_watershed_path "now" "p"
               = Some (clip_path demo_watershed_path "now" "p")).
  { apply (check_climate_cache_found w1 demo_watershed_path "now" "p"
             (FRaster (fun _ => 1000%R))). by rewrite Hfs1. }
  pose proof (climate_rasters_cached demo_service demo_watershed_raster demo_watershed_path
                demo_temp_directory demo_precip_directory "now" w1 _ _ Ht Hp) as Hclimate.
  (* the zonal statistics *)
  destruct (climate_statistics_tables demo_service demo_batch demo_climate_batch_path
              demo_watershed_raster (clip_path demo_watershed_path "now" "p")
              (clip_path demo_watershed_path "now" "p") w1
              (FRaster (fun _ => 1%R)) (FRaster (fun _ => 1000%R))
              (FRaster (fun _ => 1000%R)) (FRaster (fun _ => 1500%R)))
    as (w3 & Hstats & Htz & Hpz & Hez & Hframe & Hdirs3);
    [by rewrite Hfs1 | by rewrite Hfs1 | by rewrite Hfs1 | by rewrite Hfs1 | exact Hcb1
    | discriminate | discriminate | discriminate |].
  (* the records *)
  assert (Hcsv : fs w3 !! demo_intersect_data
                 = Some (FCsv [["id"; "fault"; "distance"]; ["1"; "0"; "12.5"]])).
  { rewrite Hframe by discriminate. by rewrite Hfs1. }
  assert (Hrun : do_bqart w3 (os_path_join demo_climate_batch_path ["precip_data"])
                   (os_path_join demo_climate_batch_path ["temp_data"])
                   (os_path_join demo_climate_batch_path ["elev_data"])
                   (MPath demo_intersect_data) (MMeta demo_fault_meta) (MNum (Float 1))
                 = ok [(qs_base 1 (zone_chain 1000 100000000 (Float 1500) (Float 1500) 1000)
                        ++ [CNum (Float 2); CNum (Float (100000000 * (2 / 1000) / 2700));
                            CStr "0"; CStr "Alpine"; CStr "12.5"])%list]).
  { unfold do_bqart, SearchCursor. rewrite Htz, Hpz, Hez.
    change (demo_service _ [FRaster (fun _ => 1%R); FRaster (fun _ => 1000%R)])
      with (FTable [ZRow 1 (Float 1000) (Float 1000) (Float 1000) (Float 100000000)]).
    change (demo_service _ [FRaster (fun _ => 1%R); FRaster (fun _ => 1500%R)])
      with (FTable [ZRow 1 (Float 1500) (Float 1500) (Float 1500) (Float 100000000)]).
    cbn [mbind result_bind ok].
    unfold load_fault_data. change (truthy (MPath demo_intersect_data)) with true.
    unfold exists_. rewrite (isfile_true _ _ _ Hcsv), Hcsv.
    cbn [orb csv_reader fault_rows mbind result_bind ok nonempty].
    replace (keys (dict_of MEAN [ZRow 1 (Float 1000) (Float 1000) (Float 1000)
                                   (Float 100000000)])) with [1] by (by vm_compute).
    cbn [mapM mbind result_bind]. unfold bqart_zone.
    rewrite (bqart_vars_floats _ _ _ _ _ 1 1000 100000000 (Float 1500) (Float 1500) 1000)
      by (reflexivity || lra).
    cbn [mbind result_bind ok]. cbn [zone_chain zone.area_m_squared].
    rewrite (bqart_tectonic_fault _ _ (FaultMeta "Alpine" (Float 1) (Float 2) (Int 0)
               (Int 10000) "normal") _ _ _ "0" "12.5" 0 2); reflexivity. }
  (* the table *)
  assert (Hsave : exists w',
             save_data_to_csv
               [(qs_base 1 (zone_chain 1000 100000000 (Float 1500) (Float 1500) 1000)
                 ++ [CNum (Float 2); CNum (Float (100000000 * (2 / 1000) / 2700));
                     CStr "0"; CStr "Alpine"; CStr "12.5"])%list]
               demo_climate_batch_path w3 = ok w').
  { assert (Hd3 : isdir w3 demo_climate_batch_path = true)
      by (unfold isdir in *; rewrite Hdirs3; exact Hcb1).
    unfold save_data_to_csv, row_headers, write_file. cbn [mbind result_bind ok].
    rewrite dirname_join, Hd3. by eexists. }
  destruct Hsave as [w' Hsave].
  assert (Hstage : bqart_workflow demo_service demo_batch demo_watershed_raster
                     demo_fault_paths demo_watershed_path demo_temp_directory
                     demo_precip_directory "now" demo_timestamp demo_w_ready = ok w').
  { unfold bqart_workflow. rewrite Hdirs. cbn [mbind result_bind ok].
    rewrite Hclimate. cbn [mbind result_bind ok].
    fold demo_climate_batch_path. rewrite Hstats. cbn [mbind result_bind ok].
    change (manifest_getitem demo_fault_paths "fault_data")
      with (ok (A := mval) (MPath demo_intersect_data)).
    change (manifest_getitem demo_fault_paths "fault_meta_data")
      with (ok (A := mval) (MMeta demo_fault_meta)).
    change (manifest_getitem demo_fault_paths "uplift_rate")
      with (ok (A := mval) (MNum (Float 1))).
    cbn [mbind result_bind ok]. rewrite Hrun. cbn [mbind result_bind ok]. exact Hsave. }
  destruct (bqart_stage_completed demo_service demo_batch demo_watershed_raster
              demo_fault_paths demo_watershed_path demo_temp_directory
              demo_precip_directory "now" demo_timestamp demo_w_ready w' Hstage)
    as (rows & fault_data & Hfile & Hne & _).
  exists w', rows. split; [exact Hstage|]. split; [exact Hfile|exact Hne].
Defined.

Lemma fault_stage_runs_witness :
  exists self' hydro_paths' w',
    fault_workflow demo_service demo_batch demo_faultlines demo_hydro_paths demo_w_hydro
    = ok (in_dir demo_batch_path demo_batch "_intersects_above.shp", self', hydro_paths',
          w') /\
    extends_in demo_batch_path demo_w_hydro w'.
Proof.
  destruct demo_hydro_run as (_ & Hext & Hpresent).
  destruct (fault_stage_runs demo_service demo_batch demo_faultlines demo_hydro_paths
              demo_w_hydro
              [Feature 0 (FaultMeta "Alpine" (Float 1) (Float 2) (Int 0) (Int 10000)
                            "normal")]
              (in_dir demo_batch_path demo_batch "_streams.shp")
              [Event "1" "0" "12.5"])
    as (self' & m' & w' & Hrun & _ & _ & Hext' & _).
  - destruct Hext as (_ & Hframe & _). by rewrite Hframe.
  - reflexivity.
  - exact Hpresent.
  - by rewrite (extends_in_isdir _ _ _ _ Hext).
  - intros ins. reflexivity.
  - discriminate.
  - exists self', m', w'. split; [exact Hrun|exact Hext'].
Defined.
